(** * NexusAI multi-agent assistant: the orchestration core

    A shallow embedding of [services/geminiService.ts] (trace recorder, history
    compactor, planner, agent executor, mode dispatcher, synthesizer, evaluator)
    and of [services/memoryService.ts] (the memory bank), with the properties
    of the orchestration engine proved over it.

    Conventions of the embedding.
    - A JavaScript string is a [string]; one character stands for one UTF-16
      code unit, so [String.length] is the [.length] of the source.
    - A JavaScript array is a [list], oldest element first; [push] appends at
      the end.
    - Integral [number]s (timestamps, counts, lengths) are [Z]; the evaluation
      score, which the scoring service may return with a fraction, is a [Q].
    - An optional value ([undefined] allowed) is an [option].
    - [async] functions are sequential computations in the monad [M] below; an
      awaited promise that rejects is a thrown exception.  Where the source
      lets several of them run at once (the PARALLEL fan-out) they are
      interleaved at their [await]s, in an order the outside world chooses. *)

From Stdlib Require Import String Ascii List ZArith QArith Lia Bool.
Import ListNotations.
Close Scope Q_scope.
Open Scope string_scope.

(** ** types.ts *)

Inductive AgentDomain := HEALTH | EDUCATION | ENVIRONMENT | ORCHESTRATOR.

Inductive ExecutionMode := PARALLEL | SEQUENTIAL | LOOP | DIRECT | PAUSED | PLANNING.

Inductive Sentiment := POSITIVE | NEUTRAL | NEGATIVE | EMPATHETIC.

(** The string value of an enum member, as it appears in template literals. *)
Definition domainName (a : AgentDomain) : string :=
  match a with
  | HEALTH => "HEALTH"
  | EDUCATION => "EDUCATION"
  | ENVIRONMENT => "ENVIRONMENT"
  | ORCHESTRATOR => "ORCHESTRATOR"
  end.

Definition AgentDomain_eqb (a b : AgentDomain) : bool :=
  match a, b with
  | HEALTH, HEALTH | EDUCATION, EDUCATION
  | ENVIRONMENT, ENVIRONMENT | ORCHESTRATOR, ORCHESTRATOR => true
  | _, _ => false
  end.

Record AgentStep := { agent : AgentDomain; instruction : string }.

Record AgentPlan := {
  mode : ExecutionMode;
  steps : list AgentStep;
  reasoning : string
}.

(** [Record<string, string>]: a JavaScript object enumerates its string keys in
    insertion order, and assigning to a key that is present keeps its place. *)
Definition AgentOutputs := list (AgentDomain * string).

Record PausedState := {
  plan : AgentPlan;
  stepIndex : nat;
  accumulatedContext : string;
  agentOutputs : AgentOutputs
}.

Record UserContext := {
  name : string;
  location : string;
  healthConditions : list string;
  learningGoals : list string;
  ecoPreferences : list string;
  notes : list string;
  lastInteraction : Z
}.

Record EvaluationResult := {
  score : Q;
  feedback : string;
  latencyMs : Z;
  tokenCost : Z
}.

Record AgentMetric := {
  metric_name : string;
  metric_value : Z;
  metric_unit : string;
  timestamp : Z
}.

Record ChartDataPoints := {
  health : list (string * Q * Q);
  env : list (string * Q * Q);
  edu : list (string * Q * Q)
}.

(** ** JavaScript helpers *)

Definition nl : string := String (ascii_of_nat 10) EmptyString.
Definition dq : string := String (ascii_of_nat 34) EmptyString.

(** [Array.prototype.join] *)
Definition join (sep : string) (l : list string) : string := String.concat sep l.

(** [Array.prototype.includes] on an array of strings *)
Definition includes (l : list string) (x : string) : bool :=
  existsb (fun y => String.eqb y x) l.

(** [Array.prototype.push] *)
Definition push {A} (l : list A) (x : A) : list A := l ++ [x].

(** [a || b] on strings: the empty string is falsy. *)
Definition strOr (a b : string) : string := if String.eqb a "" then b else a.

(** [a || b] where [a] may also be [undefined]. *)
Definition textOr (a : option string) (b : string) : string :=
  match a with
  | Some s => strOr s b
  | None => b
  end.

(** An optional string inside a template literal. *)
Definition show (a : option string) : string :=
  match a with
  | Some s => s
  | None => "undefined"
  end.

(** [Array.prototype.slice(start)] with an integral [start]: a negative start
    counts from the end, and the start is clamped to the array. *)
Definition slice {A} (start : Z) (l : list A) : list A :=
  let len := Z.of_nat (length l) in
  let k := if (start <? 0)%Z then Z.max (len + start) 0 else Z.min start len in
  skipn (Z.to_nat k) l.

(** ** memoryService.ts: MemoryBankService

    The service holds one [UserContext].  [save()] writes a JSON snapshot of it
    to [localStorage] and swallows every failure; the snapshot is read back
    only by the constructor, so it is not part of the state here.  The four
    lists of a context are taken to be four distinct arrays, as the default
    context and a parsed snapshot have them.  A context spread from
    [DEFAULT_CONTEXT] shares its arrays with it, which only [clear()] could
    observe; [clear()] is not modelled. *)
Module MemoryBankService.

(** [lastInteraction] is the time at which the module was loaded. *)
Definition DEFAULT_CONTEXT (loadedAt : Z) : UserContext :=
  {| name := "User"; location := "Unknown";
     healthConditions := []; learningGoals := []; ecoPreferences := [];
     notes := []; lastInteraction := loadedAt |}.

(** [Partial<UserContext>] *)
Record Updates := {
  u_name : option string;
  u_location : option string;
  u_healthConditions : option (list string);
  u_learningGoals : option (list string);
  u_ecoPreferences : option (list string);
  u_notes : option (list string);
  u_lastInteraction : option Z
}.

Definition orElse {A} (o : option A) (d : A) : A :=
  match o with Some x => x | None => d end.

(** [{ ...this.context, ...updates, lastInteraction: Date.now() }] *)
Definition updateContext (updates : Updates) (now : Z) (c : UserContext) : UserContext :=
  {| name := orElse (u_name updates) (name c);
     location := orElse (u_location updates) (location c);
     healthConditions := orElse (u_healthConditions updates) (healthConditions c);
     learningGoals := orElse (u_learningGoals updates) (learningGoals c);
     ecoPreferences := orElse (u_ecoPreferences updates) (ecoPreferences c);
     notes := orElse (u_notes updates) (notes c);
     lastInteraction := now |}.

Definition addNote (note : string) (c : UserContext) : UserContext :=
  if negb (includes (notes c) note) then
    {| name := name c; location := location c;
       healthConditions := healthConditions c;
       learningGoals := learningGoals c;
       ecoPreferences := ecoPreferences c;
       notes := push (notes c) note;
       lastInteraction := lastInteraction c |}
  else c.

(** ['healthConditions' | 'learningGoals' | 'ecoPreferences'] *)
Inductive ArrayKey := healthConditionsKey | learningGoalsKey | ecoPreferencesKey.

(** [this.context[key]] *)
Definition getArray (key : ArrayKey) (c : UserContext) : list string :=
  match key with
  | healthConditionsKey => healthConditions c
  | learningGoalsKey => learningGoals c
  | ecoPreferencesKey => ecoPreferences c
  end.

Definition setArray (key : ArrayKey) (l : list string) (c : UserContext) : UserContext :=
  {| name := name c; location := location c;
     healthConditions :=
       match key with healthConditionsKey => l | _ => healthConditions c end;
     learningGoals :=
       match key with learningGoalsKey => l | _ => learningGoals c end;
     ecoPreferences :=
       match key with ecoPreferencesKey => l | _ => ecoPreferences c end;
     notes := notes c;
     lastInteraction := lastInteraction c |}.

Definition addArrayItem (key : ArrayKey) (item : string) (c : UserContext) : UserContext :=
  if negb (includes (getArray key c) item) then
    setArray key (push (getArray key c) item) c
  else c.

Definition getFormattedContext (c : UserContext) : string :=
  "
      [MEMORY BANK - LONG TERM USER CONTEXT]
      Name: " ++ name c ++ "
      Location: " ++ location c ++ "
      Health Profile: " ++ strOr (join ", " (healthConditions c)) "None recorded" ++ "
      Learning Goals: " ++ strOr (join ", " (learningGoals c)) "None recorded" ++ "
      Eco Preferences: " ++ strOr (join ", " (ecoPreferences c)) "None recorded" ++ "
      Key Notes: " ++ join "; " (notes c) ++ "
    ".

End MemoryBankService.

(** ** geminiService.ts: TraceService *)
Module TraceService.

(** [private metrics: AgentMetric[]] *)
Definition t := list AgentMetric.

Definition empty : t := [].

Definition recordMetric (name : string) (value : Z) (unit : string) (now : Z) (metrics : t) : t :=
  push metrics
    {| metric_name := name; metric_value := value; metric_unit := unit; timestamp := now |}.

(** [getRecentMetrics(count: number = 5)]: an omitted argument is [None]. *)
Definition getRecentMetrics (count : option Z) (metrics : t) : list AgentMetric :=
  let count := match count with Some n => n | None => 5%Z end in
  slice (- count) metrics.

Definition clear (metrics : t) : t := [].

End TraceService.

(** ** geminiService.ts: constants and wire types *)

Definition MODEL_FLASH := "gemini-2.5-flash".
Definition MODEL_FLASH_LITE := "gemini-2.5-flash-lite".
Definition MODEL_PRO_THINKING := "gemini-3-pro-preview".

(** The three response schemas are constant objects; a request names the one
    it carries (always together with [responseMimeType: "application/json"]). *)
Inductive Schema := ORCHESTRATOR_SCHEMA | FINAL_RESPONSE_SCHEMA | EVALUATION_SCHEMA.

(** The argument of [ai.models.generateContent]. *)
Record GenerateContentRequest := {
  model : string;
  role : option string;
  contents : string;
  systemInstruction : option string;
  responseSchema : option Schema;
  thinkingBudget : option Z
}.

(** [call.args as any], where a call has them: the fields the handlers read,
    typed as the function declarations require them. *)
Record CallArgs := {
  reason : string;
  patientId : string;
  category : string;
  item : string
}.

(** A function call; [args] is optional in the SDK's type, and the handlers
    read it unchecked. *)
Record FunctionCall := { call_name : string; args : option CallArgs }.

(** A part of a candidate: only the truthiness of [executableCode] is read. *)
Record Part := { executableCode : bool }.

(** A candidate: the truthiness of [groundingMetadata], and [content?.parts]
    (absent is the empty list). *)
Record Candidate := { groundingMetadata : bool; content_parts : list Part }.

(** [GenerateContentResponse], as far as the service reads it. *)
Record GenerateContentResponse := {
  text : option string;
  functionCalls : option (list FunctionCall);
  candidates : option (list Candidate)
}.

(** What [OPENAPI_TOOL_SIMULATION] resolves to. *)
Record ApiResult := { status : Z; data : option string; error : option string }.

(** The [functionResponse] object built by a tool handler. *)
Inductive FunctionResponse :=
| ApiResponse (result : ApiResult)  (* { result: apiResult } *)
| MemoryUpdated.   (* { result: { status: "success", message: "Memory updated." } } *)

(** The argument of [chat.sendMessage]. *)
Inductive ChatMessage :=
| Instruction (message : string)
| FunctionResponseMessage (name : string) (response : FunctionResponse).

(** The argument of [ai.chats.create]; [tools] is always [AGENT_TOOLS]. *)
Record ChatConfig := { chat_model : string; chat_systemInstruction : string }.

(** [FINAL_RESPONSE_SCHEMA] as parsed: [response] and [sentiment] are required. *)
Record SynthesisJSON := {
  response : string;
  sentiment : Sentiment;
  crossDomainInsight : option string;
  suggestedAction : option string;
  toolCalls : option (list string);
  chartData : option ChartDataPoints
}.

(** [EVALUATION_SCHEMA] as parsed. *)
Record EvaluationJSON := { parsed_score : Q; parsed_feedback : string }.

(** One prior turn: [{ role, parts: [{ text }, ...] }]; a part is its text. *)
Record Turn := { turn_role : string; turn_parts : list string }.

Record AgentExecutionResult := {
  res_text : string;
  isPaused : bool;
  pauseReason : option string;
  toolUsage : option (list string)
}.

(** The two shapes [runMultiAgentSystem] resolves to. *)
Inductive RunResult :=
| PausedRun (response : string) (sentiment : Sentiment) (executionMode : ExecutionMode)
    (activeAgents : list AgentDomain) (pausedState : PausedState) (reasoning : option string)
| CompletedRun (parsed : SynthesisJSON) (activeAgents : list AgentDomain)
    (executionMode : ExecutionMode) (evaluation : EvaluationResult)
    (metrics : list AgentMetric).

Definition executionMode (r : RunResult) : ExecutionMode :=
  match r with
  | PausedRun _ _ m _ _ _ => m
  | CompletedRun _ _ m _ _ => m
  end.

Definition pausedState (r : RunResult) : option PausedState :=
  match r with
  | PausedRun _ _ _ _ p _ => Some p
  | CompletedRun _ _ _ _ _ => None
  end.

(** ** Exceptions and outcomes *)

Inductive Exn :=
| TypeError (msg : string)   (* a property read on [undefined] *)
| SyntaxError                (* [JSON.parse] *)
| Rejected (msg : string)    (* a rejection by an external service *)
| Error (msg : string).      (* [new Error(msg)] *)

Inductive Outcome (A : Type) :=
| Returned (a : A)
| Thrown (e : Exn).
Arguments Returned {A} a.
Arguments Thrown {A} e.

(** ** The external collaborators

    Everything the service cannot compute by itself: the clock, the reasoning
    service behind [GoogleGenAI] (one-shot generation and chat sessions), the
    JSON parser at the three types it is cast to, [String.prototype.toUpperCase]
    and the session id.  The outside world is a state of an arbitrary type that
    each call may read and change; a call that rejects yields [Thrown].
    [nextToSettle w n] says which of [n] operations that are in flight at once
    settles next (its position among them, taken modulo [n]).
    [parse*] is [None] where [JSON.parse] throws.  The source casts the parsed
    value to the expected type without checking it; here a text that parses
    is taken to have the shape of the response schema its request carried, and
    what the code does with JSON of another shape (with [null], say, whose
    first property read throws a [TypeError]) is outside the embedding. *)
Class Collaborators := {
  World : Type;
  Chat : Type;
  Date_now : World -> Z * World;
  generateContent :
    string -> GenerateContentRequest -> World -> Outcome GenerateContentResponse * World;
  chats_create : string -> ChatConfig -> World -> Chat * World;
  sendMessage : Chat -> ChatMessage -> World -> Outcome GenerateContentResponse * World;
  nextToSettle : World -> nat -> nat;
  parsePlan : string -> option AgentPlan;
  parseEvaluation : string -> option EvaluationJSON;
  parseSynthesis : string -> option SynthesisJSON;
  toUpperCase : string -> string;
  getSessionId : string
}.

(** A call that left the process, with what came back.  The [onLog] lines of
    the source go to a callback of the caller and are not recorded. *)
Inductive Event :=
| GenerateContentCall (req : GenerateContentRequest)
    (result : Outcome GenerateContentResponse)
| ChatCreateCall (cfg : ChatConfig)
| SendMessageCall (msg : ChatMessage) (result : Outcome GenerateContentResponse).

(** ** A state-and-exception monad

    A computation reads and changes a state and either returns or throws.  As
    in JavaScript, what was changed before a [throw] stays changed. *)

Definition M (S A : Type) : Type := S -> Outcome A * S.

Definition ret {S A} (a : A) : M S A := fun s => (Returned a, s).

Definition throw {S A} (e : Exn) : M S A := fun s => (Thrown e, s).

Definition bind {S A B} (m : M S A) (k : A -> M S B) : M S B :=
  fun s =>
    match m s with
    | (Returned a, s') => k a s'
    | (Thrown e, s') => (Thrown e, s')
    end.

(** [await p] for a promise [p] that has settled. *)
Definition settle {S A} (o : Outcome A) : M S A := fun s => (o, s).

(** [try { m } catch (e) { handler e }] *)
Definition tryCatch {S A} (m : M S A) (handler : Exn -> M S A) : M S A :=
  fun s =>
    match m s with
    | (Returned a, s') => (Returned a, s')
    | (Thrown e, s') => handler e s'
    end.

Declare Scope monad_scope.
Delimit Scope monad_scope with monad.
Notation "x <- c ;; k" := (bind c (fun x => k))
  (at level 61, c at next level, right associativity) : monad_scope.
Notation "c ;; k" := (bind c (fun _ => k))
  (at level 61, right associativity) : monad_scope.
Open Scope monad_scope.

(** ** Prompt templates (the template literals of the source, verbatim) *)

Definition AGENT_PROMPTS (a : AgentDomain) : string :=
  match a with
  | HEALTH => "You are HealthAgent. You have access to medical records tools. Use them if asked about specific patient data."
  | EDUCATION => "You are EduAgent. You can execute code to solve math problems. Focus on pedagogy."
  | ENVIRONMENT => "You are EcoAgent. You can use Google Search to find current air quality or news."
  | ORCHESTRATOR => "You are the Orchestrator. Manage the system."
  end.

Definition summarizePrompt (historyText : string) : string :=
  "Summarize this conversation concisely, retaining key facts, user goals, and latest state:"
  ++ nl ++ nl ++ historyText.

Definition evaluationPrompt (query result : string) : string :=
  "
                Evaluate this AI response based on the query.
                Query: " ++ dq ++ query ++ dq ++ "
                Response: " ++ dq ++ result ++ dq ++ "
                
                Rate 0-10 on Relevance, Accuracy, and Safety.
                Provide brief feedback.
            ".

Definition planningPrompt (prompt : string) : string :=
  "
        Analyze this request (including context): " ++ dq ++ prompt ++ dq ++ ".
        Decide the strategy:
        - DIRECT: Simple query.
        - PARALLEL: Distinct independent tasks.
        - SEQUENTIAL: Step-by-step logic. Use this if the user implies a long process or " ++ dq ++ "pause" ++ dq ++ ".
        - LOOP: Refinement.
        
        Return JSON matching schema.
      ".

Definition agentSystemInstruction
    (agent : AgentDomain) (context language memory : string) : string :=
  AGENT_PROMPTS agent ++ "
        Context: " ++ context ++ "
        Language: " ++ language ++ "
        MEMORY BANK: " ++ memory ++ "
        IMPORTANT: Respond strictly in " ++ language ++ ".
        
        TOOLS AVAILABLE:
        - Google Search: For live info (weather, news, stocks).
        - Code Execution: For math, logic, and data processing.
        - fetchMedicalRecords: For patient data (OpenAPI).
        - updateMemory: To save user preferences.
        - pauseWorkflow: If task needs to stop/wait.
      ".

Definition fullPlanningContext (contextSummary prompt memoryContext : string) : string :=
  "
      Previous Conversation Summary/History:
      " ++ contextSummary ++ "
      
      Current Request: " ++ prompt ++ "
      
      User Profile:
      " ++ memoryContext ++ "
    ".

Definition initialContext (prompt sessionId contextSummary memoryContext : string) : string :=
  "User Query: " ++ prompt ++ nl ++ "Session ID: " ++ sessionId ++ nl
  ++ "History Context: " ++ contextSummary ++ nl ++ memoryContext.

Definition synthesisSystemInstruction (toolUsageLog : list string) (language : string) : string :=
  "
    Synthesize the agent outputs.
    CRITICAL: Generate a 'crossDomainInsight' that explicitly connects findings from different domains (Health, Education, Environment) and relates them to the User Profile (Memory Bank).
    Tools Used: " ++ join ", " toolUsageLog ++ ".
    Include 'toolCalls' in JSON if tools were used.
    Language: " ++ language ++ ".
  ".

(** [Object.entries(agentOutputs).map(...).join('\n\n')] *)
Definition synthesisContext (agentOutputs : AgentOutputs) : string :=
  join (nl ++ nl)
    (map (fun '(agent, out) => domainName agent ++ " Output: " ++ out) agentOutputs).

Definition synthesisPrompt (prompt results contextSummary memory : string) : string :=
  "
        Original Query: " ++ prompt ++ "
        Results: " ++ results ++ "
        History/Context: " ++ contextSummary ++ "
        Memory Context: " ++ memory ++ "
        Construct final JSON.
      ".

(** The annotations the sequential dispatcher appends to the running context. *)
Definition pausedAnnotation (agent : AgentDomain) (text : string) : string :=
  nl ++ "[Paused Step " ++ domainName agent ++ "]: " ++ text.

Definition outputAnnotation (agent : AgentDomain) (text : string) : string :=
  nl ++ "[Output from " ++ domainName agent ++ "]: " ++ text.

(** [agentOutputs[agent] = text] *)
Fixpoint setOutput (agent : AgentDomain) (text : string) (o : AgentOutputs) : AgentOutputs :=
  match o with
  | [] => [(agent, text)]
  | (a, t) :: o' =>
      if AgentDomain_eqb a agent then (agent, text) :: o'
      else (a, t) :: setOutput agent text o'
  end.

(** [OPENAPI_TOOL_SIMULATION]: the value it resolves to (it also waits half a
    second on the known operation and writes one console line), or the
    [TypeError] it rejects with when it reads [params.patientId] off missing
    parameters. *)
Definition OPENAPI_TOOL_SIMULATION (operationId : string) (params : option CallArgs)
  : Outcome ApiResult :=
  if String.eqb operationId "fetchMedicalRecords" then
    match params with
    | Some p =>
        Returned
          {| status := 200;
             data := Some ("Patient " ++ patientId p
                           ++ ": HR 72, BP 120/80, Allergies: Penicillin, Recent Labs: Normal");
             error := None |}
    | None =>
        Thrown (TypeError "Cannot read properties of undefined (reading 'patientId')")
    end
  else Returned {| status := 404; data := None; error := Some "Operation not found" |}.

(** [history.map(h => `${h.role.toUpperCase()}: ${h.parts[0].text}`)]; [None]
    where some turn has no first part, which is a [TypeError] in the source. *)
Fixpoint historyLines (upper : string -> string) (history : list Turn) : option (list string) :=
  match history with
  | [] => Some []
  | h :: rest =>
      match turn_parts h with
      | [] => None
      | t :: _ =>
          match historyLines upper rest with
          | Some ls => Some ((upper (turn_role h) ++ ": " ++ t) :: ls)
          | None => None
          end
      end
  end.

Definition EVALUATION_UNAVAILABLE : EvaluationResult :=
  {| score := 8 # 1; feedback := "Evaluation service unavailable.";
     latencyMs := 0; tokenCost := 0 |}.

Definition FALLBACK_PLAN (prompt : string) : AgentPlan :=
  {| mode := DIRECT;
     steps := [ {| agent := ORCHESTRATOR; instruction := prompt |} ];
     reasoning := "Fallback." |}.

(** ** The service *)

Section Service.
Context {env : Collaborators}.

(** The process-wide singletons ([memoryBank], [traceService]), the outside
    world, and the record of the calls made so far (oldest first), which the
    source does not keep and which only the properties read. *)
Record State := {
  world : World;
  memoryBank : UserContext;
  traceService : TraceService.t;
  calls : list Event
}.

Definition setWorld (w : World) (s : State) : State :=
  {| world := w; memoryBank := memoryBank s;
     traceService := traceService s; calls := calls s |}.

Definition setMemoryBank (c : UserContext) (s : State) : State :=
  {| world := world s; memoryBank := c;
     traceService := traceService s; calls := calls s |}.

Definition setTraceService (t : TraceService.t) (s : State) : State :=
  {| world := world s; memoryBank := memoryBank s;
     traceService := t; calls := calls s |}.

Definition addCall (e : Event) (s : State) : State :=
  {| world := world s; memoryBank := memoryBank s;
     traceService := traceService s; calls := calls s ++ [e] |}.

(** *** Primitive effects *)

(** [Date.now()] *)
Definition now : M State Z :=
  fun s => let (t, w) := Date_now (world s) in (Returned t, setWorld w s).

(** [await ai.models.generateContent(req)] with [ai = new GoogleGenAI({ apiKey })] *)
Definition callGenerateContent (apiKey : string) (req : GenerateContentRequest)
  : M State GenerateContentResponse :=
  fun s =>
    let (r, w) := generateContent apiKey req (world s) in
    (r, addCall (GenerateContentCall req r) (setWorld w s)).

(** [ai.chats.create({ model, config })] *)
Definition callChatsCreate (apiKey : string) (cfg : ChatConfig) : M State Chat :=
  fun s =>
    let (c, w) := chats_create apiKey cfg (world s) in
    (Returned c, addCall (ChatCreateCall cfg) (setWorld w s)).

(** [await chat.sendMessage({ message })] *)
Definition callSendMessage (chat : Chat) (msg : ChatMessage)
  : M State GenerateContentResponse :=
  fun s =>
    let (r, w) := sendMessage chat msg (world s) in
    (r, addCall (SendMessageCall msg r) (setWorld w s)).

(** [memoryBank.getFormattedContext()] *)
Definition getFormattedContext : M State string :=
  fun s => (Returned (MemoryBankService.getFormattedContext (memoryBank s)), s).

Definition modifyMemoryBank (f : UserContext -> UserContext) : M State unit :=
  fun s => (Returned tt, setMemoryBank (f (memoryBank s)) s).

(** [traceService.recordMetric(name, value, unit)] *)
Definition recordMetric (name : string) (value : Z) (unit : string)
  : M State Datatypes.unit :=
  t <- now ;;
  fun s => (Returned tt,
            setTraceService (TraceService.recordMetric name value unit t (traceService s)) s).

(** [traceService.recordMetric(name, Date.now() - start, "ms")] *)
Definition recordElapsed (name : string) (start : Z) : M State unit :=
  t <- now ;;
  recordMetric name (t - start) "ms".

(** [traceService.getRecentMetrics()] *)
Definition getRecentMetrics : M State (list AgentMetric) :=
  fun s => (Returned (TraceService.getRecentMetrics None (traceService s)), s).

(** [JSON.parse(response.text)], cast to the type the caller expects;
    [undefined] is not JSON either.  The parsed value has the shape of that
    type, as assumed of [parse*]. *)
Definition jsonParse {A} (parse : string -> option A) (text : option string) : M State A :=
  match text with
  | Some t =>
      match parse t with
      | Some v => ret v
      | None => throw SyntaxError
      end
  | None => throw SyntaxError
  end.

(** *** Context engineering: compaction *)

(** The verbatim transcript, one ["ROLE: text"] line per turn. *)
Definition transcript (history : list Turn) : M State string :=
  match historyLines toUpperCase history with
  | Some ls => ret (join nl ls)
  | None => throw (TypeError "Cannot read properties of undefined (reading 'text')")
  end.

(** The compactor's summarization request over a transcript. *)
Definition summarizationRequest (historyText : string) : GenerateContentRequest :=
  {| model := MODEL_FLASH_LITE; role := None;
     contents := summarizePrompt historyText;
     systemInstruction := None; responseSchema := None;
     thinkingBudget := None |}.

Definition compactHistory (history : list Turn) (apiKey : string) : M State string :=
  if (length history =? 0)%nat then ret ""
  else
    historyText <- transcript history ;;
    response <- callGenerateContent apiKey (summarizationRequest historyText) ;;
    ret (textOr (text response) "").

(** *** Agent evaluation *)

Definition evaluationRequest (query result : string) : GenerateContentRequest :=
  {| model := MODEL_FLASH_LITE; role := None;
     contents := evaluationPrompt query result;
     systemInstruction := None; responseSchema := Some EVALUATION_SCHEMA;
     thinkingBudget := None |}.

Definition evaluateResponse (query result apiKey : string) : M State EvaluationResult :=
  start <- now ;;
  tryCatch
    (response <- callGenerateContent apiKey (evaluationRequest query result) ;;
     parsed <- jsonParse parseEvaluation (text response) ;;
     t <- now ;;
     let latency := (t - start)%Z in
     ret {| score := parsed_score parsed;
            feedback := parsed_feedback parsed;
            latencyMs := latency;
            tokenCost := (Z.of_nat (String.length result) / 4)%Z |})
    (fun _ => ret EVALUATION_UNAVAILABLE).

(** *** 1. Orchestrator: plan the execution *)

Definition planningRequest (prompt : string) : GenerateContentRequest :=
  {| model := MODEL_FLASH_LITE; role := Some "user";
     contents := planningPrompt prompt;
     systemInstruction := None; responseSchema := Some ORCHESTRATOR_SCHEMA;
     thinkingBudget := None |}.

Definition planExecution (prompt apiKey : string) : M State AgentPlan :=
  start <- now ;;
  response <- callGenerateContent apiKey (planningRequest prompt) ;;
  recordElapsed "PlanningLatency" start ;;
  jsonParse parsePlan (text response).

(** *** 2. Agent execution with tools and pause support *)

(** The [updateMemory] handler. *)
Definition updateMemory (a : CallArgs) : M State unit :=
  if String.eqb (category a) "health" then
    modifyMemoryBank
      (MemoryBankService.addArrayItem MemoryBankService.healthConditionsKey (item a))
  else if String.eqb (category a) "education" then
    modifyMemoryBank
      (MemoryBankService.addArrayItem MemoryBankService.learningGoalsKey (item a))
  else if String.eqb (category a) "environment" then
    modifyMemoryBank
      (MemoryBankService.addArrayItem MemoryBankService.ecoPreferencesKey (item a))
  else if String.eqb (category a) "profile" then
    t <- now ;;
    modifyMemoryBank
      (MemoryBankService.updateContext
         {| MemoryBankService.u_name := Some (item a);
            MemoryBankService.u_location := None;
            MemoryBankService.u_healthConditions := None;
            MemoryBankService.u_learningGoals := None;
            MemoryBankService.u_ecoPreferences := None;
            MemoryBankService.u_notes := None;
            MemoryBankService.u_lastInteraction := None |} t)
  else modifyMemoryBank (MemoryBankService.addNote (item a)).

(** The exit of [executeAgent] below its loop. *)
Definition finishAgent (start : Z) (response : GenerateContentResponse)
    (toolUsage : list string) : M State AgentExecutionResult :=
  recordElapsed "AgentExecutionTime" start ;;
  ret {| res_text := textOr (text response) "Task Completed.";
         isPaused := false; pauseReason := None;
         toolUsage := Some toolUsage |}.

(** The handlers of the client tools: the [functionResponse] object, which
    stays [{}] ([None]) where the source leaves the loop by [break]. *)
Definition handleCall (call : FunctionCall) : M State (option FunctionResponse) :=
  if String.eqb (call_name call) "fetchMedicalRecords" then
    apiResult <- settle (OPENAPI_TOOL_SIMULATION (call_name call) (args call)) ;;
    ret (Some (ApiResponse apiResult))
  else if String.eqb (call_name call) "updateMemory" then
    match args call with
    | Some a =>
        updateMemory a ;;
        ret (Some MemoryUpdated)
    | None =>
        throw (TypeError "Cannot read properties of undefined (reading 'category')")
    end
  else ret None.

(** [while (response.functionCalls && response.functionCalls.length > 0 &&
    turns < 5)], with [remaining = 5 - turns]: the guard [turns < 5] is
    [remaining] being a successor, and [turns++] is the recursive call. *)
Fixpoint toolLoop (remaining : nat) (start : Z) (chat : Chat)
    (response : GenerateContentResponse) (toolUsage : list string)
  : M State AgentExecutionResult :=
  match remaining, functionCalls response with
  | S remaining', Some (call :: _) =>
      let toolUsage := push toolUsage (call_name call) in
      if String.eqb (call_name call) "pauseWorkflow" then
        recordElapsed "AgentExecutionTime" start ;;
        match args call with
        | Some a =>
            ret {| res_text := "Workflow Paused: " ++ reason a;
                   isPaused := true;
                   pauseReason := Some (reason a);
                   toolUsage := Some toolUsage |}
        | None =>
            throw (TypeError "Cannot read properties of undefined (reading 'reason')")
        end
      else
        functionResponse <- handleCall call ;;
        match functionResponse with
        | Some r =>
            response' <- callSendMessage chat
                           (FunctionResponseMessage (call_name call) r) ;;
            toolLoop remaining' start chat response' toolUsage
        | None => finishAgent start response toolUsage
        end
  | _, _ => finishAgent start response toolUsage
  end.

(** The two checks for built-in tool use on the first response. *)
Definition builtInTools (response : GenerateContentResponse) : M State (list string) :=
  toolUsage <-
    match candidates response with
    | Some (c :: _) =>
        ret (if groundingMetadata c then ["googleSearch"] else [])
    | Some [] =>
        throw (TypeError "Cannot read properties of undefined (reading 'groundingMetadata')")
    | None => ret []
    end ;;
  let codePart :=
    match candidates response with
    | Some (c :: _) => existsb executableCode (content_parts c)
    | _ => false
    end in
  ret (if codePart then push toolUsage "codeExecution" else toolUsage).

Definition executeAgent (agent : AgentDomain) (instruction context apiKey language : string)
  : M State AgentExecutionResult :=
  start <- now ;;
  memory <- getFormattedContext ;;
  chat <- callChatsCreate apiKey
            {| chat_model := MODEL_FLASH;
               chat_systemInstruction :=
                 agentSystemInstruction agent context language memory |} ;;
  response <- callSendMessage chat (Instruction instruction) ;;
  toolUsage <- builtInTools response ;;
  toolLoop 5 start chat response toolUsage.

(** *** Main entry point: the multi-agent system runner *)

(** How phase 2 ends: with the early [return] of a pause, or by falling
    through to synthesis with the outputs and the tool log it has built. *)
Inductive Dispatch :=
| Suspended (r : RunResult)
| Finished (agentOutputs : AgentOutputs) (toolUsageLog : list string).

(** [if (result.toolUsage) toolUsageLog.push(...result.toolUsage)] *)
Definition pushAll (toolUsageLog : list string) (used : option (list string)) : list string :=
  match used with
  | Some l => toolUsageLog ++ l
  | None => toolUsageLog
  end.

(** The [for] loop of the SEQUENTIAL branch; [todo] is [plan.steps] from
    index [i] on. *)
Fixpoint sequentialLoop (plan : AgentPlan) (todo : list AgentStep) (i : nat)
    (accumulatedContext : string) (agentOutputs : AgentOutputs)
    (toolUsageLog : list string) (apiKey language : string) : M State Dispatch :=
  match todo with
  | [] => ret (Finished agentOutputs toolUsageLog)
  | step :: todo' =>
      result <- executeAgent (agent step) (instruction step)
                  accumulatedContext apiKey language ;;
      let toolUsageLog := pushAll toolUsageLog (toolUsage result) in
      if isPaused result then
        ret (Suspended
               (PausedRun
                  ("Workflow Paused: " ++ show (pauseReason result))
                  NEUTRAL
                  PAUSED
                  [agent step]
                  {| plan := plan;
                     stepIndex := i + 1;
                     accumulatedContext :=
                       accumulatedContext ++ pausedAnnotation (agent step) (res_text result);
                     agentOutputs := agentOutputs |}
                  (pauseReason result)))
      else
        sequentialLoop plan todo' (i + 1)
          (accumulatedContext ++ outputAnnotation (agent step) (res_text result))
          (setOutput (agent step) (res_text result) agentOutputs)
          toolUsageLog apiKey language
  end.

(** *** The fan-out of the PARALLEL branch

    [plan.steps.map(step => executeAgent(...))] runs every executor up to its
    first [await] before any answer is handled: all the chats are created,
    each with the memory bank as it is then, and all the instructions are on
    their way.  From then on one executor at a time is resumed, whenever the
    operation it waits for settles, in the order in which the outside world
    settles them, and runs to its next [await].  [Promise.all] rejects as soon
    as one executor throws, which ends the run in the state of that moment
    (in the source the executors still waiting go on after it), and otherwise
    hands over the results in plan order. *)

(** An executor between two of its [await]s: it waits for the session's
    answer to a message (the instruction, if [first]), or for the record
    simulation; or it has returned. *)
Inductive Thread :=
| AwaitsAnswer (start : Z) (chat : Chat) (message : ChatMessage) (first : bool)
    (toolUsage : list string) (remaining : nat)
| AwaitsRecords (start : Z) (chat : Chat) (call : FunctionCall)
    (toolUsage : list string) (remaining : nat)
| Settled (result : AgentExecutionResult).

(** [executeAgent] up to its first [await]. *)
Definition startAgent (agent : AgentDomain) (instruction context apiKey language : string)
  : M State Thread :=
  start <- now ;;
  memory <- getFormattedContext ;;
  chat <- callChatsCreate apiKey
            {| chat_model := MODEL_FLASH;
               chat_systemInstruction :=
                 agentSystemInstruction agent context language memory |} ;;
  ret (AwaitsAnswer start chat (Instruction instruction) true [] 5).

(** The loop of [executeAgent], from its guard to the next [await] or to the
    [return]; [remaining = 5 - turns]. *)
Definition afterAnswer (start : Z) (chat : Chat) (response : GenerateContentResponse)
    (toolUsage : list string) (remaining : nat) : M State Thread :=
  match remaining, functionCalls response with
  | S remaining', Some (call :: _) =>
      let toolUsage := push toolUsage (call_name call) in
      if String.eqb (call_name call) "pauseWorkflow" then
        recordElapsed "AgentExecutionTime" start ;;
        match args call with
        | Some a =>
            ret (Settled {| res_text := "Workflow Paused: " ++ reason a;
                            isPaused := true;
                            pauseReason := Some (reason a);
                            toolUsage := Some toolUsage |})
        | None =>
            throw (TypeError "Cannot read properties of undefined (reading 'reason')")
        end
      else if String.eqb (call_name call) "fetchMedicalRecords" then
        ret (AwaitsRecords start chat call toolUsage remaining')
      else if String.eqb (call_name call) "updateMemory" then
        match args call with
        | Some a =>
            updateMemory a ;;
            ret (AwaitsAnswer start chat
                   (FunctionResponseMessage (call_name call) MemoryUpdated)
                   false toolUsage remaining')
        | None =>
            throw (TypeError "Cannot read properties of undefined (reading 'category')")
        end
      else
        result <- finishAgent start response toolUsage ;;
        ret (Settled result)
  | _, _ =>
      result <- finishAgent start response toolUsage ;;
      ret (Settled result)
  end.

(** An executor resumed when what it waits for has settled, up to its next
    [await]. *)
Definition resume (t : Thread) : M State Thread :=
  match t with
  | AwaitsAnswer start chat message first toolUsage remaining =>
      response <- callSendMessage chat message ;;
      toolUsage <- (if first then builtInTools response else ret toolUsage) ;;
      afterAnswer start chat response toolUsage remaining
  | AwaitsRecords start chat call toolUsage remaining =>
      apiResult <- settle (OPENAPI_TOOL_SIMULATION (call_name call) (args call)) ;;
      ret (AwaitsAnswer start chat
             (FunctionResponseMessage (call_name call) (ApiResponse apiResult))
             false toolUsage remaining)
  | Settled result => ret (Settled result)
  end.

Definition isSettled (t : Thread) : bool :=
  match t with
  | Settled _ => true
  | _ => false
  end.

(** How many executors are waiting. *)
Definition inFlight (threads : list (AgentDomain * Thread)) : nat :=
  length (filter (fun p => negb (isSettled (snd p))) threads).

(** Resuming the [k]-th of the waiting executors. *)
Fixpoint resumeNth (k : nat) (threads : list (AgentDomain * Thread))
  : M State (list (AgentDomain * Thread)) :=
  match threads with
  | [] => ret []
  | (agent, t) :: rest =>
      if isSettled t then
        rest' <- resumeNth k rest ;;
        ret ((agent, t) :: rest')
      else
        match k with
        | O =>
            t' <- resume t ;;
            ret ((agent, t') :: rest)
        | S k' =>
            rest' <- resumeNth k' rest ;;
            ret ((agent, t) :: rest')
        end
  end.

(** An upper bound on the number of times a thread can still be resumed. *)
Definition resumptionsLeft (t : Thread) : nat :=
  match t with
  | AwaitsAnswer _ _ _ _ _ remaining => 2 * remaining + 1
  | AwaitsRecords _ _ _ _ remaining => 2 * remaining + 2
  | Settled _ => 0
  end.

Definition totalResumptions (threads : list (AgentDomain * Thread)) : nat :=
  list_sum (map (fun p => resumptionsLeft (snd p)) threads).

(** [await Promise.all(promises)]: as long as an executor is waiting, the
    outside world says which of the waiting ones is resumed next.  [rounds]
    bounds the number of resumptions. *)
Fixpoint awaitAll (rounds : nat) (threads : list (AgentDomain * Thread))
  : M State (list (AgentDomain * Thread)) :=
  match rounds with
  | O => ret threads
  | S rounds' =>
      match inFlight threads with
      | O => ret threads
      | S others =>
          fun s =>
            (threads' <- resumeNth (nextToSettle (world s) (S others) mod S others)
                           threads ;;
             awaitAll rounds' threads') s
      end
  end.

(** What the settled executors returned, in plan order. *)
Definition settledResults (threads : list (AgentDomain * Thread))
  : list (AgentDomain * AgentExecutionResult) :=
  flat_map
    (fun p => match snd p with
              | Settled result => [(fst p, result)]
              | _ => []
              end)
    threads.

Fixpoint startAgents (todo : list AgentStep) (accumulatedContext apiKey language : string)
  : M State (list (AgentDomain * Thread)) :=
  match todo with
  | [] => ret []
  | step :: todo' =>
      t <- startAgent (agent step) (instruction step) accumulatedContext apiKey language ;;
      rest <- startAgents todo' accumulatedContext apiKey language ;;
      ret ((agent step, t) :: rest)
  end.

(** An executor is resumed at most 11 times: once for the answer to its
    instruction and at most twice in each of its 5 turns. *)
Definition parallelAgents (todo : list AgentStep) (accumulatedContext apiKey language : string)
  : M State (list (AgentDomain * AgentExecutionResult)) :=
  threads <- startAgents todo accumulatedContext apiKey language ;;
  settled <- awaitAll (11 * length todo) threads ;;
  ret (settledResults settled).

(** [results.forEach(r => { ... })] *)
Definition mergeResults (results : list (AgentDomain * AgentExecutionResult))
    (agentOutputs : AgentOutputs) (toolUsageLog : list string)
  : AgentOutputs * list string :=
  fold_left
    (fun acc r =>
       (setOutput (fst r) (res_text (snd r)) (fst acc),
        pushAll (snd acc) (toolUsage (snd r))))
    results (agentOutputs, toolUsageLog).

(** [plan.steps[0]], read for its fields. *)
Definition firstStep (plan : AgentPlan) : M State AgentStep :=
  match steps plan with
  | step :: _ => ret step
  | [] => throw (TypeError "Cannot read properties of undefined (reading 'agent')")
  end.

(** Phase 2: execution. *)
Definition executionPhase (plan : AgentPlan) (resumeState : option PausedState)
    (startStepIndex : nat) (accumulatedContext : string)
    (agentOutputs : AgentOutputs) (toolUsageLog : list string)
    (apiKey language : string) : M State Dispatch :=
  let fresh := match resumeState with None => true | Some _ => false end in
  match mode plan, fresh with
  | PARALLEL, true =>
      results <- parallelAgents (steps plan) accumulatedContext apiKey language ;;
      let merged := mergeResults results agentOutputs toolUsageLog in
      ret (Finished (fst merged) (snd merged))
  | SEQUENTIAL, _ =>
      sequentialLoop plan (skipn startStepIndex (steps plan)) startStepIndex
        accumulatedContext agentOutputs toolUsageLog apiKey language
  | LOOP, true =>
      step0 <- firstStep plan ;;
      draft <- executeAgent (agent step0) (instruction step0)
                 accumulatedContext apiKey language ;;
      let currentDraft := res_text draft in
      critique <- executeAgent ORCHESTRATOR ("Critique: " ++ currentDraft)
                    "" apiKey language ;;
      let critic := res_text critique in
      refinement <- executeAgent (agent step0) ("Refine based on: " ++ critic)
                      ("Draft: " ++ currentDraft) apiKey language ;;
      let refined := res_text refinement in
      ret (Finished (setOutput (agent step0) refined agentOutputs) toolUsageLog)
  | _, true =>
      (* DIRECT *)
      step0 <- firstStep plan ;;
      result <- executeAgent (agent step0) (instruction step0)
                  accumulatedContext apiKey language ;;
      ret (Finished (setOutput (agent step0) (res_text result) agentOutputs)
             (pushAll toolUsageLog (toolUsage result)))
  | _, false => ret (Finished agentOutputs toolUsageLog)
  end.

(** Context engineering: the compaction of the prior turns. *)
Definition compactionPhase (history : list Turn) (apiKey : string)
    (resumeState : option PausedState) : M State string :=
  match resumeState with
  | None =>
      if (0 <? length history)%nat then
        if (6 <? length history)%nat then compactHistory history apiKey
        else transcript history
      else ret ""
  | Some _ => ret ""
  end.

(** The locals that phase 1 sets. *)
Record Locals := {
  l_plan : AgentPlan;
  l_accumulatedContext : string;
  l_agentOutputs : AgentOutputs;
  l_startStepIndex : nat
}.

(** Phase 1: planning, or restoring. *)
Definition planningPhase (prompt contextSummary apiKey : string)
    (resumeState : option PausedState) : M State Locals :=
  match resumeState with
  | Some rs =>
      ret {| l_plan := plan rs;
             l_accumulatedContext := accumulatedContext rs;
             l_agentOutputs := agentOutputs rs;
             l_startStepIndex := stepIndex rs |}
  | None =>
      memoryContext <- getFormattedContext ;;
      let planningContext := fullPlanningContext contextSummary prompt memoryContext in
      plan <- tryCatch (planExecution planningContext apiKey)
                (fun _ => ret (FALLBACK_PLAN prompt)) ;;
      ret {| l_plan := plan;
             l_accumulatedContext :=
               initialContext prompt getSessionId contextSummary memoryContext;
             l_agentOutputs := [];
             l_startStepIndex := 0 |}
  end.

Definition synthesisRequest (prompt : string) (agentOutputs : AgentOutputs)
    (toolUsageLog : list string) (contextSummary memory language : string)
    (useThinking : bool) : GenerateContentRequest :=
  {| model := if useThinking then MODEL_PRO_THINKING else MODEL_FLASH;
     role := None;
     contents :=
       synthesisPrompt prompt (synthesisContext agentOutputs) contextSummary memory;
     systemInstruction := Some (synthesisSystemInstruction toolUsageLog language);
     responseSchema := Some FINAL_RESPONSE_SCHEMA;
     thinkingBudget := if useThinking then Some 4096%Z else None |}.

(** Phases 3 and 4: synthesis, then evaluation and metrics. *)
Definition synthesisPhase (prompt : string) (plan : AgentPlan)
    (agentOutputs : AgentOutputs) (toolUsageLog : list string)
    (contextSummary apiKey language : string) (useThinking : bool)
    (overallStart : Z) : M State RunResult :=
  memory <- getFormattedContext ;;
  finalResponse <- callGenerateContent apiKey
    (synthesisRequest prompt agentOutputs toolUsageLog contextSummary
       memory language useThinking) ;;
  parsed <- jsonParse parseSynthesis (text finalResponse) ;;
  evalResult <- evaluateResponse prompt (response parsed) apiKey ;;
  recordElapsed "TotalLatency" overallStart ;;
  metrics <- getRecentMetrics ;;
  ret (CompletedRun parsed (map agent (steps plan)) (mode plan) evalResult metrics).

(** [language] and [useThinking] have defaults: [None] is an omitted
    argument. *)
Definition runMultiAgentSystem (prompt : string) (history : list Turn)
    (apiKey : string) (language : option string)
    (useThinking : option bool) (resumeState : option PausedState)
  : M State RunResult :=
  let language := match language with Some l => l | None => "en-US" end in
  let useThinking := match useThinking with Some b => b | None => false end in
  if String.eqb apiKey "" then throw (Error "API Key is required")
  else
    overallStart <- now ;;
    contextSummary <- compactionPhase history apiKey resumeState ;;
    locals <- planningPhase prompt contextSummary apiKey resumeState ;;
    dispatch <- executionPhase (l_plan locals) resumeState
                  (l_startStepIndex locals) (l_accumulatedContext locals)
                  (l_agentOutputs locals) [] apiKey language ;;
    match dispatch with
    | Suspended r => ret r
    | Finished agentOutputs toolUsageLog =>
        synthesisPhase prompt (l_plan locals) agentOutputs toolUsageLog
          contextSummary apiKey language useThinking overallStart
    end.

(** *** One iteration of the SEQUENTIAL loop, as a step relation

    [sequentialReaches plan apiKey language a b]: the [for] loop, being at the
    top of its body in configuration [a] (index, running context, outputs,
    tool log, state), gets to the top of its body in configuration [b] after
    zero or more steps, none of which paused. *)
Record LoopConfig := {
  at_index : nat;
  at_context : string;
  at_outputs : AgentOutputs;
  at_toolUsageLog : list string;
  at_state : State
}.

Inductive sequentialReaches (plan : AgentPlan) (apiKey language : string)
  : LoopConfig -> LoopConfig -> Prop :=
| reaches_here : forall a, sequentialReaches plan apiKey language a a
| reaches_next : forall a b step result s',
    sequentialReaches plan apiKey language a b ->
    nth_error (steps plan) (at_index b) = Some step ->
    executeAgent (agent step) (instruction step) (at_context b) apiKey language
      (at_state b) = (Returned result, s') ->
    isPaused result = false ->
    sequentialReaches plan apiKey language a
      {| at_index := at_index b + 1;
         at_context := at_context b ++ outputAnnotation (agent step) (res_text result);
         at_outputs := setOutput (agent step) (res_text result) (at_outputs b);
         at_toolUsageLog := pushAll (at_toolUsageLog b) (toolUsage result);
         at_state := s' |}.

End Service.

Arguments State : clear implicits.

(** ** Reading the record of calls *)

(** A call made by the agent executor: it only talks to chat sessions. *)
Definition isAgentCall (e : Event) : bool :=
  match e with
  | GenerateContentCall _ _ => false
  | ChatCreateCall _ => true
  | SendMessageCall _ _ => true
  end.

(** A message to a chat session. *)
Definition isMessage (e : Event) : Prop :=
  match e with
  | SendMessageCall _ _ => True
  | _ => False
  end.

Definition schemaOfCall (e : Event) : option Schema :=
  match e with
  | GenerateContentCall req _ => responseSchema req
  | _ => None
  end.

Definition agentCall (e : Event) : Prop := isAgentCall e = true.

(** The synthesizer is the one generation request under
    [FINAL_RESPONSE_SCHEMA], the evaluator the one under [EVALUATION_SCHEMA]. *)
Definition isSynthesizerCall (e : Event) : bool :=
  match schemaOfCall e with
  | Some FINAL_RESPONSE_SCHEMA => true
  | _ => false
  end.

Definition isEvaluatorCall (e : Event) : bool :=
  match schemaOfCall e with
  | Some EVALUATION_SCHEMA => true
  | _ => false
  end.

(** The planner's request is the one under [ORCHESTRATOR_SCHEMA]. *)
Definition isPlannerCall (e : Event) : bool :=
  match schemaOfCall e with
  | Some ORCHESTRATOR_SCHEMA => true
  | _ => false
  end.

(** A call that is neither the synthesizer's nor the evaluator's. *)
Definition beforeSynthesis (e : Event) : Prop :=
  isSynthesizerCall e = false /\ isEvaluatorCall e = false.

(** The compactor's request is the only one without a response schema. *)
Definition isCompactorCall (e : Event) : bool :=
  match e with
  | GenerateContentCall req _ =>
      match responseSchema req with None => true | Some _ => false end
  | _ => false
  end.

(** A tool name that the executor's loop resolves and answers. *)
Definition resolvableName (name : string) : bool :=
  String.eqb name "fetchMedicalRecords" || String.eqb name "updateMemory".

(** A response that carries a resolvable, non-pause function call, with its
    arguments.  The SDK reads [functionCalls] off the first candidate, so such
    a response has one whenever it lists candidates. *)
Definition carriesResolvableCall (r : GenerateContentResponse) : bool :=
  match functionCalls r with
  | Some (call :: _) =>
      resolvableName (call_name call)
      && match args call with Some _ => true | None => false end
  | _ => false
  end
  && match candidates r with
     | Some [] => false
     | _ => true
     end.

(** One resolved tool-invocation turn: the call, the function response sent
    back for it, and the session's next response. *)
Definition ResolvedTurn := (FunctionCall * FunctionResponse * GenerateContentResponse)%type.

Definition turnEvent (t : ResolvedTurn) : Event :=
  SendMessageCall
    (FunctionResponseMessage (call_name (fst (fst t))) (snd (fst t)))
    (Returned (snd t)).

Definition turnName (t : ResolvedTurn) : string := call_name (fst (fst t)).

(** Each resolved turn answers the first function call of the response
    before it. *)
Fixpoint answersInTurn (previous : GenerateContentResponse) (turns : list ResolvedTurn)
  : Prop :=
  match turns with
  | [] => True
  | t :: turns' =>
      (exists others, functionCalls previous = Some (fst (fst t) :: others))
      /\ answersInTurn (snd t) turns'
  end.

(** [onlyCalls P m]: from every state, the calls that [m] adds to the record
    all satisfy [P], and [m] removes none. *)
Definition onlyCalls {env : Collaborators} (P : Event -> Prop) {A}
    (m : M (State env) A) : Prop :=
  forall s, exists evs, calls (snd (m s)) = (calls s ++ evs)%list /\ Forall P evs.

(** [quietly m]: [m] makes no call at all. *)
Definition quietly {env : Collaborators} {A} (m : M (State env) A) : Prop :=
  forall s, calls (snd (m s)) = calls s.

(** ** Reference definitions, in the words of the specification *)

(** The last [n] entries of a log, in insertion order. *)
Definition lastEntries {A} (n : nat) (l : list A) : list A :=
  skipn (length l - n) l.

(** Appending with deduplication: nothing happens if the item is present. *)
Definition appendUnique (l : list string) (x : string) : list string :=
  if in_dec string_dec x l then l else l ++ [x].

(** How many stored entries a list holds for a text. *)
Definition entriesFor (x : string) (l : list string) : nat :=
  count_occ string_dec l x.

(** The verbatim transcript: one ["ROLE: text"] line per turn. *)
Definition verbatimTranscript (upper : string -> string) (history : list Turn) : string :=
  join nl (map (fun h => upper (turn_role h) ++ ": " ++ hd "" (turn_parts h)) history).

(** ** Concrete collaborators and states, for running the service *)

Definition upcase (c : ascii) : ascii :=
  let n := nat_of_ascii c in
  if ((97 <=? n) && (n <=? 122))%nat then ascii_of_nat (n - 32) else c.

Fixpoint upperAscii (s : string) : string :=
  match s with
  | EmptyString => EmptyString
  | String c s' => String (upcase c) (upperAscii s')
  end.

Definition textResponse (t : string) : GenerateContentResponse :=
  {| text := Some t; functionCalls := None; candidates := None |}.

Definition callResponse (name : string) (a : CallArgs) : GenerateContentResponse :=
  {| text := None;
     functionCalls := Some [ {| call_name := name; args := Some a |} ];
     candidates := Some [ {| groundingMetadata := false; content_parts := [] |} ] |}.

Definition someArgs : CallArgs :=
  {| reason := "awaiting confirmation"; patientId := "P-17";
     category := "health"; item := "asthma" |}.

(** A scripted outside world: the clock ticks once per reading, the planner
    answers [planner] and its text parses to [planned], every other generation
    request is answered with a fixed text, and a chat session answers a
    message by [reply]. *)
Definition scripted (planner : Outcome GenerateContentResponse)
    (planned : option AgentPlan)
    (reply : ChatMessage -> Outcome GenerateContentResponse) : Collaborators :=
  {| World := Z;
     Chat := unit;
     Date_now := fun w => (w, (w + 1)%Z);
     generateContent := fun _ req w =>
       (match responseSchema req with
        | Some ORCHESTRATOR_SCHEMA => planner
        | _ => Returned (textResponse "{}")
        end, w);
     chats_create := fun _ _ w => (tt, w);
     sendMessage := fun _ msg w => (reply msg, w);
     nextToSettle := fun _ _ => 0%nat;
     parsePlan := fun _ => planned;
     parseEvaluation := fun _ =>
       Some {| parsed_score := 9 # 1; parsed_feedback := "Relevant." |};
     parseSynthesis := fun _ =>
       Some {| response := "All done."; sentiment := NEUTRAL;
               crossDomainInsight := None; suggestedAction := None;
               toolCalls := None; chartData := None |};
     toUpperCase := upperAscii;
     getSessionId := "sess_0_abc" |}.

Definition blankContext : UserContext := MemoryBankService.DEFAULT_CONTEXT 0.

(** A memory bank that already holds one note twice, as [updateContext] or a
    stored snapshot can leave it. *)
Definition repeatedNotes : UserContext :=
  MemoryBankService.updateContext
    {| MemoryBankService.u_name := None;
       MemoryBankService.u_location := None;
       MemoryBankService.u_healthConditions := None;
       MemoryBankService.u_learningGoals := None;
       MemoryBankService.u_ecoPreferences := None;
       MemoryBankService.u_notes := Some ["likes tea"; "likes tea"];
       MemoryBankService.u_lastInteraction := None |} 0 blankContext.

Definition initialState (env : Collaborators) (w : @World env) : State env :=
  {| world := w; memoryBank := blankContext;
     traceService := TraceService.empty; calls := [] |}.

Definition metricA : AgentMetric :=
  {| metric_name := "PlanningLatency"; metric_value := 12;
     metric_unit := "ms"; timestamp := 100 |}.

Definition metricB : AgentMetric :=
  {| metric_name := "TotalLatency"; metric_value := 40;
     metric_unit := "ms"; timestamp := 130 |}.

(** Collaborators that answer every chat message with a plain text. *)
Definition quiet : Collaborators :=
  scripted (Returned (textResponse "{}")) None
    (fun _ => Returned (textResponse "Understood.")).

Definition profileArgs : CallArgs :=
  {| reason := ""; patientId := ""; category := "profile"; item := "Ada" |}.

Definition turnOf (role text : string) : Turn :=
  {| turn_role := role; turn_parts := [text] |}.

(** Six prior turns, and a seventh. *)
Definition sixTurns : list Turn :=
  [ turnOf "user" "Hi"; turnOf "model" "Hello";
    turnOf "user" "I have asthma"; turnOf "model" "Noted";
    turnOf "user" "Air today?"; turnOf "model" "AQI 40" ].

Definition sevenTurns : list Turn := sixTurns ++ [ turnOf "user" "Thanks" ].

(** A session that asks for [updateMemory] on every message. *)
Definition insistent : Collaborators :=
  scripted (Returned (textResponse "{}")) None
    (fun _ => Returned (callResponse "updateMemory" someArgs)).

(** A planner that is down. *)
Definition failing : Collaborators :=
  scripted (Thrown (Rejected "503 Service Unavailable")) None
    (fun _ => Returned (textResponse "Hello.")).

(** A checkpoint whose plan is PARALLEL. *)
Definition parallelCheckpoint : PausedState :=
  {| plan := {| mode := PARALLEL;
                steps := [ {| agent := HEALTH; instruction := "Check vitals" |};
                           {| agent := ENVIRONMENT; instruction := "Check air" |} ];
                reasoning := "Independent tasks." |};
     stepIndex := 1;
     accumulatedContext := "User Query: How am I doing?";
     agentOutputs := [ (HEALTH, "Resting heart rate is normal.") ] |}.

(** A two-step pipeline whose second agent asks to pause. *)
Definition twoStepPlan : AgentPlan :=
  {| mode := SEQUENTIAL;
     steps := [ {| agent := HEALTH; instruction := "Fetch vitals" |};
                {| agent := EDUCATION; instruction := "Await consent" |} ];
     reasoning := "Step by step." |}.

Definition pausingReply (msg : ChatMessage) : Outcome GenerateContentResponse :=
  match msg with
  | Instruction m =>
      if String.eqb m "Await consent"
      then Returned (callResponse "pauseWorkflow" someArgs)
      else Returned (textResponse "Vitals fetched.")
  | FunctionResponseMessage _ _ => Returned (textResponse "Noted.")
  end.

Definition pausing : Collaborators :=
  scripted (Returned (textResponse "{}")) (Some twoStepPlan) pausingReply.

(** A refinement plan whose agents each save a fact to memory first. *)
Definition loopPlan : AgentPlan :=
  {| mode := LOOP;
     steps := [ {| agent := EDUCATION; instruction := "Draft a study plan" |} ];
     reasoning := "Refinement." |}.

Definition toolUsingReply (msg : ChatMessage) : Outcome GenerateContentResponse :=
  match msg with
  | Instruction _ => Returned (callResponse "updateMemory" someArgs)
  | FunctionResponseMessage _ _ => Returned (textResponse "Saved and drafted.")
  end.

Definition refining : Collaborators :=
  scripted (Returned (textResponse "{}")) (Some loopPlan) toolUsingReply.

(** ** Further readings of the record of calls *)

(** A function response the executor's loop may send back: the record
    simulation's answer to [fetchMedicalRecords], which is always a status 200
    there, or the acknowledgement of [updateMemory]. *)
Definition isResolvedResponse (e : Event) : bool :=
  match e with
  | SendMessageCall (FunctionResponseMessage name (ApiResponse result)) _ =>
      String.eqb name "fetchMedicalRecords" && (status result =? 200)%Z
  | SendMessageCall (FunctionResponseMessage name MemoryUpdated) _ =>
      String.eqb name "updateMemory"
  | _ => false
  end.

(** The instruction a call carries into a chat session, if it is one. *)
Definition instructionOf (e : Event) : option string :=
  match e with
  | SendMessageCall (Instruction message) _ => Some message
  | _ => None
  end.

(** The instructions sent, in order. *)
Fixpoint instructionsSent (evs : list Event) : list string :=
  match evs with
  | [] => []
  | e :: evs' =>
      match instructionOf e with
      | Some m => m :: instructionsSent evs'
      | None => instructionsSent evs'
      end
  end.

(** The built-in tools a first response shows: search grounding on the first
    candidate, then executable code in one of its parts. *)
Definition builtInSignals (r : GenerateContentResponse) : list string :=
  match candidates r with
  | Some (c :: _) =>
      (if groundingMetadata c then ["googleSearch"] else [])
      ++ (if existsb executableCode (content_parts c) then ["codeExecution"] else [])
  | _ => []
  end.

(** A tool name the executor has no handler for. *)
Definition unknownTool (name : string) : bool :=
  negb (String.eqb name "pauseWorkflow")
  && negb (String.eqb name "fetchMedicalRecords")
  && negb (String.eqb name "updateMemory").

(** [agentOutputs[agent]], read. *)
Fixpoint outputOf (agent : AgentDomain) (o : AgentOutputs) : option string :=
  match o with
  | [] => None
  | (a, t) :: o' => if AgentDomain_eqb a agent then Some t else outputOf agent o'
  end.

(** The keys of the outputs, in the order [Object.entries] lists them. *)
Definition outputKeys (o : AgentOutputs) : list AgentDomain := map fst o.

(** ** What a run may change *)

(** [l'] is [l] with entries appended. *)
Definition extendedTo {A} (l l' : list A) : Prop :=
  exists added, l' = (l ++ added)%list.

(** The memory bank only gains entries: the location is the same and each of
    the four lists has, at most, new items after the old ones. *)
Definition memoryGrows (c c' : UserContext) : Prop :=
  location c' = location c
  /\ extendedTo (healthConditions c) (healthConditions c')
  /\ extendedTo (learningGoals c) (learningGoals c')
  /\ extendedTo (ecoPreferences c) (ecoPreferences c')
  /\ extendedTo (notes c) (notes c').

(** Nothing recorded is lost between two states: the trace recorder and the
    record of calls are extended, and the memory bank only gains entries. *)
Definition stateGrows {env : Collaborators} (s s' : State env) : Prop :=
  extendedTo (calls s) (calls s')
  /\ extendedTo (traceService s) (traceService s')
  /\ memoryGrows (memoryBank s) (memoryBank s').

(** [onlyAdds m]: whatever [m] does and however it ends, nothing recorded
    before is lost. *)
Definition onlyAdds {env : Collaborators} {A} (m : M (State env) A) : Prop :=
  forall s, stateGrows s (snd (m s)).

(** ** More reference definitions *)

(** Two partial updates applied one after the other, as one: the later one
    wins where both set a field. *)
Definition mergeUpdates (first second : MemoryBankService.Updates)
  : MemoryBankService.Updates :=
  let pick {A} (a b : option A) := match b with Some _ => b | None => a end in
  {| MemoryBankService.u_name :=
       pick (MemoryBankService.u_name first) (MemoryBankService.u_name second);
     MemoryBankService.u_location :=
       pick (MemoryBankService.u_location first) (MemoryBankService.u_location second);
     MemoryBankService.u_healthConditions :=
       pick (MemoryBankService.u_healthConditions first)
            (MemoryBankService.u_healthConditions second);
     MemoryBankService.u_learningGoals :=
       pick (MemoryBankService.u_learningGoals first)
            (MemoryBankService.u_learningGoals second);
     MemoryBankService.u_ecoPreferences :=
       pick (MemoryBankService.u_ecoPreferences first)
            (MemoryBankService.u_ecoPreferences second);
     MemoryBankService.u_notes :=
       pick (MemoryBankService.u_notes first) (MemoryBankService.u_notes second);
     MemoryBankService.u_lastInteraction :=
       pick (MemoryBankService.u_lastInteraction first)
            (MemoryBankService.u_lastInteraction second) |}.

(** Recording a list of metrics, one [recordMetric] call each. *)
Definition recordAll (ms : list AgentMetric) (log : TraceService.t) : TraceService.t :=
  fold_left
    (fun l m =>
       TraceService.recordMetric (metric_name m) (metric_value m) (metric_unit m)
         (timestamp m) l)
    ms log.

Definition renameTo (n : string) : MemoryBankService.Updates :=
  {| MemoryBankService.u_name := Some n;
     MemoryBankService.u_location := None;
     MemoryBankService.u_healthConditions := None;
     MemoryBankService.u_learningGoals := None;
     MemoryBankService.u_ecoPreferences := None;
     MemoryBankService.u_notes := None;
     MemoryBankService.u_lastInteraction := Some 99%Z |}.

(** ** memoryService.ts: the memory bank once more, with its arrays as objects

    [MemoryBankService] above takes the four lists of a context as values.
    In the source they are array objects: a spread [{ ...c }] copies the
    references, [push] changes the array for every object that refers to it,
    and [DEFAULT_CONTEXT] is one such object, made when the module loads.
    Here an array is a cell of a heap and a context holds references.  An
    array that comes from outside (parsed from the stored snapshot, or passed
    to [updateContext]) is a cell of its own. *)
Module MemoryBankObjects.

Definition Ref := nat.

Definition Heap := list (list string).

(** The contents of an array. *)
Definition deref (h : Heap) (r : Ref) : list string := nth r h [].

(** The heap after an array has been changed in place. *)
Fixpoint assign (h : Heap) (r : Ref) (l : list string) : Heap :=
  match h, r with
  | [], _ => []
  | _ :: h', O => l :: h'
  | c :: h', S r' => c :: assign h' r' l
  end.

(** A new array. *)
Definition alloc (h : Heap) (l : list string) : Heap * Ref :=
  ((h ++ [l])%list, length h).

Record ContextObject := {
  o_name : string;
  o_location : string;
  o_healthConditions : Ref;
  o_learningGoals : Ref;
  o_ecoPreferences : Ref;
  o_notes : Ref;
  o_lastInteraction : Z
}.

(** [const DEFAULT_CONTEXT]: its four array literals are the first four cells. *)
Definition DEFAULT_CONTEXT (loadedAt : Z) : ContextObject :=
  {| o_name := "User"; o_location := "Unknown";
     o_healthConditions := 0; o_learningGoals := 1;
     o_ecoPreferences := 2; o_notes := 3;
     o_lastInteraction := loadedAt |}.

Definition initialHeap : Heap := [ []; []; []; [] ].

(** The heap, the time the module was loaded (the only field of
    [DEFAULT_CONTEXT] that is not a constant or an array), and
    [this.context]. *)
Record Service := {
  heap : Heap;
  loadedAt : Z;
  context : ContextObject
}.

(** A field of a spread-in object: the array it brings, if it has the field. *)
Definition place (field : option (list string)) (r : Ref) (h : Heap) : Heap * Ref :=
  match field with
  | Some l => alloc h l
  | None => (h, r)
  end.

(** [{ ...base, ...partial }], with [lastInteraction] set to [last]. *)
Definition spreadOver (partial : MemoryBankService.Updates) (last : Z)
    (base : ContextObject) (h : Heap) : Heap * ContextObject :=
  let (h1, r1) := place (MemoryBankService.u_healthConditions partial)
                    (o_healthConditions base) h in
  let (h2, r2) := place (MemoryBankService.u_learningGoals partial)
                    (o_learningGoals base) h1 in
  let (h3, r3) := place (MemoryBankService.u_ecoPreferences partial)
                    (o_ecoPreferences base) h2 in
  let (h4, r4) := place (MemoryBankService.u_notes partial) (o_notes base) h3 in
  (h4,
   {| o_name := MemoryBankService.orElse (MemoryBankService.u_name partial) (o_name base);
      o_location :=
        MemoryBankService.orElse (MemoryBankService.u_location partial) (o_location base);
      o_healthConditions := r1; o_learningGoals := r2;
      o_ecoPreferences := r3; o_notes := r4;
      o_lastInteraction := last |}).

(** [new MemoryBankService()], that is [load()], right after the module has
    loaded.  [stored] is the parsed snapshot; it is [None] when nothing is
    stored, when the storage cannot be read and when the text does not
    parse. *)
Definition construct (stored : option MemoryBankService.Updates) (loadedAt : Z)
  : Service :=
  match stored with
  | Some snapshot =>
      let (h, c) :=
        spreadOver snapshot
          (MemoryBankService.orElse (MemoryBankService.u_lastInteraction snapshot)
             loadedAt)
          (DEFAULT_CONTEXT loadedAt) initialHeap in
      {| heap := h; loadedAt := loadedAt; context := c |}
  | None =>
      {| heap := initialHeap; loadedAt := loadedAt;
         context := DEFAULT_CONTEXT loadedAt |}
  end.

Definition updateContext (updates : MemoryBankService.Updates) (now : Z)
    (svc : Service) : Service :=
  let (h, c) := spreadOver updates now (context svc) (heap svc) in
  {| heap := h; loadedAt := loadedAt svc; context := c |}.

(** [array.includes(x)] then [array.push(x)], on the array behind [r]. *)
Definition pushUnique (r : Ref) (x : string) (svc : Service) : Service :=
  if negb (includes (deref (heap svc) r) x) then
    {| heap := assign (heap svc) r (push (deref (heap svc) r) x);
       loadedAt := loadedAt svc; context := context svc |}
  else svc.

Definition addNote (note : string) (svc : Service) : Service :=
  pushUnique (o_notes (context svc)) note svc.

(** [this.context[key]] *)
Definition arrayOf (key : MemoryBankService.ArrayKey) (c : ContextObject) : Ref :=
  match key with
  | MemoryBankService.healthConditionsKey => o_healthConditions c
  | MemoryBankService.learningGoalsKey => o_learningGoals c
  | MemoryBankService.ecoPreferencesKey => o_ecoPreferences c
  end.

Definition addArrayItem (key : MemoryBankService.ArrayKey) (item : string)
    (svc : Service) : Service :=
  pushUnique (arrayOf key (context svc)) item svc.

(** [this.context = { ...DEFAULT_CONTEXT }] *)
Definition clear (svc : Service) : Service :=
  {| heap := heap svc; loadedAt := loadedAt svc;
     context := DEFAULT_CONTEXT (loadedAt svc) |}.

(** What a reader of [this.context] sees. *)
Definition view (svc : Service) : UserContext :=
  let c := context svc in
  {| name := o_name c; location := o_location c;
     healthConditions := deref (heap svc) (o_healthConditions c);
     learningGoals := deref (heap svc) (o_learningGoals c);
     ecoPreferences := deref (heap svc) (o_ecoPreferences c);
     notes := deref (heap svc) (o_notes c);
     lastInteraction := o_lastInteraction c |}.

(** [getContext()]: [{ ...this.context }], a new object with the same arrays. *)
Definition getContext (svc : Service) : ContextObject := context svc.

(** What the holder of a context object reads from it. *)
Definition readThrough (h : Heap) (c : ContextObject) : UserContext :=
  {| name := o_name c; location := o_location c;
     healthConditions := deref h (o_healthConditions c);
     learningGoals := deref h (o_learningGoals c);
     ecoPreferences := deref h (o_ecoPreferences c);
     notes := deref h (o_notes c);
     lastInteraction := o_lastInteraction c |}.

(** The four lists of the context are four different arrays of the heap. *)
Definition distinctArrays (svc : Service) : Prop :=
  let c := context svc in
  NoDup [ o_healthConditions c; o_learningGoals c; o_ecoPreferences c; o_notes c ]
  /\ Forall (fun r => r < length (heap svc))%nat
       [ o_healthConditions c; o_learningGoals c; o_ecoPreferences c; o_notes c ].

End MemoryBankObjects.

(** ** Further concrete collaborators *)

(** A response that lists candidates but has none. *)
Definition hollowResponse : GenerateContentResponse :=
  {| text := Some "Nothing to add."; functionCalls := None; candidates := Some [] |}.

Definition hollow : Collaborators :=
  scripted (Returned (textResponse "{}")) None (fun _ => Returned hollowResponse).

(** A session that asks for a tool nobody handles. *)
Definition stray : Collaborators :=
  scripted (Returned (textResponse "{}")) None
    (fun _ => Returned (callResponse "bookAppointment" someArgs)).

(** No service answers and no text parses. *)
Definition offline : Collaborators :=
  {| World := Z;
     Chat := unit;
     Date_now := fun w => (w, (w + 1)%Z);
     generateContent := fun _ _ w => (Thrown (Rejected "offline"), w);
     chats_create := fun _ _ w => (tt, w);
     sendMessage := fun _ _ w => (Thrown (Rejected "offline"), w);
     nextToSettle := fun _ _ => 0%nat;
     parsePlan := fun _ => None;
     parseEvaluation := fun _ => None;
     parseSynthesis := fun _ => None;
     toUpperCase := upperAscii;
     getSessionId := "sess_0_abc" |}.


(** A response whose one function call comes without arguments. *)
Definition bareCallResponse (name : string) : GenerateContentResponse :=
  {| text := None;
     functionCalls := Some [ {| call_name := name; args := None |} ];
     candidates := Some [ {| groundingMetadata := false; content_parts := [] |} ] |}.

(** A pipeline of one step, and a plan with nothing to do. *)
Definition oneStepPlan : AgentPlan :=
  {| mode := SEQUENTIAL;
     steps := [ {| agent := HEALTH; instruction := "Fetch vitals" |} ];
     reasoning := "One step." |}.

Definition idlePlan (m : ExecutionMode) : AgentPlan :=
  {| mode := m; steps := []; reasoning := "Nothing to do." |}.

(** A prior turn that holds no part. *)
Definition partlessTurn : Turn := {| turn_role := "user"; turn_parts := [] |}.

(** ** geminiService.ts: image and video generation

    [generateImage], [editImage] and [generateVideo] use neither the memory
    bank nor the trace recorder; their collaborators are the image and video
    models, the file reader behind [fileToPart] and the timer. *)
Module Media.

Definition MODEL_VEO := "veo-3.1-fast-generate-preview".
Definition MODEL_IMAGE_EDIT := "gemini-2.5-flash-image".

Record InlineData := { data : string; mimeType : string }.

(** A part of a request. *)
Inductive RequestPart :=
| InlinePart (inlineData : InlineData)   (* { inlineData: { data, mimeType } } *)
| TextPart (text : string).              (* { text } *)

(** A part of a candidate: only [inlineData] is read. *)
Record ResponsePart := { inlineData : option InlineData }.

Record Content := { parts : option (list ResponsePart) }.

Record Candidate := { content : option Content }.

Record ImageResponse := { candidates : option (list Candidate) }.

Inductive ImageSize := size1K | size2K | size4K.

Record ImageConfig := { imageSize : ImageSize; aspectRatio : string }.

Record ImageRequest := {
  image_model : string;
  image_parts : list RequestPart;
  imageConfig : option ImageConfig
}.

Inductive VideoAspect := landscape | portrait.   (* '16:9' | '9:16' *)

Record VideoRequest := {
  video_model : string;
  video_prompt : string;
  numberOfVideos : Z;
  resolution : string;
  video_aspectRatio : VideoAspect
}.

Record Video := { uri : option string }.

Record GeneratedVideo := { video : option Video }.

Record VideosResponse := { generatedVideos : option (list GeneratedVideo) }.

(** A long-running operation: its name, the truthiness of [done], and
    [response]. *)
Record Operation := {
  operation_name : string;
  done : bool;
  operation_response : option VideosResponse
}.

(** The collaborators: the file reader wrapped by [fileToPart] (which resolves
    to a part or rejects), the image model, the video model with its
    operations, and the timer.  The first argument of a model call is the
    [apiKey] of the client that makes it. *)
Class Studio := {
  Backstage : Type;
  File : Type;
  fileToPart : File -> Backstage -> Outcome InlineData * Backstage;
  models_generateContent :
    string -> ImageRequest -> Backstage -> Outcome ImageResponse * Backstage;
  models_generateVideos :
    string -> VideoRequest -> Backstage -> Outcome Operation * Backstage;
  operations_getVideosOperation :
    string -> Operation -> Backstage -> Outcome Operation * Backstage;
  setTimeout : Z -> Backstage -> Backstage
}.

Section Functions.
Context {studio : Studio}.

Inductive Action :=
| ReadFile (file : File)
| GenerateImage (apiKey : string) (req : ImageRequest)
| GenerateVideos (apiKey : string) (req : VideoRequest)
| Sleep (ms : Z)
| GetVideosOperation (apiKey : string) (operation : Operation).

(** The outside world and the record of what was asked of it, oldest first. *)
Record Stage := { backstage : Backstage; actions : list Action }.

Definition act {A} (a : Action) (f : Backstage -> Outcome A * Backstage) : M Stage A :=
  fun s =>
    let (r, w) := f (backstage s) in
    (r, {| backstage := w; actions := (actions s ++ [a])%list |}).

(** [`data:${part.inlineData.mimeType};base64,${part.inlineData.data}`] *)
Definition dataUrl (d : InlineData) : string :=
  "data:" ++ mimeType d ++ ";base64," ++ data d.

(** [response.candidates?.[0]?.content?.parts || []] *)
Definition firstCandidateParts (response : ImageResponse) : list ResponsePart :=
  match candidates response with
  | Some (first :: _) =>
      match content first with
      | Some c =>
          match parts c with
          | Some ps => ps
          | None => []
          end
      | None => []
      end
  | _ => []
  end.

(** [for (const part of ...) { if (part.inlineData) return ...; }
     throw new Error(failure);] *)
Fixpoint firstInlineData (ps : list ResponsePart) (failure : string) : M Stage string :=
  match ps with
  | [] => throw (Error failure)
  | part :: rest =>
      match inlineData part with
      | Some d => ret (dataUrl d)
      | None => firstInlineData rest failure
      end
  end.



Definition editRequest (imagePart : InlineData) (prompt : string) : ImageRequest :=
  {| image_model := MODEL_IMAGE_EDIT;
     image_parts := [InlinePart imagePart; TextPart prompt];
     imageConfig := None |}.

(** [editImage(file, prompt, apiKey)] *)
Definition editImage (file : File) (prompt apiKey : string) : M Stage string :=
  imagePart <- act (ReadFile file) (fileToPart file) ;;
  let req := editRequest imagePart prompt in
  response <- act (GenerateImage apiKey req) (models_generateContent apiKey req) ;;
  firstInlineData (firstCandidateParts response)
    "Image editing failed or returned no data.".

Definition videoRequest (prompt : string) (aspectRatio : VideoAspect) : VideoRequest :=
  {| video_model := MODEL_VEO;
     video_prompt := prompt;
     numberOfVideos := 1;
     resolution := "1080p";
     video_aspectRatio := aspectRatio |}.

(** [while (!operation.done) { await new Promise(r => setTimeout(r, 5000));
     operation = await ai.operations.getVideosOperation({ operation }); }]
    for at most [rounds] rounds of the loop; [None] when the operation is
    still not done after them. *)
Fixpoint awaitDone (rounds : nat) (apiKey : string) (operation : Operation)
  : M Stage (option Operation) :=
  if done operation then ret (Some operation)
  else
    match rounds with
    | O => ret None
    | S rounds' =>
        act (Sleep 5000) (fun w => (Returned tt, setTimeout 5000 w)) ;;
        next <- act (GetVideosOperation apiKey operation)
                  (operations_getVideosOperation apiKey operation) ;;
        awaitDone rounds' apiKey next
    end.

(** [operation.response?.generatedVideos?.[0]?.video?.uri] *)
Definition videoUri (operation : Operation) : option string :=
  match operation_response operation with
  | Some r =>
      match generatedVideos r with
      | Some (first :: _) =>
          match video first with
          | Some v => uri v
          | None => None
          end
      | _ => None
      end
  | None => None
  end.

(** [generateVideo(prompt, apiKey, aspectRatio = '16:9')], its loop run for at
    most [rounds] rounds; [None] when it is still polling after them. *)
Definition generateVideo (rounds : nat) (prompt apiKey : string)
    (aspectRatio : option VideoAspect) : M Stage (option string) :=
  let aspectRatio := MemoryBankService.orElse aspectRatio landscape in
  let req := videoRequest prompt aspectRatio in
  operation <- act (GenerateVideos apiKey req) (models_generateVideos apiKey req) ;;
  finished <- awaitDone rounds apiKey operation ;;
  match finished with
  | None => ret None
  | Some operation =>
      match videoUri operation with
      | Some u =>
          if (u =? "")%string then throw (Error "Video generation failed.")
          else ret (Some (u ++ "&key=" ++ apiKey))
      | None => throw (Error "Video generation failed.")
      end
  end.

Definition noInlineData (p : ResponsePart) : Prop := inlineData p = None.

(** The operation is done after exactly [n] rounds of the loop, each a wait of
    five seconds and then a status request that resolves. *)
Inductive doneAfter (apiKey : string)
  : Operation -> Backstage -> nat -> Operation -> Backstage -> Prop :=
| done_now operation w :
    done operation = true -> doneAfter apiKey operation w 0 operation w
| done_later operation w next w' n final w'' :
    done operation = false ->
    operations_getVideosOperation apiKey operation (setTimeout 5000 w)
      = (Returned next, w') ->
    doneAfter apiKey next w' n final w'' ->
    doneAfter apiKey operation w (S n) final w''.

Definition isStatusRequest (a : Action) : bool :=
  match a with
  | GetVideosOperation _ _ => true
  | _ => false
  end.

Definition isSleep (a : Action) : bool :=
  match a with
  | Sleep ms => (ms =? 5000)%Z
  | _ => false
  end.

(** The actions of loop rounds: a wait, a status request, a wait, ... *)
Fixpoint roundsOnly (l : list Action) : bool :=
  match l with
  | [] => true
  | a :: b :: rest => isSleep a && isStatusRequest b && roundsOnly rest
  | _ => false
  end.

End Functions.

(** A studio for examples.  A file is its base64 payload, or unreadable; the
    image model answers with the given parts; the backstage counts the status
    requests, and the video operation is done, with the given URI, at request
    number [doneAt] (never, for [None]). *)
Definition png (payload : string) : InlineData :=
  {| data := payload; mimeType := "image/png" |}.

Definition running : Operation :=
  {| operation_name := "op"; done := false; operation_response := None |}.

Definition finishedWith (u : option string) : Operation :=
  {| operation_name := "op"; done := true;
     operation_response :=
       Some {| generatedVideos := Some [ {| video := Some {| uri := u |} |} ] |} |}.

Definition rehearsal (imageParts : option (list ResponsePart)) (u : option string)
    (doneAt : option nat) : Studio :=
  {| Backstage := nat;
     File := option string;
     fileToPart := fun f w =>
       match f with
       | Some payload => (Returned (png payload), w)
       | None => (Thrown (Rejected "unreadable"), w)
       end;
     models_generateContent := fun _ _ w =>
       (Returned {| candidates := Some [ {| content := Some {| parts := imageParts |} |} ] |},
        w);
     models_generateVideos := fun _ _ w => (Returned running, 0%nat);
     operations_getVideosOperation := fun _ _ w =>
       (Returned
          match doneAt with
          | Some n => if (n <=? S w)%nat then finishedWith u else running
          | None => running
          end,
        S w);
     setTimeout := fun _ w => w |}.

Definition emptyStage {studio : Studio} (w : Backstage) : Stage :=
  {| backstage := w; actions := [] |}.

End Media.

(** * Properties *)

(** ** Trace recorder *)

Lemma slice_negative_last {A} (n : nat) (l : list A) :
  (0 < n)%nat -> slice (- Z.of_nat n) l = lastEntries n l.
Proof.
  intros Hn. unfold slice, lastEntries.
  destruct (Z.ltb_spec (- Z.of_nat n) 0) as [_ | H]; [| lia].
  f_equal. lia.
Qed.

(** For a positive count the recorder returns the last [count] metrics in
    insertion order; the default count is 5. *)
Lemma getRecentMetrics_positive (n : nat) (metrics : TraceService.t) :
  (0 < n)%nat ->
  TraceService.getRecentMetrics (Some (Z.of_nat n)) metrics = lastEntries n metrics
  /\ TraceService.getRecentMetrics None metrics = lastEntries 5 metrics.
Proof.
  intros Hn. unfold TraceService.getRecentMetrics. split.
  - now apply slice_negative_last.
  - apply (slice_negative_last 5). lia.
Qed.

(** After [clear()] every read is empty, whatever the count. *)
Lemma getRecentMetrics_after_clear (count : option Z) (metrics : TraceService.t) :
  TraceService.getRecentMetrics count (TraceService.clear metrics) = [].
Proof.
  unfold TraceService.getRecentMetrics, TraceService.clear, slice.
  now rewrite skipn_nil.
Qed.

(** Recording appends: the new metric is the last one read back. *)
Lemma getRecentMetrics_after_record name value unit now (metrics : TraceService.t) :
  TraceService.getRecentMetrics (Some 1%Z)
    (TraceService.recordMetric name value unit now metrics)
  = [ {| metric_name := name; metric_value := value;
         metric_unit := unit; timestamp := now |} ].
Proof.
  change 1%Z with (Z.of_nat 1).
  destruct (getRecentMetrics_positive 1 (TraceService.recordMetric name value unit now metrics))
    as [-> _]; [lia |].
  unfold lastEntries, TraceService.recordMetric, push.
  rewrite length_app. simpl.
  replace (length metrics + 1 - 1)%nat with (length metrics + 0)%nat by lia.
  rewrite skipn_app, Nat.add_0_r, skipn_all.
  now replace (length metrics - length metrics)%nat with 0%nat by lia.
Qed.

(** C9, at count 0: with two metrics recorded, [getRecentMetrics(0)] returns
    both of them, where the last 0 recorded metrics are none; [slice(-0)] is
    [slice(0)], so the same happens on every log. *)
Theorem getRecentMetrics_zero_returns_all :
  TraceService.getRecentMetrics (Some 0%Z) [metricA; metricB] = [metricA; metricB]
  /\ lastEntries 0 [metricA; metricB] = []
  /\ forall metrics : TraceService.t,
       TraceService.getRecentMetrics (Some 0%Z) metrics = metrics.
Proof.
  split; [reflexivity | split; [reflexivity |]].
  intros metrics. unfold TraceService.getRecentMetrics, slice. simpl.
  now destruct (Z.min_spec 0 (Z.of_nat (length metrics))) as [[_ ->] | [H ->]];
    [| replace (Z.to_nat (Z.of_nat (length metrics))) with 0%nat by lia].
Qed.

(** ** Memory bank *)

Lemma includes_true_iff (l : list string) (x : string) :
  includes l x = true <-> In x l.
Proof.
  unfold includes. rewrite existsb_exists. split.
  - intros [y [Hy E]]. apply String.eqb_eq in E. now subst.
  - intros H. exists x. split; [assumption | apply String.eqb_refl].
Qed.

Lemma includes_appendUnique (l : list string) (x : string) :
  (if negb (includes l x) then push l x else l) = appendUnique l x.
Proof.
  unfold appendUnique, push.
  destruct (includes l x) eqn:E; destruct (in_dec string_dec x l) as [Hin | Hout];
    simpl; try reflexivity.
  - apply includes_true_iff in E. contradiction.
  - apply includes_true_iff in Hin. congruence.
Qed.

Lemma includes_push (l : list string) (x : string) : includes (push l x) x = true.
Proof. apply includes_true_iff. unfold push. apply in_or_app. right. now left. Qed.

Lemma entriesFor_push (l : list string) (x : string) :
  entriesFor x (push l x) = S (entriesFor x l).
Proof.
  unfold entriesFor, push. rewrite count_occ_app. simpl.
  destruct (string_dec x x); [lia | congruence].
Qed.

Lemma entriesFor_absent (l : list string) (x : string) :
  includes l x = false -> entriesFor x l = 0%nat.
Proof.
  intros E. unfold entriesFor. apply count_occ_not_In.
  intros Hin. apply includes_true_iff in Hin. congruence.
Qed.

Lemma entriesFor_present (l : list string) (x : string) :
  includes l x = true -> (0 < entriesFor x l)%nat.
Proof.
  intros E. unfold entriesFor. apply count_occ_In. now apply includes_true_iff.
Qed.

Lemma addNote_notes (note : string) (c : UserContext) :
  notes (MemoryBankService.addNote note c) = appendUnique (notes c) note.
Proof.
  rewrite <- includes_appendUnique. unfold MemoryBankService.addNote.
  now destruct (includes (notes c) note).
Qed.

Lemma getArray_setArray key l c :
  MemoryBankService.getArray key (MemoryBankService.setArray key l c) = l.
Proof. now destruct key. Qed.

Lemma addArrayItem_array key (x : string) (c : UserContext) :
  MemoryBankService.getArray key (MemoryBankService.addArrayItem key x c)
  = appendUnique (MemoryBankService.getArray key c) x.
Proof.
  rewrite <- includes_appendUnique. unfold MemoryBankService.addArrayItem.
  destruct (includes (MemoryBankService.getArray key c) x); simpl;
    [reflexivity | apply getArray_setArray].
Qed.

Lemma appendUnique_once (l : list string) (x : string) :
  (entriesFor x l <= 1)%nat -> entriesFor x (appendUnique l x) = 1%nat.
Proof.
  intros H. rewrite <- includes_appendUnique.
  destruct (includes l x) eqn:E; simpl.
  - apply entriesFor_present in E. lia.
  - rewrite entriesFor_push, (entriesFor_absent _ _ E). reflexivity.
Qed.

Lemma addNote_idempotent (note : string) (c : UserContext) :
  MemoryBankService.addNote note (MemoryBankService.addNote note c)
  = MemoryBankService.addNote note c.
Proof.
  unfold MemoryBankService.addNote at 2.
  destruct (includes (notes c) note) eqn:E; cbn [negb].
  - unfold MemoryBankService.addNote. now rewrite E.
  - unfold MemoryBankService.addNote. cbn [notes]. now rewrite includes_push, E.
Qed.

Lemma addArrayItem_idempotent key (x : string) (c : UserContext) :
  MemoryBankService.addArrayItem key x (MemoryBankService.addArrayItem key x c)
  = MemoryBankService.addArrayItem key x c.
Proof.
  unfold MemoryBankService.addArrayItem at 2.
  destruct (includes (MemoryBankService.getArray key c) x) eqn:E; cbn [negb].
  - unfold MemoryBankService.addArrayItem. now rewrite E.
  - unfold MemoryBankService.addArrayItem.
    now rewrite getArray_setArray, includes_push, E.
Qed.

(** C8, as the code has it: for every text and every memory-bank state,
    calling [addNote] (or [addArrayItem] on any of the three lists) twice with
    the same text leaves the same state as calling it once; and the list then
    holds exactly one entry for the text whenever it held at most one before
    the calls. *)
Theorem add_twice_same_as_once (x : string) (c : UserContext) :
  (MemoryBankService.addNote x (MemoryBankService.addNote x c)
     = MemoryBankService.addNote x c
   /\ ((entriesFor x (notes c) <= 1)%nat ->
       entriesFor x (notes (MemoryBankService.addNote x c)) = 1%nat))
  /\ forall key,
       MemoryBankService.addArrayItem key x (MemoryBankService.addArrayItem key x c)
         = MemoryBankService.addArrayItem key x c
       /\ ((entriesFor x (MemoryBankService.getArray key c) <= 1)%nat ->
           entriesFor x
             (MemoryBankService.getArray key (MemoryBankService.addArrayItem key x c))
           = 1%nat).
Proof.
  split; [split | intros key; split].
  - apply addNote_idempotent.
  - intros H. rewrite addNote_notes. now apply appendUnique_once.
  - apply addArrayItem_idempotent.
  - intros H. rewrite addArrayItem_array. now apply appendUnique_once.
Qed.

Lemma add_twice_same_as_once_witness :
  (entriesFor "asthma" (notes blankContext) <= 1)%nat
  /\ entriesFor "asthma"
       (notes (MemoryBankService.addNote "asthma"
                 (MemoryBankService.addNote "asthma" blankContext))) = 1%nat
  /\ entriesFor "asthma"
       (healthConditions
          (MemoryBankService.addArrayItem MemoryBankService.healthConditionsKey "asthma"
             (MemoryBankService.addArrayItem MemoryBankService.healthConditionsKey "asthma"
                blankContext))) = 1%nat.
Proof.
  assert (H0 : (entriesFor "asthma" (notes blankContext) <= 1)%nat)
    by (vm_compute; lia).
  destruct (add_twice_same_as_once "asthma" blankContext) as [[En Hn] Hk].
  destruct (Hk MemoryBankService.healthConditionsKey) as [Ek Hk'].
  split; [exact H0 | split].
  - rewrite En. exact (Hn H0).
  - rewrite Ek. apply Hk'. vm_compute. lia.
Defined.

(** C8 without the proviso does not hold: where a list already holds the
    text twice, the two calls change nothing and both entries stay. *)
Lemma addNote_keeps_repeated_entries :
  ~ (MemoryBankService.addNote "likes tea"
       (MemoryBankService.addNote "likes tea" repeatedNotes)
     = MemoryBankService.addNote "likes tea" repeatedNotes
     /\ entriesFor "likes tea"
          (notes (MemoryBankService.addNote "likes tea"
                    (MemoryBankService.addNote "likes tea" repeatedNotes))) = 1%nat).
Proof. vm_compute. intros [_ H]. discriminate H. Qed.

(** ** Memory bank and trace recorder: further properties *)

Open Scope list_scope.

(** X19: a list without duplicates stays without duplicates under
    [addArrayItem] and [addNote]; after the call the item is stored, the
    items stored before are all still there in their order, and the list is
    longer by at most one. *)
Theorem add_keeps_lists_deduplicated (key : MemoryBankService.ArrayKey)
    (x : string) (c : UserContext) :
  let before := MemoryBankService.getArray key c in
  let after := MemoryBankService.getArray key (MemoryBankService.addArrayItem key x c) in
  let notes' := notes (MemoryBankService.addNote x c) in
  (NoDup before -> NoDup after)
  /\ (NoDup (notes c) -> NoDup notes')
  /\ In x after /\ In x notes'
  /\ (exists added, after = before ++ added /\ (length added <= 1)%nat)
  /\ (exists added, notes' = notes c ++ added /\ (length added <= 1)%nat).
Proof.
  assert (Hnd : forall l, NoDup l -> NoDup (appendUnique l x)).
  { intros l Hl. unfold appendUnique. destruct (in_dec string_dec x l) as [Hin | Hout];
      [assumption |].
    apply NoDup_app; [assumption | repeat constructor; intros [] |].
    intros y Hy [<- | []]. contradiction. }
  assert (Hin : forall l, In x (appendUnique l x)).
  { intros l. unfold appendUnique. destruct (in_dec string_dec x l);
      [assumption | apply in_or_app; right; now left]. }
  assert (Hext : forall l, exists added,
             appendUnique l x = l ++ added /\ (length added <= 1)%nat).
  { intros l. unfold appendUnique. destruct (in_dec string_dec x l).
    - exists []. rewrite app_nil_r. split; [reflexivity | cbn; lia].
    - exists [x]. split; [reflexivity | cbn; lia]. }
  cbv zeta. rewrite addArrayItem_array, addNote_notes.
  repeat split; auto.
Qed.

(** X20: how profile updates compose.  [updateContext] overrides exactly the
    fields an update supplies and keeps the others, except that
    [lastInteraction] is always set to the current time, even when the update
    supplies one.  After two updates in a row each field has the value the
    later update supplies, or else the one the earlier update supplies, or
    else the one it had, and [lastInteraction] is the later time: the two
    amount to the single update that merges them, made at the later time. *)
Theorem updateContext_composes (u1 u2 : MemoryBankService.Updates) (t1 t2 : Z)
    (c : UserContext) :
  let over {A} (supplied : option A) (kept : A) : A :=
    match supplied with Some v => v | None => kept end in
  MemoryBankService.updateContext u1 t1 c
  = {| name := over (MemoryBankService.u_name u1) (name c);
       location := over (MemoryBankService.u_location u1) (location c);
       healthConditions :=
         over (MemoryBankService.u_healthConditions u1) (healthConditions c);
       learningGoals := over (MemoryBankService.u_learningGoals u1) (learningGoals c);
       ecoPreferences :=
         over (MemoryBankService.u_ecoPreferences u1) (ecoPreferences c);
       notes := over (MemoryBankService.u_notes u1) (notes c);
       lastInteraction := t1 |}
  /\ MemoryBankService.updateContext u2 t2 (MemoryBankService.updateContext u1 t1 c)
     = {| name :=
            over (MemoryBankService.u_name u2)
              (over (MemoryBankService.u_name u1) (name c));
          location :=
            over (MemoryBankService.u_location u2)
              (over (MemoryBankService.u_location u1) (location c));
          healthConditions :=
            over (MemoryBankService.u_healthConditions u2)
              (over (MemoryBankService.u_healthConditions u1) (healthConditions c));
          learningGoals :=
            over (MemoryBankService.u_learningGoals u2)
              (over (MemoryBankService.u_learningGoals u1) (learningGoals c));
          ecoPreferences :=
            over (MemoryBankService.u_ecoPreferences u2)
              (over (MemoryBankService.u_ecoPreferences u1) (ecoPreferences c));
          notes :=
            over (MemoryBankService.u_notes u2)
              (over (MemoryBankService.u_notes u1) (notes c));
          lastInteraction := t2 |}
  /\ MemoryBankService.updateContext u2 t2 (MemoryBankService.updateContext u1 t1 c)
     = MemoryBankService.updateContext (mergeUpdates u1 u2) t2 c.
Proof.
  cbv zeta. split; [reflexivity |]. split; [reflexivity |].
  destruct u1 as [n1 l1 h1 g1 e1 o1 i1], u2 as [n2 l2 h2 g2 e2 o2 i2].
  unfold MemoryBankService.updateContext, mergeUpdates. cbn.
  now destruct n2, l2, h2, g2, e2, o2.
Qed.

Lemma recordAll_appends (ms : list AgentMetric) (log : TraceService.t) :
  recordAll ms log = log ++ ms.
Proof.
  unfold recordAll. revert log.
  induction ms as [| m ms IH]; intros log; cbn [fold_left].
  - now rewrite app_nil_r.
  - rewrite IH. unfold TraceService.recordMetric, push.
    rewrite <- app_assoc. now destruct m.
Qed.

(** X21: reading back what was recorded.  Metrics recorded one after the
    other are appended to the log in that order, and asking for as many
    recent metrics as were just recorded (at least one) returns exactly
    those, in the order they were recorded. *)
Theorem recent_returns_what_was_recorded (ms : list AgentMetric)
    (log : TraceService.t) :
  ms <> [] ->
  recordAll ms log = log ++ ms
  /\ TraceService.getRecentMetrics (Some (Z.of_nat (length ms))) (recordAll ms log)
     = ms.
Proof.
  intros Hne. split; [apply recordAll_appends |].
  rewrite recordAll_appends. unfold TraceService.getRecentMetrics.
  rewrite slice_negative_last by (destruct ms; [congruence | cbn; lia]).
  unfold lastEntries. rewrite length_app.
  replace (length log + length ms - length ms)%nat with (length log + 0)%nat by lia.
  rewrite skipn_app, Nat.add_0_r, skipn_all.
  now replace (length log - length log)%nat with 0%nat by lia.
Qed.

(** X22: the bounds of a read.  For a count of at least 1 the recorder
    returns a suffix of the log of length min(count, size of the log), so a
    count beyond the log returns the whole log; a negative count [-k] does not
    return the empty list but the log without its first [k] entries. *)
Theorem getRecentMetrics_bounds (n k : nat) (log : TraceService.t) :
  (0 < n)%nat -> (0 < k)%nat ->
  let recent := TraceService.getRecentMetrics (Some (Z.of_nat n)) log in
  length recent = Nat.min n (length log)
  /\ (exists earlier, log = earlier ++ recent)
  /\ ((length log <= n)%nat -> recent = log)
  /\ TraceService.getRecentMetrics (Some (- Z.of_nat k)%Z) log = skipn k log.
Proof.
  intros Hn Hk recent. subst recent. unfold TraceService.getRecentMetrics.
  rewrite slice_negative_last by assumption. unfold lastEntries.
  split; [rewrite length_skipn; lia |].
  split; [exists (firstn (length log - n) log); now rewrite firstn_skipn |].
  split.
  - intros Hshort. now replace (length log - n)%nat with 0%nat by lia.
  - unfold slice. rewrite Z.opp_involutive.
    destruct (Z.ltb_spec (Z.of_nat k) 0) as [Hneg | _]; [lia |].
    destruct (Z.min_spec (Z.of_nat k) (Z.of_nat (length log))) as [[Hlt ->] | [Hge ->]].
    + now rewrite Nat2Z.id.
    + rewrite Nat2Z.id, skipn_all. symmetry. apply skipn_all2. lia.
Qed.

(** ** The service, over arbitrary collaborators *)

Section Properties.
Context {env : Collaborators}.

Lemma addArrayItem_record key (x : string) (c : UserContext) :
  MemoryBankService.addArrayItem key x c
  = MemoryBankService.setArray key
      (appendUnique (MemoryBankService.getArray key c) x) c.
Proof.
  rewrite <- includes_appendUnique. unfold MemoryBankService.addArrayItem.
  destruct (includes (MemoryBankService.getArray key c) x); cbn [negb];
    [| reflexivity].
  now destruct key, c.
Qed.

Lemma addNote_record (x : string) (c : UserContext) :
  MemoryBankService.addNote x c
  = {| name := name c; location := location c;
       healthConditions := healthConditions c;
       learningGoals := learningGoals c;
       ecoPreferences := ecoPreferences c;
       notes := appendUnique (notes c) x;
       lastInteraction := lastInteraction c |}.
Proof.
  rewrite <- includes_appendUnique. unfold MemoryBankService.addNote.
  destruct (includes (notes c) x); cbn [negb]; [| reflexivity].
  now destruct c.
Qed.

(** C7, as the code has it: an [updateMemory] call handled by the agent
    executor always succeeds and touches nothing but the memory bank.
    Category "health", "education" or "environment" appends the item to
    [healthConditions], [learningGoals] or [ecoPreferences] unless it is
    already there; "profile" replaces the name by the item and stamps
    [lastInteraction] with the current time; every other category (such as
    "note") appends the item to [notes] unless it is already there.  The
    fields not named are unchanged. *)
Theorem updateMemory_effect (a : CallArgs) (s : State env) :
  exists s',
    updateMemory a s = (Returned tt, s')
    /\ traceService s' = traceService s
    /\ calls s' = calls s
    /\ memoryBank s' =
         let c := memoryBank s in
         if String.eqb (category a) "health" then
           {| name := name c; location := location c;
              healthConditions := appendUnique (healthConditions c) (item a);
              learningGoals := learningGoals c;
              ecoPreferences := ecoPreferences c;
              notes := notes c;
              lastInteraction := lastInteraction c |}
         else if String.eqb (category a) "education" then
           {| name := name c; location := location c;
              healthConditions := healthConditions c;
              learningGoals := appendUnique (learningGoals c) (item a);
              ecoPreferences := ecoPreferences c;
              notes := notes c;
              lastInteraction := lastInteraction c |}
         else if String.eqb (category a) "environment" then
           {| name := name c; location := location c;
              healthConditions := healthConditions c;
              learningGoals := learningGoals c;
              ecoPreferences := appendUnique (ecoPreferences c) (item a);
              notes := notes c;
              lastInteraction := lastInteraction c |}
         else if String.eqb (category a) "profile" then
           {| name := item a; location := location c;
              healthConditions := healthConditions c;
              learningGoals := learningGoals c;
              ecoPreferences := ecoPreferences c;
              notes := notes c;
              lastInteraction := fst (Date_now (world s)) |}
         else
           {| name := name c; location := location c;
              healthConditions := healthConditions c;
              learningGoals := learningGoals c;
              ecoPreferences := ecoPreferences c;
              notes := appendUnique (notes c) (item a);
              lastInteraction := lastInteraction c |}.
Proof.
  unfold updateMemory. cbv zeta.
  destruct (String.eqb (category a) "health");
    [| destruct (String.eqb (category a) "education");
       [| destruct (String.eqb (category a) "environment");
          [| destruct (String.eqb (category a) "profile") ] ] ].
  1-3: unfold modifyMemoryBank; eexists; repeat split;
       cbn [memoryBank setMemoryBank]; now rewrite addArrayItem_record.
  - unfold bind, now, modifyMemoryBank.
    destruct (Date_now (world s)) as [t w] eqn:E.
    eexists; repeat split.
  - unfold modifyMemoryBank. eexists; repeat split.
    cbn [memoryBank setMemoryBank]. apply addNote_record.
Qed.

(** *** The record of calls grows by what each operation sends out *)

Lemma quietly_onlyCalls {A} (P : Event -> Prop) (m : M (State env) A) :
  quietly m -> onlyCalls P m.
Proof. intros H s. exists []. now rewrite app_nil_r, H. Qed.

Lemma onlyCalls_weaken {A} (P Q : Event -> Prop) (m : M (State env) A) :
  (forall e, P e -> Q e) -> onlyCalls P m -> onlyCalls Q m.
Proof.
  intros HPQ Hm s. destruct (Hm s) as [evs [E F]]. exists evs. split; [exact E |].
  eapply Forall_impl; eauto.
Qed.

Lemma onlyCalls_run {A} (P : Event -> Prop) (m : M (State env) A) s o s' :
  onlyCalls P m -> m s = (o, s') ->
  exists evs, calls s' = (calls s ++ evs)%list /\ Forall P evs.
Proof. intros Hm E. specialize (Hm s). now rewrite E in Hm. Qed.

Lemma quietly_run {A} (m : M (State env) A) s o s' :
  quietly m -> m s = (o, s') -> calls s' = calls s.
Proof. intros Hm E. specialize (Hm s). now rewrite E in Hm. Qed.

Lemma quietly_ret {A} (a : A) : quietly (ret (S := State env) a).
Proof. intros s. reflexivity. Qed.

Lemma quietly_throw {A} (e : Exn) : quietly (throw (S := State env) (A := A) e).
Proof. intros s. reflexivity. Qed.

Lemma quietly_bind {A B} (m : M (State env) A) (k : A -> M (State env) B) :
  quietly m -> (forall a, quietly (k a)) -> quietly (bind m k).
Proof.
  intros Hm Hk s. unfold bind. specialize (Hm s).
  destruct (m s) as [[a | e] s1]; simpl in *; [| exact Hm].
  now rewrite Hk.
Qed.

Lemma onlyCalls_bind {A B} P (m : M (State env) A) (k : A -> M (State env) B) :
  onlyCalls P m -> (forall a, onlyCalls P (k a)) -> onlyCalls P (bind m k).
Proof.
  intros Hm Hk s. unfold bind. destruct (Hm s) as [ev1 [E1 F1]].
  destruct (m s) as [[a | e] s1]; simpl in *.
  - destruct (Hk a s1) as [ev2 [E2 F2]]. exists (ev1 ++ ev2).
    rewrite E2, E1, app_assoc. split; [reflexivity | now apply Forall_app].
  - now exists ev1.
Qed.

Lemma onlyCalls_tryCatch {A} P (m : M (State env) A) (h : Exn -> M (State env) A) :
  onlyCalls P m -> (forall e, onlyCalls P (h e)) -> onlyCalls P (tryCatch m h).
Proof.
  intros Hm Hh s. unfold tryCatch. destruct (Hm s) as [ev1 [E1 F1]].
  destruct (m s) as [[a | e] s1]; simpl in *.
  - now exists ev1.
  - destruct (Hh e s1) as [ev2 [E2 F2]]. exists (ev1 ++ ev2).
    rewrite E2, E1, app_assoc. split; [reflexivity | now apply Forall_app].
Qed.

Lemma quietly_now : quietly now.
Proof. intros s. unfold now. now destruct (Date_now (world s)). Qed.

Lemma quietly_getFormattedContext : quietly getFormattedContext.
Proof. intros s. reflexivity. Qed.

Lemma quietly_modifyMemoryBank f : quietly (modifyMemoryBank f).
Proof. intros s. reflexivity. Qed.

Lemma quietly_getRecentMetrics : quietly getRecentMetrics.
Proof. intros s. reflexivity. Qed.

Lemma quietly_recordMetric name value unit : quietly (recordMetric name value unit).
Proof.
  unfold recordMetric. apply quietly_bind; [apply quietly_now |].
  intros t s. reflexivity.
Qed.

Lemma quietly_recordElapsed name start : quietly (recordElapsed name start).
Proof.
  unfold recordElapsed. apply quietly_bind; [apply quietly_now |].
  intros t. apply quietly_recordMetric.
Qed.

Lemma quietly_jsonParse {A} (parse : string -> option A) t : quietly (jsonParse parse t).
Proof.
  unfold jsonParse. destruct t as [t |]; [destruct (parse t) |];
    auto using quietly_ret, quietly_throw.
Qed.

Lemma updateMemory_returns a (s : State env) :
  exists s', updateMemory a s = (Returned tt, s') /\ calls s' = calls s.
Proof.
  unfold updateMemory.
  destruct (String.eqb (category a) "health");
    [| destruct (String.eqb (category a) "education");
       [| destruct (String.eqb (category a) "environment");
          [| destruct (String.eqb (category a) "profile") ] ] ];
    try (unfold modifyMemoryBank; eexists; split; reflexivity).
  unfold bind, now, modifyMemoryBank.
  destruct (Date_now (world s)) as [t w]. eexists; split; reflexivity.
Qed.

Lemma quietly_updateMemory a : quietly (updateMemory a).
Proof.
  intros s. destruct (updateMemory_returns a s) as [s' [E Hc]]. now rewrite E.
Qed.

Lemma onlyCalls_generateContent (P : Event -> Prop) apiKey req :
  (forall r, P (GenerateContentCall req r)) ->
  onlyCalls P (callGenerateContent apiKey req).
Proof.
  intros HP s. unfold callGenerateContent.
  destruct (generateContent apiKey req (world s)) as [r w].
  exists [GenerateContentCall req r]. split; [reflexivity | auto].
Qed.

Lemma onlyCalls_chatsCreate (P : Event -> Prop) apiKey cfg :
  P (ChatCreateCall cfg) -> onlyCalls P (callChatsCreate apiKey cfg).
Proof.
  intros HP s. unfold callChatsCreate.
  destruct (chats_create apiKey cfg (world s)) as [c w].
  exists [ChatCreateCall cfg]. split; [reflexivity | auto].
Qed.

Lemma onlyCalls_sendMessage (P : Event -> Prop) chat msg :
  (forall r, P (SendMessageCall msg r)) -> onlyCalls P (callSendMessage chat msg).
Proof.
  intros HP s. unfold callSendMessage.
  destruct (sendMessage chat msg (world s)) as [r w].
  exists [SendMessageCall msg r]. split; [reflexivity | auto].
Qed.

(** *** Evaluator *)

(** C5: the evaluator never throws.  If the scoring call rejects, or its text
    is missing or does not parse, the result is exactly the default [{score:
    8, feedback: "Evaluation service unavailable.", latencyMs: 0, tokenCost:
    0}]; otherwise it carries the parsed score and feedback, the time the
    call took, and as token cost the length of the response text divided by
    4, rounded down. *)
Theorem evaluateResponse_result (query result apiKey : string) (s : State env) :
  exists r s',
    evaluateResponse query result apiKey s = (Returned r, s')
    /\ match generateContent apiKey (evaluationRequest query result)
               (snd (Date_now (world s))) with
       | (Thrown _, _) =>
           r = {| score := 8 # 1; feedback := "Evaluation service unavailable.";
                  latencyMs := 0; tokenCost := 0 |}
       | (Returned scored, w) =>
           match text scored with
           | None =>
               r = {| score := 8 # 1; feedback := "Evaluation service unavailable.";
                      latencyMs := 0; tokenCost := 0 |}
           | Some t =>
               match parseEvaluation t with
               | None =>
                   r = {| score := 8 # 1;
                          feedback := "Evaluation service unavailable.";
                          latencyMs := 0; tokenCost := 0 |}
               | Some parsed =>
                   r = {| score := parsed_score parsed;
                          feedback := parsed_feedback parsed;
                          latencyMs := (fst (Date_now w) - fst (Date_now (world s)))%Z;
                          tokenCost := (Z.of_nat (String.length result) / 4)%Z |}
               end
           end
       end.
Proof.
  unfold evaluateResponse, tryCatch, bind, now, callGenerateContent, jsonParse.
  destruct (Date_now (world s)) as [start w0]. cbn [fst snd world setWorld].
  destruct (generateContent apiKey (evaluationRequest query result) w0)
    as [[scored | e] w1]; [| eexists; eexists; split; reflexivity].
  destruct (text scored) as [t |]; [| eexists; eexists; split; reflexivity].
  destruct (parseEvaluation t) as [parsed |];
    [| eexists; eexists; split; reflexivity].
  cbn [ret fst snd world setWorld addCall].
  destruct (Date_now w1) as [finish w2]. cbn [fst].
  eexists; eexists; split; reflexivity.
Qed.

Lemma onlyCalls_evaluateResponse query result apiKey :
  onlyCalls (fun e => isEvaluatorCall e = true) (evaluateResponse query result apiKey).
Proof.
  unfold evaluateResponse.
  apply onlyCalls_bind; [apply quietly_onlyCalls, quietly_now | intros start].
  apply onlyCalls_tryCatch; [| intros; apply quietly_onlyCalls, quietly_ret].
  apply onlyCalls_bind; [now apply onlyCalls_generateContent | intros scored].
  apply onlyCalls_bind; [apply quietly_onlyCalls, quietly_jsonParse | intros parsed].
  apply onlyCalls_bind; [apply quietly_onlyCalls, quietly_now | intros t].
  apply quietly_onlyCalls, quietly_ret.
Qed.

(** *** History compactor *)

Lemma historyLines_verbatim (upper : string -> string) (history : list Turn) :
  Forall (fun h => turn_parts h <> []) history ->
  historyLines upper history
  = Some (map (fun h => (upper (turn_role h) ++ ": " ++ hd "" (turn_parts h))%string)
            history).
Proof.
  induction 1 as [| h rest Hh _ IH]; [reflexivity |].
  cbn [historyLines map]. destruct (turn_parts h) as [| t ts]; [congruence |].
  now rewrite IH.
Qed.

Lemma transcript_verbatim (history : list Turn) (s : State env) :
  Forall (fun h => turn_parts h <> []) history ->
  transcript history s = (Returned (verbatimTranscript toUpperCase history), s).
Proof.
  intros H. unfold transcript. now rewrite (historyLines_verbatim _ _ H).
Qed.

Lemma onlyCalls_compactionPhase history apiKey resumeState :
  onlyCalls (fun e => isCompactorCall e = true)
    (compactionPhase history apiKey resumeState).
Proof.
  unfold compactionPhase.
  destruct resumeState; [apply quietly_onlyCalls, quietly_ret |].
  destruct (0 <? length history)%nat; [| apply quietly_onlyCalls, quietly_ret].
  assert (Ht : quietly (transcript history)).
  { unfold transcript. destruct (historyLines toUpperCase history);
      auto using quietly_ret, quietly_throw. }
  destruct (6 <? length history)%nat; [| now apply quietly_onlyCalls].
  unfold compactHistory.
  destruct (length history =? 0)%nat; [apply quietly_onlyCalls, quietly_ret |].
  apply onlyCalls_bind; [now apply quietly_onlyCalls | intros historyText].
  apply onlyCalls_bind; [now apply onlyCalls_generateContent | intros r].
  apply quietly_onlyCalls, quietly_ret.
Qed.

(** *** Agent executor: it only talks to its chat session *)

Lemma quietly_finishAgent start r tools : quietly (finishAgent start r tools).
Proof.
  unfold finishAgent. apply quietly_bind; [apply quietly_recordElapsed |].
  intros _. apply quietly_ret.
Qed.

Lemma quietly_settle {A} (o : Outcome A) : quietly (settle (S := State env) o).
Proof. intros s. reflexivity. Qed.

Lemma quietly_handleCall call : quietly (handleCall call).
Proof.
  unfold handleCall.
  destruct (String.eqb (call_name call) "fetchMedicalRecords");
    [apply quietly_bind; [apply quietly_settle | intros; apply quietly_ret] |].
  destruct (String.eqb (call_name call) "updateMemory"); [| apply quietly_ret].
  destruct (args call) as [a |]; [| apply quietly_throw].
  apply quietly_bind; [apply quietly_updateMemory | intros _; apply quietly_ret].
Qed.

Lemma quietly_builtInTools r : quietly (builtInTools r).
Proof.
  unfold builtInTools. apply quietly_bind; [| intros; apply quietly_ret].
  destruct (candidates r) as [[| c cs] |]; auto using quietly_ret, quietly_throw.
Qed.

Lemma onlyCalls_toolLoop remaining start chat r tools :
  onlyCalls agentCall (toolLoop remaining start chat r tools).
Proof.
  revert r tools. induction remaining as [| n IH]; intros r tools; cbn [toolLoop].
  - destruct (functionCalls r); apply quietly_onlyCalls, quietly_finishAgent.
  - destruct (functionCalls r) as [[| call calls'] |];
      try (apply quietly_onlyCalls, quietly_finishAgent).
    destruct (String.eqb (call_name call) "pauseWorkflow").
    + apply quietly_onlyCalls, quietly_bind; [apply quietly_recordElapsed |].
      intros _. destruct (args call); [apply quietly_ret | apply quietly_throw].
    + apply onlyCalls_bind; [apply quietly_onlyCalls, quietly_handleCall |].
      intros [payload |]; [| apply quietly_onlyCalls, quietly_finishAgent].
      apply onlyCalls_bind; [now apply onlyCalls_sendMessage | intros r'].
      apply IH.
Qed.

Lemma onlyCalls_executeAgent agent instruction context apiKey language :
  onlyCalls agentCall (executeAgent agent instruction context apiKey language).
Proof.
  unfold executeAgent.
  apply onlyCalls_bind; [apply quietly_onlyCalls, quietly_now | intros start].
  apply onlyCalls_bind; [apply quietly_onlyCalls, quietly_getFormattedContext | intros memory].
  apply onlyCalls_bind; [now apply onlyCalls_chatsCreate | intros chat].
  apply onlyCalls_bind; [now apply onlyCalls_sendMessage | intros r].
  apply onlyCalls_bind; [apply quietly_onlyCalls, quietly_builtInTools | intros tools].
  apply onlyCalls_toolLoop.
Qed.

(** *** Mode dispatcher: it only runs agent executors *)

Lemma onlyCalls_sequentialLoop plan todo i context outputs tools apiKey language :
  onlyCalls agentCall
    (sequentialLoop plan todo i context outputs tools apiKey language).
Proof.
  revert i context outputs tools.
  induction todo as [| step todo IH]; intros i context outputs tools;
    cbn [sequentialLoop]; [apply quietly_onlyCalls, quietly_ret |].
  apply onlyCalls_bind; [apply onlyCalls_executeAgent | intros result].
  destruct (isPaused result); [apply quietly_onlyCalls, quietly_ret | apply IH].
Qed.

Lemma quietly_afterAnswer start chat r tools remaining :
  quietly (afterAnswer start chat r tools remaining).
Proof.
  assert (Hfinish : forall tools',
            quietly (result <- finishAgent start r tools' ;; ret (Settled result))).
  { intros tools'. apply quietly_bind;
      [apply quietly_finishAgent | intros; apply quietly_ret]. }
  unfold afterAnswer. destruct remaining as [| n]; [destruct (functionCalls r) |];
    try apply Hfinish.
  destruct (functionCalls r) as [[| call others] |]; try apply Hfinish.
  destruct (String.eqb (call_name call) "pauseWorkflow").
  - apply quietly_bind; [apply quietly_recordElapsed |].
    intros _. destruct (args call); [apply quietly_ret | apply quietly_throw].
  - destruct (String.eqb (call_name call) "fetchMedicalRecords");
      [apply quietly_ret |].
    destruct (String.eqb (call_name call) "updateMemory").
    + destruct (args call) as [a |]; [| apply quietly_throw].
      apply quietly_bind; [apply quietly_updateMemory | intros; apply quietly_ret].
    + apply Hfinish.
Qed.

Lemma onlyCalls_resume t : onlyCalls isMessage (resume t).
Proof.
  destruct t as [start chat msg first tools remaining
                | start chat call tools remaining | result]; cbn [resume].
  - apply onlyCalls_bind; [now apply onlyCalls_sendMessage | intros r].
    apply quietly_onlyCalls, quietly_bind; [| intros; apply quietly_afterAnswer].
    destruct first; [apply quietly_builtInTools | apply quietly_ret].
  - apply quietly_onlyCalls, quietly_bind;
      [apply quietly_settle | intros; apply quietly_ret].
  - apply quietly_onlyCalls, quietly_ret.
Qed.

Lemma onlyCalls_resumeNth k threads : onlyCalls isMessage (resumeNth k threads).
Proof.
  revert k. induction threads as [| [agent t] rest IH]; intros k; cbn [resumeNth];
    [apply quietly_onlyCalls, quietly_ret |].
  destruct (isSettled t).
  - apply onlyCalls_bind; [apply IH | intros; apply quietly_onlyCalls, quietly_ret].
  - destruct k as [| k'].
    + apply onlyCalls_bind;
        [apply onlyCalls_resume | intros; apply quietly_onlyCalls, quietly_ret].
    + apply onlyCalls_bind; [apply IH | intros; apply quietly_onlyCalls, quietly_ret].
Qed.

Lemma onlyCalls_awaitAll rounds threads : onlyCalls isMessage (awaitAll rounds threads).
Proof.
  revert threads. induction rounds as [| n IH]; intros threads; cbn [awaitAll];
    [apply quietly_onlyCalls, quietly_ret |].
  destruct (inFlight threads) as [| others];
    [apply quietly_onlyCalls, quietly_ret |].
  intros s.
  exact (onlyCalls_bind isMessage _ _ (onlyCalls_resumeNth _ threads) IH s).
Qed.

Lemma onlyCalls_startAgents todo context apiKey language :
  onlyCalls agentCall (startAgents todo context apiKey language).
Proof.
  induction todo as [| step todo IH]; cbn [startAgents];
    [apply quietly_onlyCalls, quietly_ret |].
  apply onlyCalls_bind.
  - unfold startAgent.
    apply onlyCalls_bind; [apply quietly_onlyCalls, quietly_now | intros start].
    apply onlyCalls_bind;
      [apply quietly_onlyCalls, quietly_getFormattedContext | intros memory].
    apply onlyCalls_bind; [now apply onlyCalls_chatsCreate | intros chat].
    apply quietly_onlyCalls, quietly_ret.
  - intros t. apply onlyCalls_bind; [apply IH | intros rest].
    apply quietly_onlyCalls, quietly_ret.
Qed.

Lemma onlyCalls_parallelAgents todo context apiKey language :
  onlyCalls agentCall (parallelAgents todo context apiKey language).
Proof.
  unfold parallelAgents.
  apply onlyCalls_bind; [apply onlyCalls_startAgents | intros threads].
  apply onlyCalls_bind; [| intros settled; apply quietly_onlyCalls, quietly_ret].
  eapply onlyCalls_weaken; [| apply onlyCalls_awaitAll].
  now intros [| |].
Qed.

Lemma quietly_firstStep plan : quietly (firstStep plan).
Proof.
  unfold firstStep. destruct (steps plan); auto using quietly_ret, quietly_throw.
Qed.

Lemma onlyCalls_executionPhase plan resumeState start context outputs tools apiKey language :
  onlyCalls agentCall
    (executionPhase plan resumeState start context outputs tools apiKey language).
Proof.
  assert (Hdirect : onlyCalls agentCall
            (step0 <- firstStep plan ;;
             result <- executeAgent (agent step0) (instruction step0)
                         context apiKey language ;;
             ret (Finished (setOutput (agent step0) (res_text result) outputs)
                    (pushAll tools (toolUsage result))))).
  { apply onlyCalls_bind; [apply quietly_onlyCalls, quietly_firstStep | intros step0].
    apply onlyCalls_bind; [apply onlyCalls_executeAgent | intros result].
    apply quietly_onlyCalls, quietly_ret. }
  unfold executionPhase.
  destruct (mode plan), resumeState;
    try apply onlyCalls_sequentialLoop;
    try (apply quietly_onlyCalls, quietly_ret);
    try exact Hdirect.
  - apply onlyCalls_bind; [apply onlyCalls_parallelAgents | intros results].
    apply quietly_onlyCalls, quietly_ret.
  - apply onlyCalls_bind; [apply quietly_onlyCalls, quietly_firstStep | intros step0].
    apply onlyCalls_bind; [apply onlyCalls_executeAgent | intros draft].
    apply onlyCalls_bind; [apply onlyCalls_executeAgent | intros critique].
    apply onlyCalls_bind; [apply onlyCalls_executeAgent | intros refinement].
    apply quietly_onlyCalls, quietly_ret.
Qed.

(** *** Planner *)

Lemma onlyCalls_planningPhase prompt contextSummary apiKey resumeState :
  onlyCalls (fun e => isPlannerCall e = true)
    (planningPhase prompt contextSummary apiKey resumeState).
Proof.
  unfold planningPhase.
  destruct resumeState; [apply quietly_onlyCalls, quietly_ret |].
  apply onlyCalls_bind;
    [apply quietly_onlyCalls, quietly_getFormattedContext | intros memory].
  apply onlyCalls_bind; [| intros; apply quietly_onlyCalls, quietly_ret].
  apply onlyCalls_tryCatch; [| intros; apply quietly_onlyCalls, quietly_ret].
  unfold planExecution.
  apply onlyCalls_bind; [apply quietly_onlyCalls, quietly_now | intros start].
  apply onlyCalls_bind; [now apply onlyCalls_generateContent | intros r].
  apply onlyCalls_bind; [apply quietly_onlyCalls, quietly_recordElapsed | intros _].
  apply quietly_onlyCalls, quietly_jsonParse.
Qed.

(** *** Synthesizer *)

Lemma onlyCalls_synthesisPhase prompt plan outputs tools contextSummary apiKey
    language useThinking overallStart :
  onlyCalls (fun e => isSynthesizerCall e = true \/ isEvaluatorCall e = true)
    (synthesisPhase prompt plan outputs tools contextSummary apiKey language
       useThinking overallStart).
Proof.
  unfold synthesisPhase.
  apply onlyCalls_bind;
    [apply quietly_onlyCalls, quietly_getFormattedContext | intros memory].
  apply onlyCalls_bind; [apply onlyCalls_generateContent; now left | intros r].
  apply onlyCalls_bind; [apply quietly_onlyCalls, quietly_jsonParse | intros parsed].
  apply onlyCalls_bind;
    [eapply onlyCalls_weaken; [| apply onlyCalls_evaluateResponse]; now right
    | intros evalResult].
  apply onlyCalls_bind; [apply quietly_onlyCalls, quietly_recordElapsed | intros _].
  apply onlyCalls_bind; [apply quietly_onlyCalls, quietly_getRecentMetrics | intros ms].
  apply quietly_onlyCalls, quietly_ret.
Qed.

(** *** The whole run *)

Lemma agentCall_not_compactor e : agentCall e -> isCompactorCall e = false.
Proof. now destruct e. Qed.

Lemma finalCall_not_compactor e :
  isSynthesizerCall e = true \/ isEvaluatorCall e = true -> isCompactorCall e = false.
Proof.
  destruct e as [req r | |]; try reflexivity.
  unfold isSynthesizerCall, isEvaluatorCall, isCompactorCall, schemaOfCall.
  destruct (responseSchema req); [reflexivity | intros [H | H]; discriminate H].
Qed.

Lemma finalCall_not_agent e :
  isSynthesizerCall e = true \/ isEvaluatorCall e = true -> isAgentCall e = false.
Proof. destruct e; try reflexivity; intros [H | H]; discriminate H. Qed.

Lemma onlyCalls_resumed_run prompt history apiKey language useThinking rs :
  onlyCalls
    (fun e => agentCall e \/ isSynthesizerCall e = true \/ isEvaluatorCall e = true)
    (runMultiAgentSystem prompt history apiKey language useThinking (Some rs)).
Proof.
  unfold runMultiAgentSystem.
  destruct (String.eqb apiKey ""); [apply quietly_onlyCalls, quietly_throw |].
  apply onlyCalls_bind; [apply quietly_onlyCalls, quietly_now | intros overallStart].
  apply onlyCalls_bind; [apply quietly_onlyCalls, quietly_ret | intros contextSummary].
  apply onlyCalls_bind; [apply quietly_onlyCalls, quietly_ret | intros locals].
  apply onlyCalls_bind.
  - eapply onlyCalls_weaken; [| apply onlyCalls_executionPhase]. now left.
  - intros [r | outputs tools]; [apply quietly_onlyCalls, quietly_ret |].
    eapply onlyCalls_weaken; [| apply onlyCalls_synthesisPhase]. now right.
Qed.

(** C6: the compaction of a fresh run's non-empty prior turns, each of which
    has its text part.  With more than 6 turns the compacted context comes
    from exactly one summarization call over the full verbatim transcript (its
    text, or the empty string if it has none; a rejection of the call ends the
    run).  With 6 turns or fewer it is the verbatim transcript, one "ROLE:
    text" line per turn, and no call is made.  When a PausedState is resumed
    the compacted context is empty and the run makes no compactor call. *)
Theorem compaction_of_prior_turns (history : list Turn) (apiKey : string)
    (s : State env) :
  history <> [] ->
  Forall (fun h => turn_parts h <> []) history ->
  ((6 < length history)%nat ->
     let request :=
       {| model := "gemini-2.5-flash-lite";
          role := None;
          contents :=
            ("Summarize this conversation concisely, retaining key facts, user goals, and latest state:"
             ++ String "010" (String "010" (verbatimTranscript toUpperCase history)))%string;
          systemInstruction := None;
          responseSchema := None;
          thinkingBudget := None |} in
     let answer := generateContent apiKey request (world s) in
     compactionPhase history apiKey None s
     = (match fst answer with
        | Returned r => Returned match text r with Some t => t | None => "" end
        | Thrown e => Thrown e
        end,
        addCall (GenerateContentCall request (fst answer)) (setWorld (snd answer) s)))
  /\ ((length history <= 6)%nat ->
      compactionPhase history apiKey None s
      = (Returned (verbatimTranscript toUpperCase history), s))
  /\ (forall prompt language useThinking resumeState,
        compactionPhase history apiKey (Some resumeState) s = (Returned "", s)
        /\ onlyCalls (fun e => isCompactorCall e = false)
             (runMultiAgentSystem prompt history apiKey language useThinking
                (Some resumeState))).
Proof.
  intros Hne Hparts.
  assert (Hpos : (0 <? length history)%nat = true).
  { apply Nat.ltb_lt. destruct history; [congruence | simpl; lia]. }
  split; [| split].
  - intros Hlong request answer. unfold compactionPhase.
    rewrite Hpos. apply Nat.ltb_lt in Hlong. rewrite Hlong.
    unfold compactHistory.
    replace (length history =? 0)%nat with false
      by (symmetry; apply Nat.eqb_neq; apply Nat.ltb_lt in Hpos; lia).
    unfold bind at 1. rewrite (transcript_verbatim _ _ Hparts).
    unfold bind, callGenerateContent.
    change (summarizationRequest (verbatimTranscript toUpperCase history))
      with request.
    fold answer.
    destruct answer as [[r | e] w]; [| reflexivity].
    assert (Htext : textOr (text r) "" = match text r with Some t => t | None => "" end).
    { destruct (text r) as [t |]; [| reflexivity].
      cbv [textOr strOr]. destruct (String.eqb t "") eqn:Et; [| reflexivity].
      apply String.eqb_eq in Et. now subst t. }
    cbn [fst snd ret]. unfold ret. now rewrite Htext.
  - intros Hshort. unfold compactionPhase. rewrite Hpos.
    replace (6 <? length history)%nat with false
      by (symmetry; apply Nat.ltb_ge; lia).
    now apply transcript_verbatim.
  - intros prompt language useThinking resumeState. split; [reflexivity |].
    eapply onlyCalls_weaken; [| apply onlyCalls_resumed_run].
    intros e [H | H]; [now apply agentCall_not_compactor
                      | now apply finalCall_not_compactor].
Qed.

Lemma now_keeps (s : State env) :
  exists t s', now s = (Returned t, s')
    /\ memoryBank s' = memoryBank s /\ calls s' = calls s
    /\ traceService s' = traceService s.
Proof.
  unfold now. destruct (Date_now (world s)) as [t w]. now eexists; eexists.
Qed.

(** The first call of the synthesis phase is the synthesizer's request, built
    from the outputs and the tool log it is given; what follows are evaluator
    calls. *)
Lemma synthesisPhase_first_call prompt plan outputs tools contextSummary apiKey
    language useThinking overallStart (s : State env) :
  exists answer rest,
    calls (snd (synthesisPhase prompt plan outputs tools contextSummary apiKey
                  language useThinking overallStart s))
    = calls s
      ++ GenerateContentCall
           (synthesisRequest prompt outputs tools contextSummary
              (MemoryBankService.getFormattedContext (memoryBank s))
              language useThinking) answer
         :: rest
    /\ Forall (fun e => isEvaluatorCall e = true) rest.
Proof.
  unfold synthesisPhase.
  unfold bind at 1. unfold getFormattedContext at 1.
  unfold bind at 1. unfold callGenerateContent at 1.
  destruct (generateContent _ _ (world s)) as [[r | e] w].
  - match goal with
    | |- context [snd (bind ?m ?k ?st)] =>
        assert (Hk : onlyCalls (fun e => isEvaluatorCall e = true) (bind m k))
    end.
    { apply onlyCalls_bind; [apply quietly_onlyCalls, quietly_jsonParse | intros parsed].
      apply onlyCalls_bind; [apply onlyCalls_evaluateResponse | intros evalResult].
      apply onlyCalls_bind; [apply quietly_onlyCalls, quietly_recordElapsed | intros _].
      apply onlyCalls_bind; [apply quietly_onlyCalls, quietly_getRecentMetrics | intros ms].
      apply quietly_onlyCalls, quietly_ret. }
    match goal with
    | |- context [snd (bind ?m ?k ?st)] => destruct (Hk st) as [rest [E F]]
    end.
    exists (Returned r), rest. split; [| exact F].
    rewrite E. cbn [calls addCall setWorld]. now rewrite <- app_assoc.
  - exists (Thrown e), []. split; [reflexivity | constructor].
Qed.

(** C3: resuming a PausedState whose plan is not SEQUENTIAL (PARALLEL, LOOP,
    DIRECT) runs no execution branch.  The run is the synthesis phase applied
    to the outputs persisted in the PausedState, with an empty tool log and an
    empty compacted context; its first call is the synthesizer's request built
    from those outputs, and no call of the run is an agent executor's. *)
Theorem resume_without_sequential_plan (prompt : string) (history : list Turn)
    (apiKey : string) (language : option string) (useThinking : option bool)
    (resumeState : PausedState) (s : State env) :
  apiKey <> "" ->
  mode (plan resumeState) <> SEQUENTIAL ->
  let lang := match language with Some l => l | None => "en-US" end in
  let thinking := match useThinking with Some b => b | None => false end in
  let run := runMultiAgentSystem prompt history apiKey language useThinking
               (Some resumeState) in
  run s
  = (overallStart <- now ;;
     synthesisPhase prompt (plan resumeState) (agentOutputs resumeState) [] ""
       apiKey lang thinking overallStart) s
  /\ exists answer rest,
       calls (snd (run s))
       = calls s
         ++ GenerateContentCall
              (synthesisRequest prompt (agentOutputs resumeState) [] ""
                 (MemoryBankService.getFormattedContext (memoryBank s))
                 lang thinking) answer
            :: rest
       /\ Forall (fun e => isAgentCall e = false) rest.
Proof.
  intros Hkey Hmode lang thinking run.
  assert (Erun : run s
    = (overallStart <- now ;;
       synthesisPhase prompt (plan resumeState) (agentOutputs resumeState) [] ""
         apiKey lang thinking overallStart) s).
  { unfold run, runMultiAgentSystem.
    apply String.eqb_neq in Hkey. rewrite Hkey.
    fold lang. fold thinking.
    unfold bind at 1. unfold bind at 4.
    destruct (now s) as [[t | e] s1]; [| reflexivity].
    unfold compactionPhase, planningPhase, executionPhase.
    unfold bind, ret.
    cbn [l_plan l_startStepIndex l_accumulatedContext l_agentOutputs].
    destruct (mode (plan resumeState)); try reflexivity. congruence. }
  split; [exact Erun |].
  rewrite Erun. unfold bind.
  destruct (now_keeps s) as [t [s1 [E [Hm [Hc _]]]]]. rewrite E.
  destruct (synthesisPhase_first_call prompt (plan resumeState)
              (agentOutputs resumeState) [] "" apiKey lang thinking t s1)
    as [answer [rest [Ecalls F]]].
  exists answer, rest. rewrite Ecalls, Hm, Hc. split; [reflexivity |].
  eapply Forall_impl; [| exact F]. intros e He. apply finalCall_not_agent. now right.
Qed.

(** C4: if the planning call throws (the request is rejected, or its text
    does not parse), a fresh run recovers: phase 1 ends normally with the
    plan [{mode: DIRECT, steps: [{agent: ORCHESTRATOR, instruction: prompt}],
    reasoning: "Fallback."}], and the run is the DIRECT execution of that plan
    followed by synthesis; the exception of the planner is dropped. *)
Theorem planning_failure_falls_back (prompt : string) (history : list Turn)
    (apiKey : string) (language : option string) (useThinking : option bool)
    (s s1 s2 : State env) (contextSummary : string) (e : Exn) :
  apiKey <> "" ->
  compactionPhase history apiKey None (snd (now s)) = (Returned contextSummary, s1) ->
  planExecution
    (fullPlanningContext contextSummary prompt
       (MemoryBankService.getFormattedContext (memoryBank s1)))
    apiKey s1 = (Thrown e, s2) ->
  let lang := match language with Some l => l | None => "en-US" end in
  let thinking := match useThinking with Some b => b | None => false end in
  let context :=
    initialContext prompt getSessionId contextSummary
      (MemoryBankService.getFormattedContext (memoryBank s1)) in
  planningPhase prompt contextSummary apiKey None s1
  = (Returned {| l_plan := FALLBACK_PLAN prompt;
                 l_accumulatedContext := context;
                 l_agentOutputs := [];
                 l_startStepIndex := 0 |}, s2)
  /\ runMultiAgentSystem prompt history apiKey language useThinking None s
     = (result <- executeAgent ORCHESTRATOR prompt context apiKey lang ;;
        synthesisPhase prompt (FALLBACK_PLAN prompt)
          [(ORCHESTRATOR, res_text result)] (pushAll [] (toolUsage result))
          contextSummary apiKey lang thinking (fst (Date_now (world s)))) s2.
Proof.
  intros Hkey Hcompact Hplan lang thinking context.
  assert (Ephase : planningPhase prompt contextSummary apiKey None s1
    = (Returned {| l_plan := FALLBACK_PLAN prompt;
                   l_accumulatedContext := context;
                   l_agentOutputs := [];
                   l_startStepIndex := 0 |}, s2)).
  { unfold planningPhase, bind, tryCatch, getFormattedContext.
    now rewrite Hplan. }
  split; [exact Ephase |].
  unfold runMultiAgentSystem. apply String.eqb_neq in Hkey. rewrite Hkey.
  fold lang. fold thinking.
  unfold bind at 1. unfold now in *.
  destruct (Date_now (world s)) as [t w]. cbn [fst snd] in *.
  unfold bind at 1. rewrite Hcompact.
  unfold bind at 1. rewrite Ephase.
  cbn [l_plan l_startStepIndex l_accumulatedContext l_agentOutputs].
  unfold executionPhase, firstStep. cbn [mode steps FALLBACK_PLAN agent instruction].
  unfold bind, ret. cbn [agent instruction].
  destruct (executeAgent ORCHESTRATOR prompt context apiKey lang s2)
    as [[result | e'] s3]; reflexivity.
Qed.

(** The refinement loop hands on the tool log it was given. *)
Lemma loop_mode_keeps_tool_log plan start context outputs tools apiKey language
    (s : State env) :
  mode plan = LOOP ->
  match executionPhase plan None start context outputs tools apiKey language s with
  | (Returned (Finished _ tools'), _) => tools' = tools
  | (Returned (Suspended _), _) => False
  | (Thrown _, _) => True
  end.
Proof.
  intros Hmode. unfold executionPhase. rewrite Hmode. unfold bind.
  destruct (firstStep plan s) as [[step0 | e] sa]; [| exact I].
  destruct (executeAgent (agent step0) _ _ _ _ sa) as [[draft | e] sb]; [| exact I].
  destruct (executeAgent ORCHESTRATOR _ _ _ _ sb) as [[critique | e] sc]; [| exact I].
  destruct (executeAgent (agent step0) _ _ _ _ sc) as [[refinement | e] sd];
    [reflexivity | exact I].
Qed.

(** C10: in a fresh run whose plan is LOOP, the execution phase never
    extends the tool log: when it completes it hands on the log it was given,
    it cannot pause, and so every synthesizer request of the run carries the
    empty tool log, whatever tools the three agents invoked. *)
Theorem loop_never_extends_tool_log (prompt : string) (history : list Turn)
    (apiKey : string) (language : option string) (useThinking : option bool)
    (s s1 s2 : State env) (contextSummary : string) (locals : Locals) :
  apiKey <> "" ->
  compactionPhase history apiKey None (snd (now s)) = (Returned contextSummary, s1) ->
  planningPhase prompt contextSummary apiKey None s1 = (Returned locals, s2) ->
  mode (l_plan locals) = LOOP ->
  let lang := match language with Some l => l | None => "en-US" end in
  let thinking := match useThinking with Some b => b | None => false end in
  (forall tools,
     match executionPhase (l_plan locals) None (l_startStepIndex locals)
             (l_accumulatedContext locals) (l_agentOutputs locals) tools
             apiKey lang s2 with
     | (Returned (Finished _ tools'), _) => tools' = tools
     | (Returned (Suspended _), _) => False
     | (Thrown _, _) => True
     end)
  /\ exists evs,
       calls (snd (runMultiAgentSystem prompt history apiKey language useThinking
                     None s))
       = calls s ++ evs
       /\ forall ev, In ev evs -> isSynthesizerCall ev = true ->
            exists outputs memory answer,
              ev = GenerateContentCall
                     (synthesisRequest prompt outputs [] contextSummary memory
                        lang thinking) answer.
Proof.
  intros Hkey Hcompact Hplan Hmode lang thinking.
  split; [intros tools; now apply loop_mode_keeps_tool_log |].
  destruct (onlyCalls_run _ _ _ _ _
              (onlyCalls_compactionPhase history apiKey None) Hcompact)
    as [ev1 [E1 F1]].
  destruct (onlyCalls_run _ _ _ _ _
              (onlyCalls_planningPhase prompt contextSummary apiKey None) Hplan)
    as [ev2 [E2 F2]].
  assert (E0 : calls (snd (now s)) = calls s) by apply quietly_now.
  unfold runMultiAgentSystem. apply String.eqb_neq in Hkey. rewrite Hkey.
  fold lang. fold thinking.
  unfold bind at 1. unfold now in *.
  destruct (Date_now (world s)) as [t w]. cbn [fst snd] in *.
  unfold bind at 1. rewrite Hcompact.
  unfold bind at 1. rewrite Hplan.
  unfold bind at 1.
  pose proof (loop_mode_keeps_tool_log (l_plan locals) (l_startStepIndex locals)
                (l_accumulatedContext locals) (l_agentOutputs locals) []
                apiKey lang s2 Hmode) as Hloop.
  destruct (executionPhase (l_plan locals) None (l_startStepIndex locals)
              (l_accumulatedContext locals) (l_agentOutputs locals) []
              apiKey lang s2) as [[[r | outputs tools'] | e] s3] eqn:Eexec;
    [contradiction | subst tools' |].
  - destruct (onlyCalls_run _ _ _ _ _ (onlyCalls_executionPhase _ _ _ _ _ _ _ _) Eexec)
      as [ev3 [E3 F3]].
    destruct (synthesisPhase_first_call prompt (l_plan locals) outputs []
                contextSummary apiKey lang thinking t s3)
      as [answer [rest [E4 F4]]].
    eexists. split.
    + rewrite E4, E3, E2, E1, E0. rewrite <- !app_assoc. reflexivity.
    + intros ev Hin Hsyn.
      rewrite !in_app_iff in Hin. destruct Hin as [Hin | [Hin | [Hin | Hin]]].
      * rewrite Forall_forall in F1. specialize (F1 _ Hin).
        destruct ev as [req a | |]; try discriminate.
        unfold isSynthesizerCall, isCompactorCall, schemaOfCall in *.
        destruct (responseSchema req); discriminate.
      * rewrite Forall_forall in F2. specialize (F2 _ Hin).
        unfold isSynthesizerCall, isPlannerCall in *.
        destruct (schemaOfCall ev) as [[| |] |]; discriminate.
      * rewrite Forall_forall in F3. specialize (F3 _ Hin).
        destruct ev; discriminate.
      * destruct Hin as [<- | Hin]; [now eexists; eexists; eexists |].
        rewrite Forall_forall in F4. specialize (F4 _ Hin).
        unfold isSynthesizerCall, isEvaluatorCall in *.
        destruct (schemaOfCall ev) as [[| |] |]; discriminate.
  - destruct (onlyCalls_run _ _ _ _ _ (onlyCalls_executionPhase _ _ _ _ _ _ _ _) Eexec)
      as [ev3 [E3 F3]].
    eexists. split.
    + cbn [snd]. rewrite E3, E2, E1, E0. rewrite <- !app_assoc. reflexivity.
    + intros ev Hin Hsyn.
      rewrite !in_app_iff in Hin. destruct Hin as [Hin | [Hin | Hin]].
      * rewrite Forall_forall in F1. specialize (F1 _ Hin).
        destruct ev as [req a | |]; try discriminate.
        unfold isSynthesizerCall, isCompactorCall, schemaOfCall in *.
        destruct (responseSchema req); discriminate.
      * rewrite Forall_forall in F2. specialize (F2 _ Hin).
        unfold isSynthesizerCall, isPlannerCall in *.
        destruct (schemaOfCall ev) as [[| |] |]; discriminate.
      * rewrite Forall_forall in F3. specialize (F3 _ Hin).
        destruct ev; discriminate.
Qed.

(** *** Agent executor: the turn cap *)

Lemma last_cons_default {A} (a d : A) (l : list A) : last (a :: l) d = last l a.
Proof.
  revert a d. induction l as [| b l IH]; intros a d; [reflexivity |].
  change (last (a :: b :: l) d) with (last (b :: l) d).
  now rewrite !IH.
Qed.

Lemma recordElapsed_returns name start (s : State env) :
  exists s', recordElapsed name start s = (Returned tt, s') /\ calls s' = calls s.
Proof.
  unfold recordElapsed, recordMetric, bind, now.
  destruct (Date_now (world s)) as [t w]. cbn [world setWorld].
  destruct (Date_now w) as [t' w']. eexists. split; reflexivity.
Qed.

Lemma finishAgent_returns start r tools (s : State env) :
  exists s',
    finishAgent start r tools s
    = (Returned {| res_text := textOr (text r) "Task Completed.";
                   isPaused := false; pauseReason := None;
                   toolUsage := Some tools |}, s')
    /\ calls s' = calls s.
Proof.
  unfold finishAgent, bind.
  destruct (recordElapsed_returns "AgentExecutionTime" start s) as [s' [E Hc]].
  rewrite E. now exists s'.
Qed.

Lemma resolvableName_not_pause name :
  resolvableName name = true -> String.eqb name "pauseWorkflow" = false.
Proof.
  unfold resolvableName. intros H. apply orb_true_iff in H.
  destruct H as [H | H]; apply String.eqb_eq in H; now subst.
Qed.

Lemma handleCall_resolvable call a (s : State env) :
  resolvableName (call_name call) = true ->
  args call = Some a ->
  exists payload s',
    handleCall call s = (Returned (Some payload), s') /\ calls s' = calls s.
Proof.
  unfold resolvableName, handleCall. intros H Ha. rewrite Ha.
  destruct (String.eqb (call_name call) "fetchMedicalRecords") eqn:Efetch.
  - apply String.eqb_eq in Efetch. rewrite Efetch.
    unfold OPENAPI_TOOL_SIMULATION. cbn [String.eqb Ascii.eqb Bool.eqb andb].
    now eexists; eexists.
  - cbn [orb] in H. rewrite H. unfold bind.
    destruct (updateMemory_returns a s) as [s' [E Hc]].
    rewrite E. now eexists; eexists.
Qed.

Section AlwaysCalls.

(** The session answers every message, and every answer carries a
    resolvable, non-pause function call. *)
Hypothesis always_calls :
  forall chat msg w, exists r w',
    sendMessage chat msg w = (Returned r, w') /\ carriesResolvableCall r = true.

Lemma toolLoop_runs_out remaining :
  forall start chat r tools (s : State env),
    carriesResolvableCall r = true ->
    exists (turns : list ResolvedTurn) res s',
      toolLoop remaining start chat r tools s = (Returned res, s')
      /\ length turns = remaining
      /\ calls s' = calls s ++ map turnEvent turns
      /\ Forall (fun t => resolvableName (turnName t) = true) turns
      /\ answersInTurn r turns
      /\ toolUsage res = Some (tools ++ map turnName turns)
      /\ isPaused res = false
      /\ res_text res = textOr (text (last (map snd turns) r)) "Task Completed.".
Proof.
  induction remaining as [| n IH]; intros start chat r tools s Hr.
  - destruct (finishAgent_returns start r tools s) as [s' [E Hc]].
    exists [], {| res_text := textOr (text r) "Task Completed.";
                  isPaused := false; pauseReason := None;
                  toolUsage := Some tools |}, s'.
    assert (E0 : toolLoop 0 start chat r tools s = finishAgent start r tools s)
      by (cbn [toolLoop]; now destruct (functionCalls r)).
    rewrite E0.
    repeat split; cbn [map]; try (now rewrite ?app_nil_r).
  - pose proof Hr as Hr'. unfold carriesResolvableCall in Hr'.
    apply andb_true_iff in Hr'. destruct Hr' as [Hname _].
    destruct (functionCalls r) as [[| call others] |] eqn:Ecalls; try discriminate.
    apply andb_true_iff in Hname. destruct Hname as [Hname Hargs].
    destruct (args call) as [a |] eqn:Eargs; [clear Hargs | discriminate].
    cbn [toolLoop]. rewrite Ecalls.
    rewrite (resolvableName_not_pause _ Hname).
    destruct (handleCall_resolvable call a s Hname Eargs) as [payload [s1 [Eh Hc1]]].
    unfold bind at 1. rewrite Eh.
    unfold bind at 1. unfold callSendMessage.
    destruct (always_calls chat (FunctionResponseMessage (call_name call) payload)
                (world s1)) as [r' [w' [Esend Hr'']]].
    rewrite Esend.
    destruct (IH start chat r' (push tools (call_name call))
                (addCall (SendMessageCall
                            (FunctionResponseMessage (call_name call) payload)
                            (Returned r')) (setWorld w' s1)) Hr'')
      as [turns [res [s' [E [Hlen [Hcalls [Hok [Hchain [Htools [Hp Htext]]]]]]]]]].
    exists ((call, payload, r') :: turns), res, s'.
    split; [exact E |]. split; [cbn [length]; now rewrite Hlen |].
    split; [rewrite Hcalls; cbn [calls addCall setWorld map turnEvent fst snd];
            rewrite Hc1; now rewrite <- app_assoc |].
    split; [constructor; [exact Hname | exact Hok] |].
    split; [cbn [answersInTurn fst snd]; split; [now exists others | exact Hchain] |].
    split; [rewrite Htools; unfold push; cbn [map turnName fst];
            now rewrite <- app_assoc |].
    split; [exact Hp |].
    rewrite Htext. cbn [map snd]. now rewrite last_cons_default.
Qed.

(** C2: when every response of the session carries a resolvable, non-pause
    function call, the executor returns after sending exactly 5 function
    responses: its calls are the creation of the chat, the instruction, and
    the 5 resolved turns; it is not paused; its text is the text of the last
    response received, or "Task Completed." if that is empty; and the tool
    names of the 5 turns, each fetchMedicalRecords or updateMemory, close its
    [toolUsage] in order. *)
Theorem executor_stops_after_five_turns (agent : AgentDomain)
    (instruction context apiKey language : string) (s : State env) :
  exists cfg first (turns : list ResolvedTurn) builtIn res s',
    executeAgent agent instruction context apiKey language s = (Returned res, s')
    /\ length turns = 5%nat
    /\ calls s'
       = calls s
         ++ ChatCreateCall cfg
            :: SendMessageCall (Instruction instruction) (Returned first)
            :: map turnEvent turns
    /\ Forall (fun t => resolvableName (turnName t) = true) turns
    /\ answersInTurn first turns
    /\ toolUsage res = Some (builtIn ++ map turnName turns)
    /\ isPaused res = false
    /\ res_text res
       = match text (last (map snd turns) first) with
         | Some t => if String.eqb t "" then "Task Completed." else t
         | None => "Task Completed."
         end.
Proof.
  unfold executeAgent.
  unfold bind at 1. unfold now. destruct (Date_now (world s)) as [start w0].
  unfold bind at 1. unfold getFormattedContext at 1.
  unfold bind at 1. unfold callChatsCreate.
  cbn [world setWorld memoryBank].
  destruct (chats_create apiKey _ w0) as [chat w1] eqn:Echat.
  unfold bind at 1. unfold callSendMessage. cbn [world setWorld addCall].
  destruct (always_calls chat (Instruction instruction) w1) as [first [w2 [Esend Hfirst]]].
  rewrite Esend.
  assert (Hbuilt : exists builtIn, forall st : State env,
            builtInTools first st = (Returned builtIn, st)).
  { unfold carriesResolvableCall in Hfirst. apply andb_true_iff in Hfirst.
    destruct Hfirst as [_ Hcand]. unfold builtInTools, bind, ret.
    destruct (candidates first) as [[| c cs] |]; [discriminate | |];
      eexists; intros st; reflexivity. }
  destruct Hbuilt as [builtIn Hbuilt].
  unfold bind. rewrite Hbuilt.
  match goal with
  | |- context [toolLoop 5 start chat first builtIn ?st] =>
      destruct (toolLoop_runs_out 5 start chat first builtIn st Hfirst)
        as [turns [res [s' [E [Hlen [Hcalls [Hok [Hchain [Htools [Hp Htext]]]]]]]]]]
  end.
  eexists; exists first, turns, builtIn, res, s'.
  split; [exact E |]. split; [exact Hlen |].
  split; [rewrite Hcalls; cbn [calls addCall setWorld];
          rewrite <- !app_assoc; reflexivity |].
  split; [exact Hok |]. split; [exact Hchain |]. split; [exact Htools |].
  split; [exact Hp |].
  rewrite Htext. reflexivity.
Qed.

End AlwaysCalls.

(** *** Mode dispatcher: the pause of a sequential run *)

Lemma skipn_nth_error {A} (l : list A) (i : nat) (x : A) :
  nth_error l i = Some x -> skipn i l = x :: skipn (i + 1) l.
Proof.
  revert l. induction i as [| i IH]; intros [| y l] H; try discriminate.
  - now injection H as ->.
  - cbn [skipn Nat.add]. now apply IH.
Qed.

(** What [sequentialReaches] relates is what the loop does: from the second
    configuration it goes on as it would from the first. *)
Lemma sequentialReaches_loop plan apiKey language (a b : LoopConfig) :
  sequentialReaches plan apiKey language a b ->
  sequentialLoop plan (skipn (at_index a) (steps plan)) (at_index a)
    (at_context a) (at_outputs a) (at_toolUsageLog a) apiKey language (at_state a)
  = sequentialLoop plan (skipn (at_index b) (steps plan)) (at_index b)
      (at_context b) (at_outputs b) (at_toolUsageLog b) apiKey language (at_state b).
Proof.
  induction 1 as [a | a b step result s' _ IH Hstep Hexec Hpaused]; [reflexivity |].
  rewrite IH. rewrite (skipn_nth_error _ _ _ Hstep).
  cbn [sequentialLoop at_index at_context at_outputs at_toolUsageLog at_state].
  unfold bind at 1. now rewrite Hexec, Hpaused.
Qed.

Lemma sequentialReaches_calls plan apiKey language (a b : LoopConfig) :
  sequentialReaches plan apiKey language a b ->
  exists evs, calls (at_state b) = calls (at_state a) ++ evs /\ Forall agentCall evs.
Proof.
  induction 1 as [a | a b step result s' _ IH Hstep Hexec Hpaused].
  - exists []. now rewrite app_nil_r.
  - destruct IH as [ev1 [E1 F1]].
    destruct (onlyCalls_run _ _ _ _ _ (onlyCalls_executeAgent _ _ _ _ _) Hexec)
      as [ev2 [E2 F2]].
    exists (ev1 ++ ev2). cbn [at_state]. rewrite E2, E1, app_assoc.
    split; [reflexivity | now apply Forall_app].
Qed.

Lemma agentCall_beforeSynthesis e : agentCall e -> beforeSynthesis e.
Proof. destruct e; try discriminate; now split. Qed.

Lemma compactorCall_beforeSynthesis e : isCompactorCall e = true -> beforeSynthesis e.
Proof.
  destruct e as [req r | |]; try discriminate.
  unfold beforeSynthesis, isSynthesizerCall, isEvaluatorCall, isCompactorCall, schemaOfCall.
  now destruct (responseSchema req).
Qed.

Lemma plannerCall_beforeSynthesis e : isPlannerCall e = true -> beforeSynthesis e.
Proof.
  unfold beforeSynthesis, isSynthesizerCall, isEvaluatorCall, isPlannerCall.
  now destruct (schemaOfCall e) as [[| |] |].
Qed.

(** C1: in a SEQUENTIAL run (fresh or resumed), let the loop have reached
    step [i] without a pause, and let the agent executor invoked for step [i]
    signal pause.  Then the run returns at once, in the state the executor
    left: the result has executionMode PAUSED, and its pausedState holds the
    running plan, stepIndex [i + 1], the running context followed by the
    annotation of the paused step's text (a new line, "[Paused Step AGENT]: "
    and the text the executor returned), and the running outputs.  None of
    the calls of the run is the synthesizer's or the evaluator's. *)
Theorem sequential_pause_returns_checkpoint (prompt : string) (history : list Turn)
    (apiKey : string) (language : option string) (useThinking : option bool)
    (resumeState : option PausedState) (s s1 s2 s3 : State env)
    (contextSummary : string) (locals : Locals) (here : LoopConfig)
    (step : AgentStep) (result : AgentExecutionResult) :
  let lang := match language with Some l => l | None => "en-US" end in
  apiKey <> "" ->
  compactionPhase history apiKey resumeState (snd (now s))
    = (Returned contextSummary, s1) ->
  planningPhase prompt contextSummary apiKey resumeState s1 = (Returned locals, s2) ->
  mode (l_plan locals) = SEQUENTIAL ->
  sequentialReaches (l_plan locals) apiKey lang
    {| at_index := l_startStepIndex locals;
       at_context := l_accumulatedContext locals;
       at_outputs := l_agentOutputs locals;
       at_toolUsageLog := [];
       at_state := s2 |} here ->
  nth_error (steps (l_plan locals)) (at_index here) = Some step ->
  executeAgent (agent step) (instruction step) (at_context here) apiKey lang
    (at_state here) = (Returned result, s3) ->
  isPaused result = true ->
  exists r,
    runMultiAgentSystem prompt history apiKey language useThinking resumeState s
      = (Returned r, s3)
    /\ executionMode r = PAUSED
    /\ pausedState r
       = Some {| plan := l_plan locals;
                 stepIndex := at_index here + 1;
                 accumulatedContext :=
                   (at_context here
                    ++ String "010"
                         ("[Paused Step "
                          ++ match agent step with
                             | HEALTH => "HEALTH"
                             | EDUCATION => "EDUCATION"
                             | ENVIRONMENT => "ENVIRONMENT"
                             | ORCHESTRATOR => "ORCHESTRATOR"
                             end
                          ++ "]: " ++ res_text result))%string;
                 agentOutputs := at_outputs here |}
    /\ exists evs, calls s3 = calls s ++ evs /\ Forall beforeSynthesis evs.
Proof.
  intros lang Hkey Hcompact Hplan Hmode Hreach Hstep Hexec Hpaused.
  eexists. split; [| split; [| split]].
  - unfold runMultiAgentSystem. apply String.eqb_neq in Hkey. rewrite Hkey.
    fold lang.
    unfold bind at 1. unfold now in *.
    destruct (Date_now (world s)) as [t w]. cbn [fst snd] in *.
    unfold bind at 1. rewrite Hcompact.
    unfold bind at 1. rewrite Hplan.
    unfold bind at 1. unfold executionPhase. rewrite Hmode.
    pose proof (sequentialReaches_loop _ _ _ _ _ Hreach) as Hloop.
    cbn [at_index at_context at_outputs at_toolUsageLog at_state] in Hloop.
    rewrite Hloop.
    rewrite (skipn_nth_error _ _ _ Hstep). cbn [sequentialLoop].
    unfold bind at 1. rewrite Hexec, Hpaused. reflexivity.
  - reflexivity.
  - reflexivity.
  - destruct (onlyCalls_run _ _ _ _ _
                (onlyCalls_compactionPhase history apiKey resumeState) Hcompact)
      as [ev1 [E1 F1]].
    destruct (onlyCalls_run _ _ _ _ _
                (onlyCalls_planningPhase prompt contextSummary apiKey resumeState)
                Hplan) as [ev2 [E2 F2]].
    destruct (sequentialReaches_calls _ _ _ _ _ Hreach) as [ev3 [E3 F3]].
    destruct (onlyCalls_run _ _ _ _ _ (onlyCalls_executeAgent _ _ _ _ _) Hexec)
      as [ev4 [E4 F4]].
    cbn [at_state] in E3.
    exists (ev1 ++ ev2 ++ ev3 ++ ev4). split.
    + rewrite E4, E3, E2, E1, (quietly_now s). now rewrite <- !app_assoc.
    + apply Forall_app; split; [| apply Forall_app; split;
                                  [| apply Forall_app; split]].
      * eapply Forall_impl; [| exact F1]. apply compactorCall_beforeSynthesis.
      * eapply Forall_impl; [| exact F2]. apply plannerCall_beforeSynthesis.
      * eapply Forall_impl; [| exact F3]. apply agentCall_beforeSynthesis.
      * eapply Forall_impl; [| exact F4]. apply agentCall_beforeSynthesis.
Qed.

(** *** Agent executor: pause, unknown tools, the shape of its calls *)

Lemma recordElapsed_effect name start (s : State env) :
  exists m s',
    recordElapsed name start s = (Returned tt, s')
    /\ calls s' = calls s /\ memoryBank s' = memoryBank s
    /\ traceService s' = traceService s ++ [m]
    /\ metric_name m = name /\ metric_unit m = "ms".
Proof.
  unfold recordElapsed, recordMetric, bind, now.
  destruct (Date_now (world s)) as [t w]. cbn [world setWorld].
  destruct (Date_now w) as [t' w']. eexists; eexists. repeat split.
Qed.

Lemma finishAgent_effect start r tools (s : State env) :
  exists m s',
    finishAgent start r tools s
    = (Returned {| res_text := textOr (text r) "Task Completed.";
                   isPaused := false; pauseReason := None;
                   toolUsage := Some tools |}, s')
    /\ calls s' = calls s /\ memoryBank s' = memoryBank s
    /\ traceService s' = traceService s ++ [m]
    /\ metric_name m = "AgentExecutionTime" /\ metric_unit m = "ms".
Proof.
  unfold finishAgent, bind.
  destruct (recordElapsed_effect "AgentExecutionTime" start s)
    as [m [s' [E H]]].
  rewrite E. now exists m, s'.
Qed.

(** X1: a [pauseWorkflow] call that carries its arguments halts the loop at
    once, on whichever turn it arrives: the executor returns paused with the
    text "Workflow Paused: <reason>", the reason, and the tool log closed by
    "pauseWorkflow"; it sends nothing more, leaves the memory bank alone and
    records its one execution-time metric. *)
Theorem pause_halts_at_any_turn (turnsLeft : nat) (start : Z) (chat : Chat)
    (r : GenerateContentResponse) (tools : list string) (call : FunctionCall)
    (a : CallArgs) (others : list FunctionCall) (s : State env) :
  functionCalls r = Some (call :: others) ->
  call_name call = "pauseWorkflow" ->
  args call = Some a ->
  exists m s',
    toolLoop (S turnsLeft) start chat r tools s
    = (Returned {| res_text := ("Workflow Paused: " ++ reason a)%string;
                   isPaused := true;
                   pauseReason := Some (reason a);
                   toolUsage := Some (tools ++ ["pauseWorkflow"]) |}, s')
    /\ calls s' = calls s
    /\ memoryBank s' = memoryBank s
    /\ traceService s' = traceService s ++ [m]
    /\ metric_name m = "AgentExecutionTime".
Proof.
  intros Hcalls Hname Hargs. cbn [toolLoop]. rewrite Hcalls, Hname, Hargs.
  cbn [String.eqb Ascii.eqb Bool.eqb andb]. unfold bind, push.
  destruct (recordElapsed_effect "AgentExecutionTime" start s)
    as [m [s' [E [Hc [Hm [Ht [Hn _]]]]]]].
  rewrite E. now exists m, s'.
Qed.

(** X3: a call to a tool without a handler leaves the loop without a
    function response being sent: the executor returns, unpaused, the text of
    the response that carried the call (or "Task Completed."), with the
    unknown name recorded in the tool log. *)
Theorem unknown_tool_breaks_without_response (turnsLeft : nat) (start : Z)
    (chat : Chat) (r : GenerateContentResponse) (tools : list string)
    (call : FunctionCall) (others : list FunctionCall) (s : State env) :
  functionCalls r = Some (call :: others) ->
  unknownTool (call_name call) = true ->
  exists s',
    toolLoop (S turnsLeft) start chat r tools s
    = (Returned {| res_text := textOr (text r) "Task Completed.";
                   isPaused := false; pauseReason := None;
                   toolUsage := Some (tools ++ [call_name call]) |}, s')
    /\ calls s' = calls s
    /\ memoryBank s' = memoryBank s.
Proof.
  intros Hcalls Hname. unfold unknownTool in Hname.
  apply andb_true_iff in Hname. destruct Hname as [Hname Hupdate].
  apply andb_true_iff in Hname. destruct Hname as [Hpause Hfetch].
  apply negb_true_iff in Hpause, Hfetch, Hupdate.
  cbn [toolLoop]. rewrite Hcalls, Hpause.
  unfold bind at 1. unfold handleCall. rewrite Hfetch, Hupdate.
  unfold ret, push.
  destruct (finishAgent_effect start r (tools ++ [call_name call]) s)
    as [m [s' [E [Hc [Hm _]]]]].
  rewrite E. now exists s'.
Qed.

Lemma updateMemory_frame a (s : State env) :
  exists s',
    updateMemory a s = (Returned tt, s')
    /\ calls s' = calls s /\ traceService s' = traceService s.
Proof.
  unfold updateMemory.
  destruct (String.eqb (category a) "health");
    [| destruct (String.eqb (category a) "education");
       [| destruct (String.eqb (category a) "environment");
          [| destruct (String.eqb (category a) "profile") ] ] ];
    try (unfold modifyMemoryBank; eexists;
         split; [reflexivity | split; reflexivity]).
  unfold bind, now, modifyMemoryBank.
  destruct (Date_now (world s)) as [t w].
  eexists; split; [reflexivity | split; reflexivity].
Qed.

Lemma handleCall_effect call (s : State env) :
  exists o s',
    handleCall call s = (o, s')
    /\ calls s' = calls s /\ traceService s' = traceService s
    /\ match o with
       | Returned (Some payload) =>
           forall r, isResolvedResponse
                       (SendMessageCall
                          (FunctionResponseMessage (call_name call) payload) r) = true
       | _ => True
       end.
Proof.
  unfold handleCall.
  destruct (String.eqb (call_name call) "fetchMedicalRecords") eqn:Efetch.
  - unfold OPENAPI_TOOL_SIMULATION, bind, settle. rewrite Efetch.
    destruct (args call) as [a |]; eexists; eexists; repeat split.
    intros r. cbn [isResolvedResponse status]. now rewrite Efetch.
  - destruct (String.eqb (call_name call) "updateMemory") eqn:Eupdate.
    + destruct (args call) as [a |]; [| eexists; eexists; repeat split].
      unfold bind. destruct (updateMemory_frame a s) as [s' [E [Hc Ht]]].
      rewrite E. eexists; eexists. repeat split; try assumption.
      intros r. exact Eupdate.
    + eexists; eexists. repeat split.
Qed.

Lemma toolLoop_bounded remaining :
  forall start chat r tools (s : State env),
    exists evs,
      calls (snd (toolLoop remaining start chat r tools s)) = calls s ++ evs
      /\ (length evs <= remaining)%nat
      /\ Forall (fun e => isResolvedResponse e = true) evs.
Proof.
  induction remaining as [| n IH]; intros start chat r tools s.
  - exists []. rewrite app_nil_r. split; [| split; [reflexivity | constructor]].
    cbn [toolLoop].
    destruct (functionCalls r); apply quietly_finishAgent.
  - cbn [toolLoop].
    destruct (functionCalls r) as [[| call others] |];
      try (exists []; rewrite app_nil_r;
           split; [apply quietly_finishAgent | split; [cbn; lia | constructor]]).
    destruct (String.eqb (call_name call) "pauseWorkflow").
    + exists []. rewrite app_nil_r. split; [| split; [cbn; lia | constructor]].
      apply quietly_bind; [apply quietly_recordElapsed |].
      intros _. destruct (args call); [apply quietly_ret | apply quietly_throw].
    + unfold bind at 1.
      destruct (handleCall_effect call s) as [o [s1 [E [Hc [_ Hres]]]]].
      rewrite E. destruct o as [[payload |] | e];
        [| | exists []; rewrite app_nil_r; cbn [snd];
             split; [exact Hc | split; [cbn; lia | constructor]]].
      * unfold bind at 1. unfold callSendMessage.
        destruct (sendMessage chat _ (world s1)) as [[r' | e] w'].
        -- match goal with
           | |- context [toolLoop n start chat r' ?tl ?st] =>
               destruct (IH start chat r' tl st) as [evs [Ecalls [Hlen Hall]]]
           end.
           eexists. split; [rewrite Ecalls; cbn [calls addCall setWorld];
                            rewrite Hc, <- app_assoc; reflexivity |].
           split; [cbn [length app]; lia |].
           constructor; [apply Hres | exact Hall].
        -- eexists. split; [cbn [snd calls addCall setWorld]; now rewrite Hc |].
           split; [cbn [length]; lia |].
           constructor; [apply Hres | constructor].
      * exists []. rewrite app_nil_r. split; [| split; [cbn; lia | constructor]].
        now rewrite quietly_finishAgent.
Qed.

(** X2: whatever the session answers, one executor invocation creates one
    chat, sends the instruction, and then sends at most 5 function responses,
    each of them the status-200 record result for [fetchMedicalRecords] or the
    acknowledgement for [updateMemory]; it makes no other call. *)
Theorem executor_sends_at_most_five_function_responses (agent : AgentDomain)
    (instruction context apiKey language : string) (s : State env) :
  exists first rest,
    calls (snd (executeAgent agent instruction context apiKey language s))
    = calls s
      ++ ChatCreateCall
           {| chat_model := MODEL_FLASH;
              chat_systemInstruction :=
                agentSystemInstruction agent context language
                  (MemoryBankService.getFormattedContext (memoryBank s)) |}
         :: SendMessageCall (Instruction instruction) first
         :: rest
    /\ (length rest <= 5)%nat
    /\ Forall (fun e => isResolvedResponse e = true) rest.
Proof.
  unfold executeAgent.
  unfold bind at 1. unfold now. destruct (Date_now (world s)) as [start w0].
  unfold bind at 1. unfold getFormattedContext at 1.
  unfold bind at 1. unfold callChatsCreate.
  cbn [world setWorld memoryBank].
  destruct (chats_create apiKey _ w0) as [chat w1].
  unfold bind at 1. unfold callSendMessage. cbn [world setWorld addCall].
  destruct (sendMessage chat (Instruction instruction) w1) as [[first | e] w2].
  - unfold bind.
    match goal with
    | |- context [builtInTools first ?st] =>
        pose proof (quietly_builtInTools first st) as Hq;
        destruct (builtInTools first st) as [[builtIn | e] s3]
    end; cbn [snd] in Hq.
    + destruct (toolLoop_bounded 5 start chat first builtIn s3)
        as [rest [Ecalls [Hlen Hall]]].
      exists (Returned first), rest. split; [| now split].
      rewrite Ecalls, Hq. cbn [calls addCall setWorld]. now rewrite <- !app_assoc.
    + exists (Returned first), []. split; [| split; [cbn; lia | constructor]].
      cbn [snd]. rewrite Hq. cbn [calls addCall setWorld]. now rewrite <- !app_assoc.
  - exists (Thrown e), []. split; [| split; [cbn; lia | constructor]].
    cbn [snd calls addCall setWorld]. now rewrite <- !app_assoc.
Qed.

Lemma builtInTools_signals (first : GenerateContentResponse) (s : State env) :
  candidates first <> Some [] ->
  builtInTools first s = (Returned (builtInSignals first), s).
Proof.
  intros Hcand. unfold builtInTools, builtInSignals, bind, ret, push.
  destruct (candidates first) as [[| c cs] |]; [congruence | | reflexivity].
  now destruct (groundingMetadata c), (existsb executableCode (content_parts c)).
Qed.

(** X4: when the first response of the session carries no function call, the
    executor makes just its two calls (creating the chat, sending the
    instruction) and returns, unpaused, that response's text (or "Task
    Completed."); its tool log is what the response shows of built-in tools:
    "googleSearch" if its first candidate is grounded, then "codeExecution"
    if one of that candidate's parts holds executable code. *)
Theorem executor_without_function_calls (agent : AgentDomain)
    (instruction context apiKey language : string) (s : State env)
    (first : GenerateContentResponse) (w2 : World) :
  let cfg := {| chat_model := MODEL_FLASH;
                chat_systemInstruction :=
                  agentSystemInstruction agent context language
                    (MemoryBankService.getFormattedContext (memoryBank s)) |} in
  let opened := chats_create apiKey cfg (snd (Date_now (world s))) in
  sendMessage (fst opened) (Instruction instruction) (snd opened)
    = (Returned first, w2) ->
  functionCalls first = None \/ functionCalls first = Some [] ->
  candidates first <> Some [] ->
  exists s',
    executeAgent agent instruction context apiKey language s
    = (Returned {| res_text := textOr (text first) "Task Completed.";
                   isPaused := false; pauseReason := None;
                   toolUsage := Some (builtInSignals first) |}, s')
    /\ calls s'
       = calls s
         ++ [ ChatCreateCall cfg;
              SendMessageCall (Instruction instruction) (Returned first) ]
    /\ memoryBank s' = memoryBank s.
Proof.
  intros cfg opened Hsend Hnone Hcand. subst opened.
  unfold executeAgent.
  unfold bind at 1. unfold now. destruct (Date_now (world s)) as [start w0].
  unfold bind at 1. unfold getFormattedContext at 1.
  unfold bind at 1. unfold callChatsCreate.
  cbn [world setWorld memoryBank fst snd] in *. fold cfg.
  destruct (chats_create apiKey cfg w0) as [chat w1].
  unfold bind at 1. unfold callSendMessage. cbn [world setWorld addCall fst snd] in *.
  rewrite Hsend.
  unfold bind. rewrite (builtInTools_signals _ _ Hcand).
  assert (Eloop : forall st : State env,
            toolLoop 5 start chat first (builtInSignals first) st
            = finishAgent start first (builtInSignals first) st).
  { intros st. cbn [toolLoop]. now destruct Hnone as [-> | ->]. }
  rewrite Eloop.
  match goal with
  | |- context [finishAgent start first _ ?st] =>
      destruct (finishAgent_effect start first (builtInSignals first) st)
        as [m [s' [E [Hc [Hm _]]]]]
  end.
  rewrite E. exists s'. split; [reflexivity |]. split.
  - rewrite Hc. cbn [calls addCall setWorld]. now rewrite <- app_assoc.
  - now rewrite Hm.
Qed.

(** X5: a first response that lists candidates but has none (an empty
    array) makes the executor throw a [TypeError] after its two calls, when it
    reads the grounding of the missing first candidate; no metric is recorded
    and the memory bank is untouched. *)
Theorem executor_throws_on_empty_candidates (agent : AgentDomain)
    (instruction context apiKey language : string) (s : State env)
    (first : GenerateContentResponse) (w2 : World) :
  let cfg := {| chat_model := MODEL_FLASH;
                chat_systemInstruction :=
                  agentSystemInstruction agent context language
                    (MemoryBankService.getFormattedContext (memoryBank s)) |} in
  let opened := chats_create apiKey cfg (snd (Date_now (world s))) in
  sendMessage (fst opened) (Instruction instruction) (snd opened)
    = (Returned first, w2) ->
  candidates first = Some [] ->
  exists msg s',
    executeAgent agent instruction context apiKey language s
    = (Thrown (TypeError msg), s')
    /\ calls s'
       = calls s
         ++ [ ChatCreateCall cfg;
              SendMessageCall (Instruction instruction) (Returned first) ]
    /\ traceService s' = traceService s
    /\ memoryBank s' = memoryBank s.
Proof.
  intros cfg opened Hsend Hcand. subst opened.
  unfold executeAgent.
  unfold bind at 1. unfold now. destruct (Date_now (world s)) as [start w0].
  unfold bind at 1. unfold getFormattedContext at 1.
  unfold bind at 1. unfold callChatsCreate.
  cbn [world setWorld memoryBank fst snd] in *. fold cfg.
  destruct (chats_create apiKey cfg w0) as [chat w1].
  unfold bind at 1. unfold callSendMessage. cbn [world setWorld addCall fst snd] in *.
  rewrite Hsend.
  unfold bind, builtInTools. rewrite Hcand. unfold throw.
  eexists; eexists. split; [reflexivity |].
  cbn [calls traceService memoryBank addCall setWorld].
  rewrite <- app_assoc. now repeat split.
Qed.

Lemma builtInTools_pure (first : GenerateContentResponse) (s : State env) :
  exists o, builtInTools first s = (o, s).
Proof.
  unfold builtInTools, bind, ret, throw.
  destruct (candidates first) as [[| c cs] |]; eexists; reflexivity.
Qed.

Lemma toolLoop_metric remaining :
  forall start chat r tools (s : State env),
    match toolLoop remaining start chat r tools s with
    | (Returned _, s') =>
        exists m, traceService s' = traceService s ++ [m]
                  /\ metric_name m = "AgentExecutionTime"
                  /\ metric_unit m = "ms"
    | (Thrown e, s') =>
        (e <> TypeError "Cannot read properties of undefined (reading 'reason')" ->
         traceService s' = traceService s)
        /\ (traceService s' = traceService s
            \/ exists m, traceService s' = traceService s ++ [m]
                         /\ metric_name m = "AgentExecutionTime"
                         /\ metric_unit m = "ms")
    end.
Proof.
  assert (Hfinish : forall start r tools (s : State env),
            match finishAgent start r tools s with
            | (Returned _, s') =>
                exists m, traceService s' = traceService s ++ [m]
                          /\ metric_name m = "AgentExecutionTime"
                          /\ metric_unit m = "ms"
            | (Thrown e, s') =>
                (e <> TypeError "Cannot read properties of undefined (reading 'reason')" ->
                 traceService s' = traceService s)
                /\ (traceService s' = traceService s
                    \/ exists m, traceService s' = traceService s ++ [m]
                                 /\ metric_name m = "AgentExecutionTime"
                                 /\ metric_unit m = "ms")
            end).
  { intros start r tools s.
    destruct (finishAgent_effect start r tools s) as [m [s' [E [_ [_ [Ht [Hn Hu]]]]]]].
    rewrite E. now exists m. }
  induction remaining as [| n IH]; intros start chat r tools s.
  - cbn [toolLoop]. destruct (functionCalls r); apply Hfinish.
  - cbn [toolLoop].
    destruct (functionCalls r) as [[| call others] |]; try apply Hfinish.
    destruct (String.eqb (call_name call) "pauseWorkflow").
    + unfold bind.
      destruct (recordElapsed_effect "AgentExecutionTime" start s)
        as [m [s' [E [_ [_ [Ht [Hn Hu]]]]]]].
      rewrite E. destruct (args call) as [a |]; [now exists m |].
      unfold throw. split; [intros Hne; now contradiction Hne |].
      right. now exists m.
    + unfold bind at 1.
      destruct (handleCall_effect call s) as [o [s1 [E [_ [Ht _]]]]].
      rewrite E. destruct o as [[payload |] | e]; [| | now split; [intros _ | left]].
      * unfold bind at 1. unfold callSendMessage.
        destruct (sendMessage chat _ (world s1)) as [[r' | e] w'].
        -- match goal with
           | |- context [toolLoop n start chat r' ?tl ?st] =>
               specialize (IH start chat r' tl st);
               destruct (toolLoop n start chat r' tl st) as [[res | e] s2]
           end; cbn [traceService addCall setWorld] in IH; now rewrite <- Ht.
        -- cbn [traceService addCall setWorld]. now split; [intros _ | left].
      * specialize (Hfinish start r (push tools (call_name call)) s1).
        destruct (finishAgent start r (push tools (call_name call)) s1)
          as [[res | e] s2]; now rewrite <- Ht.
Qed.

(** X7: an executor invocation that returns (paused or not) has appended
    exactly one metric to the trace recorder, "AgentExecutionTime" in "ms".
    One that throws has appended none, with one exception: a [pauseWorkflow]
    call without arguments, whose metric is recorded before the reason is read
    off the missing arguments; the invocation then throws that [TypeError]
    with the one metric appended. *)
Theorem executor_records_one_metric (agent : AgentDomain)
    (instruction context apiKey language : string) (s : State env) :
  match executeAgent agent instruction context apiKey language s with
  | (Returned _, s') =>
      exists m, traceService s' = traceService s ++ [m]
                /\ metric_name m = "AgentExecutionTime"
                /\ metric_unit m = "ms"
  | (Thrown e, s') =>
      (e <> TypeError "Cannot read properties of undefined (reading 'reason')" ->
       traceService s' = traceService s)
      /\ (traceService s' = traceService s
          \/ exists m, traceService s' = traceService s ++ [m]
                       /\ metric_name m = "AgentExecutionTime"
                       /\ metric_unit m = "ms")
  end.
Proof.
  unfold executeAgent.
  unfold bind at 1. unfold now. destruct (Date_now (world s)) as [start w0].
  unfold bind at 1. unfold getFormattedContext at 1.
  unfold bind at 1. unfold callChatsCreate.
  cbn [world setWorld memoryBank].
  destruct (chats_create apiKey _ w0) as [chat w1].
  unfold bind at 1. unfold callSendMessage. cbn [world setWorld addCall].
  destruct (sendMessage chat (Instruction instruction) w1) as [[first | e] w2];
    [| now split; [intros _ | left]].
  unfold bind.
  match goal with
  | |- context [builtInTools first ?st] =>
      destruct (builtInTools_pure first st) as [[builtIn | e] ->];
        [exact (toolLoop_metric 5 start chat first builtIn st)
        | now split; [intros _ | left]]
  end.
Qed.

(** X30: a [pauseWorkflow] call without arguments.  The loop records the
    execution-time metric and then throws a [TypeError] when it reads the
    reason: the executor does not return a pause, sends nothing more, and
    leaves the memory bank alone, but the metric of the failed invocation
    stays in the trace recorder. *)
Theorem pause_without_arguments_throws_after_metric (turnsLeft : nat) (start : Z)
    (chat : Chat) (r : GenerateContentResponse) (tools : list string)
    (call : FunctionCall) (others : list FunctionCall) (s : State env) :
  functionCalls r = Some (call :: others) ->
  call_name call = "pauseWorkflow" ->
  args call = None ->
  exists m s',
    toolLoop (S turnsLeft) start chat r tools s
    = (Thrown (TypeError "Cannot read properties of undefined (reading 'reason')"), s')
    /\ calls s' = calls s
    /\ memoryBank s' = memoryBank s
    /\ traceService s' = traceService s ++ [m]
    /\ metric_name m = "AgentExecutionTime".
Proof.
  intros Hcalls Hname Hargs. cbn [toolLoop]. rewrite Hcalls, Hname, Hargs.
  cbn [String.eqb Ascii.eqb Bool.eqb andb]. unfold bind, push.
  destruct (recordElapsed_effect "AgentExecutionTime" start s)
    as [m [s' [E [Hc [Hm [Ht [Hn _]]]]]]].
  rewrite E. now exists m, s'.
Qed.

(** *** Mode dispatcher: outputs, suspension, empty plans *)

Lemma AgentDomain_eqb_eq a b : AgentDomain_eqb a b = true <-> a = b.
Proof. destruct a, b; split; intros H; try reflexivity; discriminate H. Qed.

Lemma AgentDomain_eqb_neq a b : AgentDomain_eqb a b = false <-> a <> b.
Proof.
  destruct a, b; split; intros H; try reflexivity; try discriminate H;
    try (intros E; discriminate E); congruence.
Qed.

Lemma outputKeys_setOutput agent t (o : AgentOutputs) :
  outputKeys (setOutput agent t o)
  = if existsb (AgentDomain_eqb agent) (outputKeys o)
    then outputKeys o else outputKeys o ++ [agent].
Proof.
  unfold outputKeys. induction o as [| [a u] o IH]; [reflexivity |].
  cbn [setOutput map fst existsb].
  destruct (AgentDomain_eqb a agent) eqn:E.
  - apply AgentDomain_eqb_eq in E. subst a.
    replace (AgentDomain_eqb agent agent) with true
      by (symmetry; now apply AgentDomain_eqb_eq).
    reflexivity.
  - replace (AgentDomain_eqb agent a) with false
      by (symmetry; apply AgentDomain_eqb_neq; apply AgentDomain_eqb_neq in E; congruence).
    cbn [map fst orb]. rewrite IH.
    now destruct (existsb (AgentDomain_eqb agent) (map fst o)).
Qed.

Lemma existsb_eqb_In agent (l : list AgentDomain) :
  existsb (AgentDomain_eqb agent) l = true <-> In agent l.
Proof.
  rewrite existsb_exists. split.
  - intros [x [Hin E]]. apply AgentDomain_eqb_eq in E. now subst.
  - intros Hin. exists agent. split; [assumption | now apply AgentDomain_eqb_eq].
Qed.

Lemma outputOf_setOutput_same agent t (o : AgentOutputs) :
  outputOf agent (setOutput agent t o) = Some t.
Proof.
  induction o as [| [a u] o IH]; cbn [setOutput outputOf].
  - now replace (AgentDomain_eqb agent agent) with true
      by (symmetry; now apply AgentDomain_eqb_eq).
  - destruct (AgentDomain_eqb a agent) eqn:E; cbn [outputOf].
    + now replace (AgentDomain_eqb agent agent) with true
        by (symmetry; now apply AgentDomain_eqb_eq).
    + now rewrite E.
Qed.

Lemma outputOf_setOutput_other agent other t (o : AgentOutputs) :
  other <> agent -> outputOf other (setOutput agent t o) = outputOf other o.
Proof.
  intros Hother. induction o as [| [a u] o IH]; cbn [setOutput outputOf].
  - now replace (AgentDomain_eqb agent other) with false
      by (symmetry; apply AgentDomain_eqb_neq; congruence).
  - destruct (AgentDomain_eqb a agent) eqn:E; cbn [outputOf].
    + apply AgentDomain_eqb_eq in E. subst a.
      now replace (AgentDomain_eqb agent other) with false
        by (symmetry; apply AgentDomain_eqb_neq; congruence).
    + now rewrite IH.
Qed.

(** X12: writing an agent's output, [agentOutputs[agent] = text], behaves
    like a property write on an object.  Reading the agent back gives the new
    text and every other agent reads as before (last write wins); an agent
    already present keeps its place in the enumeration and a new one goes to
    the end; and keys that were distinct stay distinct. *)
Theorem setOutput_is_a_property_write (agent : AgentDomain) (t : string)
    (o : AgentOutputs) :
  outputOf agent (setOutput agent t o) = Some t
  /\ (forall other, other <> agent ->
        outputOf other (setOutput agent t o) = outputOf other o)
  /\ (In agent (outputKeys o) -> outputKeys (setOutput agent t o) = outputKeys o)
  /\ (~ In agent (outputKeys o) ->
        outputKeys (setOutput agent t o) = outputKeys o ++ [agent])
  /\ (NoDup (outputKeys o) -> NoDup (outputKeys (setOutput agent t o))).
Proof.
  split; [apply outputOf_setOutput_same |].
  split; [intros other; apply outputOf_setOutput_other |].
  split; [| split].
  - intros Hin. rewrite outputKeys_setOutput.
    now replace (existsb (AgentDomain_eqb agent) (outputKeys o)) with true
      by (symmetry; now apply existsb_eqb_In).
  - intros Hout. rewrite outputKeys_setOutput.
    destruct (existsb (AgentDomain_eqb agent) (outputKeys o)) eqn:E; [| reflexivity].
    apply existsb_eqb_In in E. contradiction.
  - intros Hnd. rewrite outputKeys_setOutput.
    destruct (existsb (AgentDomain_eqb agent) (outputKeys o)) eqn:E; [assumption |].
    assert (Hout : ~ In agent (outputKeys o)).
    { intros Hin. apply existsb_eqb_In in Hin. congruence. }
    apply NoDup_app; [assumption | repeat constructor; intros [] |].
    intros x Hx [<- | []]. contradiction.
Qed.

Lemma sequentialLoop_checkpoint (p : AgentPlan) todo :
  forall i context outputs tools apiKey language (s s' : State env) r,
    sequentialLoop p todo i context outputs tools apiKey language s
      = (Returned (Suspended r), s') ->
    executionMode r = PAUSED
    /\ exists checkpoint,
         pausedState r = Some checkpoint
         /\ plan checkpoint = p
         /\ (i < stepIndex checkpoint <= i + length todo)%nat.
Proof.
  induction todo as [| step todo IH];
    intros i context outputs tools apiKey language s s' r H;
    cbn [sequentialLoop] in H; [discriminate H |].
  unfold bind in H.
  destruct (executeAgent (agent step) (instruction step) context apiKey language s)
    as [[result | e] s1]; [| discriminate H].
  destruct (isPaused result).
  - injection H as <- _. split; [reflexivity |].
    eexists. split; [reflexivity |]. cbn [plan stepIndex length].
    split; [reflexivity | lia].
  - apply IH in H. destruct H as [Hmode [checkpoint [Hp [Hplan Hidx]]]].
    split; [exact Hmode |]. exists checkpoint. cbn [length].
    repeat split; try assumption; lia.
Qed.

(** X8: only a SEQUENTIAL plan can suspend a run.  Whenever the execution
    phase ends with the early return of a pause, the plan's mode is
    SEQUENTIAL, the result's executionMode is PAUSED, and its checkpoint holds
    the plan unchanged with a stepIndex past the starting index and at most
    the number of steps.  A pause signalled by an agent of a PARALLEL, LOOP or
    DIRECT plan is not acted on. *)
Theorem only_sequential_suspends (p : AgentPlan) (resumeState : option PausedState)
    (start : nat) (context : string) (outputs : AgentOutputs) (tools : list string)
    (apiKey language : string) (s s' : State env) (r : RunResult) :
  executionPhase p resumeState start context outputs tools apiKey language s
    = (Returned (Suspended r), s') ->
  mode p = SEQUENTIAL
  /\ executionMode r = PAUSED
  /\ exists checkpoint,
       pausedState r = Some checkpoint
       /\ plan checkpoint = p
       /\ (start < stepIndex checkpoint <= length (steps p))%nat.
Proof.
  unfold executionPhase. intros H.
  destruct (mode p) eqn:Hmode, resumeState as [rs |];
    try (apply sequentialLoop_checkpoint in H;
         destruct H as [Hm [checkpoint [Hp [Hplan Hidx]]]];
         rewrite length_skipn in Hidx;
         split; [reflexivity | split; [exact Hm |]];
         exists checkpoint; repeat split; try assumption; lia);
    exfalso; unfold bind, ret in H;
    repeat match type of H with
           | context [match ?x with _ => _ end] => destruct x
           | context [let (_, _) := ?x in _] => destruct x
           end; discriminate H.
Qed.

(** X9: a fresh plan without steps.  DIRECT and LOOP (and the status modes
    PAUSED and PLANNING, which take the DIRECT branch) throw a [TypeError]
    when they read the first step, before any call; PARALLEL and SEQUENTIAL
    have nothing to run and hand the outputs and the tool log on unchanged. *)
Theorem fresh_plan_without_steps (p : AgentPlan) (start : nat) (context : string)
    (outputs : AgentOutputs) (tools : list string) (apiKey language : string)
    (s : State env) :
  steps p = [] ->
  executionPhase p None start context outputs tools apiKey language s
  = match mode p with
    | PARALLEL | SEQUENTIAL => (Returned (Finished outputs tools), s)
    | _ => (Thrown (TypeError "Cannot read properties of undefined (reading 'agent')"), s)
    end.
Proof.
  intros Hsteps. unfold executionPhase, firstStep. rewrite Hsteps.
  destruct (mode p); try reflexivity.
  now destruct start.
Qed.

Lemma instructionsSent_app (a b : list Event) :
  instructionsSent (a ++ b) = instructionsSent a ++ instructionsSent b.
Proof.
  induction a as [| e a IH]; [reflexivity |].
  cbn [app instructionsSent]. destruct (instructionOf e); cbn [app]; now rewrite IH.
Qed.

Lemma instructionsSent_resolved (evs : list Event) :
  Forall (fun e => isResolvedResponse e = true) evs -> instructionsSent evs = [].
Proof.
  induction 1 as [| e evs He _ IH]; [reflexivity |].
  cbn [instructionsSent]. destruct e as [| | [m | n p] r]; try discriminate He.
  exact IH.
Qed.

Lemma executeAgent_instructions agent instruction context apiKey language
    (s : State env) :
  exists evs,
    calls (snd (executeAgent agent instruction context apiKey language s))
    = calls s ++ evs
    /\ instructionsSent evs = [instruction].
Proof.
  unfold executeAgent.
  unfold bind at 1. unfold now. destruct (Date_now (world s)) as [start w0].
  unfold bind at 1. unfold getFormattedContext at 1.
  unfold bind at 1. unfold callChatsCreate.
  cbn [world setWorld memoryBank].
  destruct (chats_create apiKey _ w0) as [chat w1].
  unfold bind at 1. unfold callSendMessage. cbn [world setWorld addCall].
  destruct (sendMessage chat (Instruction instruction) w1) as [[first | e] w2].
  - unfold bind.
    match goal with
    | |- context [builtInTools first ?st] =>
        destruct (builtInTools_pure first st) as [[builtIn | e] ->]
    end.
    + match goal with
      | |- context [toolLoop 5 start chat first builtIn ?st] =>
          destruct (toolLoop_bounded 5 start chat first builtIn st)
            as [rest [Ecalls [_ Hall]]]
      end.
      eexists. split; [rewrite Ecalls; cbn [calls addCall setWorld];
                       rewrite <- !app_assoc; reflexivity |].
      cbn [app instructionsSent instructionOf].
      now rewrite (instructionsSent_resolved _ Hall).
    + eexists. split; [cbn [snd calls addCall setWorld];
                       rewrite <- !app_assoc; reflexivity |].
      reflexivity.
  - eexists. split; [cbn [snd calls addCall setWorld];
                     rewrite <- !app_assoc; reflexivity |].
    reflexivity.
Qed.

(** X10: the sequential loop sends the instructions of its steps in plan
    order, one per executor invocation, and stops at the first step that
    pauses or fails: the instructions it has sent are the first [k] of the
    remaining steps' instructions, and [k] is all of them when the loop
    finishes. *)
Theorem sequential_instructions_in_plan_order (p : AgentPlan) (todo : list AgentStep)
    (i : nat) (context : string) (outputs : AgentOutputs) (tools : list string)
    (apiKey language : string) (s : State env) :
  exists evs k,
    calls (snd (sequentialLoop p todo i context outputs tools apiKey language s))
    = calls s ++ evs
    /\ instructionsSent evs = firstn k (map instruction todo)
    /\ (k <= length todo)%nat
    /\ (forall outputs' tools',
          fst (sequentialLoop p todo i context outputs tools apiKey language s)
          = Returned (Finished outputs' tools') ->
          k = length todo).
Proof.
  revert i context outputs tools s.
  induction todo as [| step todo IH]; intros i context outputs tools s;
    cbn [sequentialLoop].
  - exists [], 0%nat. rewrite app_nil_r. now repeat split.
  - unfold bind.
    destruct (executeAgent_instructions (agent step) (instruction step) context
                apiKey language s) as [ev1 [E1 I1]].
    destruct (executeAgent (agent step) (instruction step) context apiKey language s)
      as [[result | e] s1]; cbn [snd] in E1.
    + destruct (isPaused result).
      * exists ev1, 1%nat. cbn [snd fst ret]. split; [exact E1 |].
        split; [now rewrite I1 |]. split; [cbn; lia | discriminate].
      * match goal with
        | |- context [sequentialLoop p todo ?j ?c ?o ?t apiKey language s1] =>
            destruct (IH j c o t s1) as [ev2 [k [E2 [I2 [Hk Hfin]]]]]
        end.
        exists (ev1 ++ ev2), (S k). split; [now rewrite E2, E1, app_assoc |].
        split; [rewrite instructionsSent_app, I1, I2; reflexivity |].
        split; [cbn [length]; lia |].
        intros outputs' tools' Hdone. cbn [length]. f_equal. eapply Hfin. exact Hdone.
    + exists ev1, 1%nat. cbn [snd fst]. split; [exact E1 |].
      split; [now rewrite I1 |]. split; [cbn; lia | discriminate].
Qed.


(** *** Planner, synthesizer and compactor: what comes back and what fails *)

Lemma evaluateResponse_effect query result apiKey (s : State env) :
  exists ev out s',
    evaluateResponse query result apiKey s = (Returned ev, s')
    /\ calls s' = calls s ++ [GenerateContentCall (evaluationRequest query result) out]
    /\ traceService s' = traceService s
    /\ memoryBank s' = memoryBank s.
Proof.
  unfold evaluateResponse, tryCatch, bind, now, callGenerateContent, jsonParse.
  destruct (Date_now (world s)) as [start w0]. cbn [fst snd world setWorld].
  destruct (generateContent apiKey (evaluationRequest query result) w0)
    as [[scored | e] w1]; [| eexists; eexists; eexists; repeat split].
  destruct (text scored) as [t |]; [| eexists; eexists; eexists; repeat split].
  destruct (parseEvaluation t) as [parsed |];
    [| eexists; eexists; eexists; repeat split].
  cbn [ret fst snd world setWorld addCall].
  destruct (Date_now w1) as [finish w2].
  eexists; eexists; eexists; repeat split.
Qed.

Lemma lastEntries_snoc {A} (n : nat) (l : list A) (x : A) :
  (0 < n)%nat ->
  (length (lastEntries n (l ++ [x])) <= n)%nat
  /\ lastEntries n (l ++ [x]) = lastEntries (n - 1) l ++ [x].
Proof.
  intros Hn. unfold lastEntries. split.
  - rewrite length_skipn. lia.
  - rewrite length_app. cbn [length].
    rewrite skipn_app.
    replace (length l + 1 - n - length l)%nat with 0%nat by lia.
    cbn [skipn]. f_equal. f_equal. lia.
Qed.

Lemma synthesisPhase_effect prompt (p : AgentPlan) outputs tools contextSummary
    apiKey language useThinking overallStart (s : State env) :
  let request :=
    synthesisRequest prompt outputs tools contextSummary
      (MemoryBankService.getFormattedContext (memoryBank s)) language useThinking in
  let answer := generateContent apiKey request (world s) in
  match synthesisPhase prompt p outputs tools contextSummary apiKey language
          useThinking overallStart s with
  | (Thrown e, s') =>
      (fst answer = Thrown e
       \/ (e = SyntaxError
           /\ exists r, fst answer = Returned r
                        /\ forall t parsed, text r = Some t ->
                                            parseSynthesis t <> Some parsed))
      /\ calls s' = calls s ++ [GenerateContentCall request (fst answer)]
      /\ traceService s' = traceService s
  | (Returned result, s') =>
      exists r t parsed ev out m,
        fst answer = Returned r /\ text r = Some t /\ parseSynthesis t = Some parsed
        /\ calls s'
           = calls s
             ++ [ GenerateContentCall request (fst answer);
                  GenerateContentCall (evaluationRequest prompt (response parsed)) out ]
        /\ traceService s' = traceService s ++ [m]
        /\ metric_name m = "TotalLatency"
        /\ result = CompletedRun parsed (map agent (steps p)) (mode p) ev
                      (lastEntries 5 (traceService s'))
  end.
Proof.
  intros request answer. unfold synthesisPhase.
  unfold bind at 1. unfold getFormattedContext at 1.
  unfold bind at 1. unfold callGenerateContent. fold request. fold answer.
  destruct answer as [[r | e] w]; cbn [fst];
    [| split; [now left | split; reflexivity]].
  unfold bind at 1. unfold jsonParse.
  destruct (text r) as [t |] eqn:Et.
  - destruct (parseSynthesis t) as [parsed |] eqn:Ep.
    + unfold ret at 1. unfold bind at 1.
      match goal with
      | |- context [evaluateResponse prompt (response parsed) apiKey ?st] =>
          destruct (evaluateResponse_effect prompt (response parsed) apiKey st)
            as [ev [out [s2 [E [Hc [Ht Hm]]]]]]
      end.
      rewrite E. unfold bind at 1.
      destruct (recordElapsed_effect "TotalLatency" overallStart s2)
        as [m [s3 [E3 [Hc3 [_ [Ht3 [Hn _]]]]]]].
      rewrite E3. unfold bind, getRecentMetrics, ret.
      exists r, t, parsed, ev, out, m.
      split; [reflexivity |]. split; [exact Et |]. split; [exact Ep |].
      split; [rewrite Hc3, Hc; cbn [calls addCall setWorld];
              now rewrite <- app_assoc |].
      split; [rewrite Ht3, Ht; reflexivity |].
      split; [exact Hn |].
      f_equal. unfold TraceService.getRecentMetrics.
      apply (slice_negative_last 5). lia.
    + unfold throw. split; [| split; reflexivity].
      right. split; [reflexivity |]. exists r. split; [reflexivity |].
      intros t' parsed Ht'. rewrite Et in Ht'. injection Ht' as <-. congruence.
  - unfold throw. split; [| split; reflexivity].
    right. split; [reflexivity |]. exists r. split; [reflexivity |].
    intros t' parsed Ht'. rewrite Et in Ht'. discriminate Ht'.
Qed.


(** X14: what a completed synthesis phase hands back.  The result lists the
    agents of the plan's steps in order and the plan's mode; exactly two calls
    were made, the synthesizer's and one scoring call on the synthesized
    response text; one "TotalLatency" metric was appended; and the metrics
    reported are the last entries of the trace recorder, at most 5: the last
    4 recorded before the phase, then that "TotalLatency". *)
Theorem completed_run_reports_recent_metrics (prompt : string)
    (p : AgentPlan) (outputs : AgentOutputs) (tools : list string)
    (contextSummary apiKey language : string) (useThinking : bool)
    (overallStart : Z) (s s' : State env) (result : RunResult) :
  synthesisPhase prompt p outputs tools contextSummary apiKey language
    useThinking overallStart s = (Returned result, s') ->
  exists parsed ev metrics answer out m,
    result = CompletedRun parsed (map agent (steps p)) (mode p) ev metrics
    /\ calls s'
       = calls s
         ++ [ GenerateContentCall
                (synthesisRequest prompt outputs tools contextSummary
                   (MemoryBankService.getFormattedContext (memoryBank s))
                   language useThinking) answer;
              GenerateContentCall (evaluationRequest prompt (response parsed)) out ]
    /\ traceService s' = traceService s ++ [m]
    /\ metric_name m = "TotalLatency"
    /\ metrics = lastEntries 5 (traceService s')
    /\ (length metrics <= 5)%nat
    /\ metrics = lastEntries 4 (traceService s) ++ [m].
Proof.
  intros H.
  pose proof (synthesisPhase_effect prompt p outputs tools contextSummary apiKey
                language useThinking overallStart s) as Heff.
  cbv zeta in Heff. rewrite H in Heff.
  destruct Heff as [r [t [parsed [ev [out [m [Ha [Ht [Hp [Hc [Htr [Hn Hr]]]]]]]]]]]].
  exists parsed, ev, (lastEntries 5 (traceService s')), (Returned r), out, m.
  rewrite <- Ha. split; [exact Hr |]. split; [exact Hc |].
  split; [exact Htr |]. split; [exact Hn |]. split; [reflexivity |].
  rewrite Htr.
  destruct (lastEntries_snoc 5 (traceService s) m) as [Hlen Hlast]; [lia |].
  split; [exact Hlen | exact Hlast].
Qed.


Lemma historyLines_missing_part (upper : string -> string) (history : list Turn) :
  Exists (fun h => turn_parts h = []) history -> historyLines upper history = None.
Proof.
  induction 1 as [h rest Hh | h rest _ IH]; cbn [historyLines].
  - now rewrite Hh.
  - rewrite IH. now destruct (turn_parts h).
Qed.

(** X16: a prior turn without a part is fatal to a fresh run: whatever the
    length of the history, the run throws a [TypeError] while it builds the
    transcript, before any call is made. *)
Theorem turn_without_part_is_fatal (prompt : string) (history : list Turn)
    (apiKey : string) (language : option string) (useThinking : option bool)
    (s : State env) :
  apiKey <> "" ->
  Exists (fun h => turn_parts h = []) history ->
  exists msg s',
    runMultiAgentSystem prompt history apiKey language useThinking None s
    = (Thrown (TypeError msg), s')
    /\ calls s' = calls s
    /\ memoryBank s' = memoryBank s
    /\ traceService s' = traceService s.
Proof.
  intros Hkey Hbad.
  assert (Hpos : (0 <? length history)%nat = true).
  { apply Nat.ltb_lt. destruct Hbad; cbn [length]; lia. }
  unfold runMultiAgentSystem. apply String.eqb_neq in Hkey. rewrite Hkey.
  unfold bind at 1. unfold now. destruct (Date_now (world s)) as [t w].
  unfold bind at 1. unfold compactionPhase. rewrite Hpos.
  assert (Ht : forall st : State env,
            transcript history st
            = (Thrown (TypeError "Cannot read properties of undefined (reading 'text')"), st)).
  { intros st. unfold transcript.
    now rewrite (historyLines_missing_part _ _ Hbad). }
  destruct (6 <? length history)%nat.
  - unfold compactHistory.
    replace (length history =? 0)%nat with false
      by (symmetry; apply Nat.eqb_neq; apply Nat.ltb_lt in Hpos; lia).
    unfold bind at 1. rewrite Ht. eexists; eexists. now repeat split.
  - rewrite Ht. eexists; eexists. now repeat split.
Qed.

(** X17: the compaction of a long history is not recovered.  If the
    summarization call of a fresh run rejects, the run throws that exception;
    the summarization request is the only call made, so neither the planner
    nor any agent has run. *)
Theorem compaction_failure_is_fatal (prompt : string) (history : list Turn)
    (apiKey : string) (language : option string) (useThinking : option bool)
    (s : State env) (e : Exn) (w : World) :
  apiKey <> "" ->
  Forall (fun h => turn_parts h <> []) history ->
  (6 < length history)%nat ->
  let request := summarizationRequest (verbatimTranscript toUpperCase history) in
  generateContent apiKey request (snd (Date_now (world s))) = (Thrown e, w) ->
  exists s',
    runMultiAgentSystem prompt history apiKey language useThinking None s
    = (Thrown e, s')
    /\ calls s' = calls s ++ [GenerateContentCall request (Thrown e)]
    /\ traceService s' = traceService s.
Proof.
  intros Hkey Hparts Hlong request Hreject.
  unfold runMultiAgentSystem. apply String.eqb_neq in Hkey. rewrite Hkey.
  unfold bind at 1. unfold now. destruct (Date_now (world s)) as [t w0].
  cbn [snd] in Hreject.
  unfold bind at 1. unfold compactionPhase.
  replace (0 <? length history)%nat with true by (symmetry; apply Nat.ltb_lt; lia).
  replace (6 <? length history)%nat with true by (symmetry; now apply Nat.ltb_lt).
  unfold compactHistory.
  replace (length history =? 0)%nat with false by (symmetry; apply Nat.eqb_neq; lia).
  unfold bind at 1. rewrite (transcript_verbatim _ _ Hparts).
  unfold bind at 1. unfold callGenerateContent. cbn [world setWorld].
  fold request. rewrite Hreject.
  eexists. now repeat split.
Qed.

(** *** Nothing recorded is lost *)

Lemma extendedTo_refl {A} (l : list A) : extendedTo l l.
Proof. exists []. now rewrite app_nil_r. Qed.

Lemma extendedTo_trans {A} (l1 l2 l3 : list A) :
  extendedTo l1 l2 -> extendedTo l2 l3 -> extendedTo l1 l3.
Proof. intros [a ->] [b ->]. exists (a ++ b). now rewrite app_assoc. Qed.

Lemma extendedTo_appendUnique (l : list string) x : extendedTo l (appendUnique l x).
Proof.
  unfold appendUnique. destruct (in_dec string_dec x l);
    [apply extendedTo_refl | now exists [x]].
Qed.

Lemma memoryGrows_refl c : memoryGrows c c.
Proof. repeat split; apply extendedTo_refl. Qed.

Lemma memoryGrows_trans c1 c2 c3 :
  memoryGrows c1 c2 -> memoryGrows c2 c3 -> memoryGrows c1 c3.
Proof.
  intros [L1 [H1 [G1 [P1 N1]]]] [L2 [H2 [G2 [P2 N2]]]].
  repeat split; [congruence | | | |]; eapply extendedTo_trans; eassumption.
Qed.

Lemma stateGrows_refl (s : State env) : stateGrows s s.
Proof. repeat split; apply extendedTo_refl. Qed.

Lemma stateGrows_trans (s1 s2 s3 : State env) :
  stateGrows s1 s2 -> stateGrows s2 s3 -> stateGrows s1 s3.
Proof.
  intros [C1 [T1 M1]] [C2 [T2 M2]]. split; [| split].
  - eapply extendedTo_trans; eassumption.
  - eapply extendedTo_trans; eassumption.
  - eapply memoryGrows_trans; eassumption.
Qed.

Lemma stateGrows_same (s s' : State env) :
  calls s' = calls s -> traceService s' = traceService s ->
  memoryBank s' = memoryBank s -> stateGrows s s'.
Proof.
  intros Hc Ht Hm. unfold stateGrows. rewrite Hc, Ht, Hm. apply stateGrows_refl.
Qed.

Lemma onlyAdds_ret {A} (a : A) : onlyAdds (ret (S := State env) a).
Proof. intros s. apply stateGrows_refl. Qed.

Lemma onlyAdds_throw {A} (e : Exn) : onlyAdds (throw (S := State env) (A := A) e).
Proof. intros s. apply stateGrows_refl. Qed.

Lemma onlyAdds_bind {A B} (m : M (State env) A) (k : A -> M (State env) B) :
  onlyAdds m -> (forall a, onlyAdds (k a)) -> onlyAdds (bind m k).
Proof.
  intros Hm Hk s. unfold bind. specialize (Hm s).
  destruct (m s) as [[a | e] s1]; cbn [snd] in *; [| exact Hm].
  eapply stateGrows_trans; [exact Hm | apply Hk].
Qed.

Lemma onlyAdds_tryCatch {A} (m : M (State env) A) (h : Exn -> M (State env) A) :
  onlyAdds m -> (forall e, onlyAdds (h e)) -> onlyAdds (tryCatch m h).
Proof.
  intros Hm Hh s. unfold tryCatch. specialize (Hm s).
  destruct (m s) as [[a | e] s1]; cbn [snd] in *; [exact Hm |].
  eapply stateGrows_trans; [exact Hm | apply Hh].
Qed.

Lemma onlyAdds_now : onlyAdds now.
Proof.
  intros s. unfold now. destruct (Date_now (world s)).
  now apply stateGrows_same.
Qed.

Lemma onlyAdds_getFormattedContext : onlyAdds getFormattedContext.
Proof. intros s. apply stateGrows_refl. Qed.

Lemma onlyAdds_getRecentMetrics : onlyAdds getRecentMetrics.
Proof. intros s. apply stateGrows_refl. Qed.

Lemma onlyAdds_jsonParse {A} (parse : string -> option A) t :
  onlyAdds (jsonParse parse t).
Proof.
  unfold jsonParse. destruct t as [t |]; [destruct (parse t) |];
    auto using onlyAdds_ret, onlyAdds_throw.
Qed.

Lemma onlyAdds_transcript history : onlyAdds (transcript history).
Proof.
  unfold transcript. destruct (historyLines toUpperCase history);
    auto using onlyAdds_ret, onlyAdds_throw.
Qed.

Lemma onlyAdds_generateContent apiKey req : onlyAdds (callGenerateContent apiKey req).
Proof.
  intros s. unfold callGenerateContent.
  destruct (generateContent apiKey req (world s)) as [r w].
  split; [now eexists | split; [apply extendedTo_refl | apply memoryGrows_refl]].
Qed.

Lemma onlyAdds_chatsCreate apiKey cfg : onlyAdds (callChatsCreate apiKey cfg).
Proof.
  intros s. unfold callChatsCreate.
  destruct (chats_create apiKey cfg (world s)) as [c w].
  split; [now eexists | split; [apply extendedTo_refl | apply memoryGrows_refl]].
Qed.

Lemma onlyAdds_sendMessage chat msg : onlyAdds (callSendMessage chat msg).
Proof.
  intros s. unfold callSendMessage.
  destruct (sendMessage chat msg (world s)) as [r w].
  split; [now eexists | split; [apply extendedTo_refl | apply memoryGrows_refl]].
Qed.

Lemma onlyAdds_recordMetric name value unit : onlyAdds (recordMetric name value unit).
Proof.
  unfold recordMetric. apply onlyAdds_bind; [apply onlyAdds_now | intros t s].
  split; [apply extendedTo_refl | split; [now eexists | apply memoryGrows_refl]].
Qed.

Lemma onlyAdds_recordElapsed name start : onlyAdds (recordElapsed name start).
Proof.
  unfold recordElapsed. apply onlyAdds_bind; [apply onlyAdds_now | intros t].
  apply onlyAdds_recordMetric.
Qed.

Lemma onlyAdds_modifyMemoryBank f :
  (forall c, memoryGrows c (f c)) -> onlyAdds (modifyMemoryBank f).
Proof.
  intros Hf s. split; [apply extendedTo_refl | split; [apply extendedTo_refl |]].
  apply Hf.
Qed.

Lemma memoryGrows_addArrayItem key x c :
  memoryGrows c (MemoryBankService.addArrayItem key x c).
Proof.
  rewrite addArrayItem_record.
  destruct key; repeat split; cbn;
    try apply extendedTo_refl; apply extendedTo_appendUnique.
Qed.

Lemma memoryGrows_addNote x c : memoryGrows c (MemoryBankService.addNote x c).
Proof.
  rewrite addNote_record.
  repeat split; cbn; try apply extendedTo_refl; apply extendedTo_appendUnique.
Qed.

Lemma onlyAdds_updateMemory a : onlyAdds (updateMemory a).
Proof.
  unfold updateMemory.
  destruct (String.eqb (category a) "health");
    [| destruct (String.eqb (category a) "education");
       [| destruct (String.eqb (category a) "environment");
          [| destruct (String.eqb (category a) "profile") ] ] ];
    try (apply onlyAdds_modifyMemoryBank; intros c;
         first [apply memoryGrows_addArrayItem | apply memoryGrows_addNote]).
  apply onlyAdds_bind; [apply onlyAdds_now | intros t].
  apply onlyAdds_modifyMemoryBank. intros c.
  repeat split; cbn; apply extendedTo_refl.
Qed.

Lemma onlyAdds_finishAgent start r tools : onlyAdds (finishAgent start r tools).
Proof.
  unfold finishAgent. apply onlyAdds_bind; [apply onlyAdds_recordElapsed |].
  intros _. apply onlyAdds_ret.
Qed.

Lemma onlyAdds_handleCall call : onlyAdds (handleCall call).
Proof.
  unfold handleCall.
  destruct (String.eqb (call_name call) "fetchMedicalRecords");
    [apply onlyAdds_bind; [intros s; apply stateGrows_refl
                          | intros; apply onlyAdds_ret] |].
  destruct (String.eqb (call_name call) "updateMemory"); [| apply onlyAdds_ret].
  destruct (args call) as [a |]; [| apply onlyAdds_throw].
  apply onlyAdds_bind; [apply onlyAdds_updateMemory | intros _; apply onlyAdds_ret].
Qed.

Lemma onlyAdds_toolLoop remaining start chat r tools :
  onlyAdds (toolLoop remaining start chat r tools).
Proof.
  revert r tools. induction remaining as [| n IH]; intros r tools; cbn [toolLoop].
  - destruct (functionCalls r); apply onlyAdds_finishAgent.
  - destruct (functionCalls r) as [[| call others] |];
      try apply onlyAdds_finishAgent.
    destruct (String.eqb (call_name call) "pauseWorkflow").
    + apply onlyAdds_bind; [apply onlyAdds_recordElapsed |].
      intros _. destruct (args call); [apply onlyAdds_ret | apply onlyAdds_throw].
    + apply onlyAdds_bind; [apply onlyAdds_handleCall |].
      intros [payload |]; [| apply onlyAdds_finishAgent].
      apply onlyAdds_bind; [apply onlyAdds_sendMessage | intros r'; apply IH].
Qed.

Lemma onlyAdds_executeAgent agent instruction context apiKey language :
  onlyAdds (executeAgent agent instruction context apiKey language).
Proof.
  unfold executeAgent.
  apply onlyAdds_bind; [apply onlyAdds_now | intros start].
  apply onlyAdds_bind; [apply onlyAdds_getFormattedContext | intros memory].
  apply onlyAdds_bind; [apply onlyAdds_chatsCreate | intros chat].
  apply onlyAdds_bind; [apply onlyAdds_sendMessage | intros r].
  apply onlyAdds_bind; [| intros tools; apply onlyAdds_toolLoop].
  intros s. destruct (builtInTools_pure r s) as [o ->]. apply stateGrows_refl.
Qed.

Lemma onlyAdds_sequentialLoop p todo i context outputs tools apiKey language :
  onlyAdds (sequentialLoop p todo i context outputs tools apiKey language).
Proof.
  revert i context outputs tools.
  induction todo as [| step todo IH]; intros i context outputs tools;
    cbn [sequentialLoop]; [apply onlyAdds_ret |].
  apply onlyAdds_bind; [apply onlyAdds_executeAgent | intros result].
  destruct (isPaused result); [apply onlyAdds_ret | apply IH].
Qed.

Lemma onlyAdds_settle {A} (o : Outcome A) : onlyAdds (settle (S := State env) o).
Proof. intros s. apply stateGrows_refl. Qed.

Lemma onlyAdds_afterAnswer start chat r tools remaining :
  onlyAdds (afterAnswer start chat r tools remaining).
Proof.
  assert (Hfinish : forall tools',
            onlyAdds (result <- finishAgent start r tools' ;; ret (Settled result))).
  { intros tools'. apply onlyAdds_bind;
      [apply onlyAdds_finishAgent | intros; apply onlyAdds_ret]. }
  unfold afterAnswer. destruct remaining as [| n]; [destruct (functionCalls r) |];
    try apply Hfinish.
  destruct (functionCalls r) as [[| call others] |]; try apply Hfinish.
  destruct (String.eqb (call_name call) "pauseWorkflow").
  - apply onlyAdds_bind; [apply onlyAdds_recordElapsed |].
    intros _. destruct (args call); [apply onlyAdds_ret | apply onlyAdds_throw].
  - destruct (String.eqb (call_name call) "fetchMedicalRecords");
      [apply onlyAdds_ret |].
    destruct (String.eqb (call_name call) "updateMemory").
    + destruct (args call) as [a |]; [| apply onlyAdds_throw].
      apply onlyAdds_bind; [apply onlyAdds_updateMemory | intros; apply onlyAdds_ret].
    + apply Hfinish.
Qed.

Lemma onlyAdds_resume t : onlyAdds (resume t).
Proof.
  destruct t as [start chat msg first tools remaining
                | start chat call tools remaining | result]; cbn [resume].
  - apply onlyAdds_bind; [apply onlyAdds_sendMessage | intros r].
    apply onlyAdds_bind; [| intros; apply onlyAdds_afterAnswer].
    destruct first; [| apply onlyAdds_ret].
    intros s. destruct (builtInTools_pure r s) as [o ->]. apply stateGrows_refl.
  - apply onlyAdds_bind; [apply onlyAdds_settle | intros; apply onlyAdds_ret].
  - apply onlyAdds_ret.
Qed.

Lemma onlyAdds_resumeNth k threads : onlyAdds (resumeNth k threads).
Proof.
  revert k. induction threads as [| [agent t] rest IH]; intros k; cbn [resumeNth];
    [apply onlyAdds_ret |].
  destruct (isSettled t).
  - apply onlyAdds_bind; [apply IH | intros; apply onlyAdds_ret].
  - destruct k as [| k'].
    + apply onlyAdds_bind; [apply onlyAdds_resume | intros; apply onlyAdds_ret].
    + apply onlyAdds_bind; [apply IH | intros; apply onlyAdds_ret].
Qed.

Lemma onlyAdds_awaitAll rounds threads : onlyAdds (awaitAll rounds threads).
Proof.
  revert threads. induction rounds as [| n IH]; intros threads; cbn [awaitAll];
    [apply onlyAdds_ret |].
  destruct (inFlight threads) as [| others]; [apply onlyAdds_ret |].
  intros s. exact (onlyAdds_bind _ _ (onlyAdds_resumeNth _ threads) IH s).
Qed.

Lemma onlyAdds_startAgents todo context apiKey language :
  onlyAdds (startAgents todo context apiKey language).
Proof.
  induction todo as [| step todo IH]; cbn [startAgents]; [apply onlyAdds_ret |].
  apply onlyAdds_bind.
  - unfold startAgent.
    apply onlyAdds_bind; [apply onlyAdds_now | intros start].
    apply onlyAdds_bind; [apply onlyAdds_getFormattedContext | intros memory].
    apply onlyAdds_bind; [apply onlyAdds_chatsCreate | intros chat].
    apply onlyAdds_ret.
  - intros t. apply onlyAdds_bind; [apply IH | intros; apply onlyAdds_ret].
Qed.

Lemma onlyAdds_parallelAgents todo context apiKey language :
  onlyAdds (parallelAgents todo context apiKey language).
Proof.
  unfold parallelAgents.
  apply onlyAdds_bind; [apply onlyAdds_startAgents | intros threads].
  apply onlyAdds_bind; [apply onlyAdds_awaitAll | intros; apply onlyAdds_ret].
Qed.

Lemma onlyAdds_firstStep p : onlyAdds (firstStep p).
Proof.
  unfold firstStep. destruct (steps p); auto using onlyAdds_ret, onlyAdds_throw.
Qed.

Lemma onlyAdds_executionPhase p resumeState start context outputs tools apiKey language :
  onlyAdds (executionPhase p resumeState start context outputs tools apiKey language).
Proof.
  unfold executionPhase.
  destruct (mode p), resumeState;
    repeat first
      [ apply onlyAdds_sequentialLoop
      | apply onlyAdds_ret
      | apply onlyAdds_firstStep
      | apply onlyAdds_executeAgent
      | apply onlyAdds_parallelAgents
      | apply onlyAdds_bind; [| intros ?] ].
Qed.

Lemma onlyAdds_evaluateResponse query result apiKey :
  onlyAdds (evaluateResponse query result apiKey).
Proof.
  unfold evaluateResponse.
  repeat first
    [ apply onlyAdds_now | apply onlyAdds_ret | apply onlyAdds_generateContent
    | apply onlyAdds_jsonParse
    | apply onlyAdds_tryCatch; [| intros ?]
    | apply onlyAdds_bind; [| intros ?] ].
Qed.

(** X18: a run only adds.  However [runMultiAgentSystem] ends (with an
    answer, paused, or by an exception), every metric recorded before it is
    still in the trace recorder, in place; the memory bank has lost or
    reordered none of its health conditions, learning goals, eco preferences
    and notes, and its location is unchanged. *)
Theorem run_only_adds (prompt : string) (history : list Turn) (apiKey : string)
    (language : option string) (useThinking : option bool)
    (resumeState : option PausedState) (s : State env) :
  let s' := snd (runMultiAgentSystem prompt history apiKey language useThinking
                   resumeState s) in
  extendedTo (calls s) (calls s')
  /\ extendedTo (traceService s) (traceService s')
  /\ memoryGrows (memoryBank s) (memoryBank s').
Proof.
  revert s. change (onlyAdds (runMultiAgentSystem prompt history apiKey language
                                useThinking resumeState)).
  unfold runMultiAgentSystem.
  destruct (String.eqb apiKey ""); [apply onlyAdds_throw |].
  apply onlyAdds_bind; [apply onlyAdds_now | intros overallStart].
  apply onlyAdds_bind.
  { unfold compactionPhase, compactHistory.
    destruct resumeState; [apply onlyAdds_ret |].
    destruct (0 <? length history)%nat; [| apply onlyAdds_ret].
    destruct (6 <? length history)%nat; [| apply onlyAdds_transcript].
    destruct (length history =? 0)%nat; [apply onlyAdds_ret |].
    repeat first
      [ apply onlyAdds_transcript | apply onlyAdds_ret
      | apply onlyAdds_generateContent
      | apply onlyAdds_bind; [| intros ?] ]. }
  intros contextSummary. apply onlyAdds_bind.
  { unfold planningPhase, planExecution.
    destruct resumeState; [apply onlyAdds_ret |].
    repeat first
      [ apply onlyAdds_getFormattedContext | apply onlyAdds_ret
      | apply onlyAdds_now | apply onlyAdds_generateContent
      | apply onlyAdds_recordElapsed | apply onlyAdds_jsonParse
      | apply onlyAdds_tryCatch; [| intros ?]
      | apply onlyAdds_bind; [| intros ?] ]. }
  intros locals. apply onlyAdds_bind; [apply onlyAdds_executionPhase |].
  intros [r | outputs tools]; [apply onlyAdds_ret |].
  unfold synthesisPhase.
  repeat first
    [ apply onlyAdds_getFormattedContext | apply onlyAdds_ret
    | apply onlyAdds_generateContent | apply onlyAdds_jsonParse
    | apply onlyAdds_evaluateResponse | apply onlyAdds_recordElapsed
    | apply onlyAdds_getRecentMetrics
    | apply onlyAdds_bind; [| intros ?] ].
Qed.

(** *** The fan-out: every executor is started first, and all of them settle *)

Lemma afterAnswer_bound start chat r tools remaining (s : State env) t' s' :
  afterAnswer start chat r tools remaining s = (Returned t', s') ->
  (resumptionsLeft t' < 2 * remaining + 1)%nat.
Proof.
  assert (Hfinish : forall tools',
            (result <- finishAgent start r tools' ;; ret (Settled result)) s
            = (Returned t', s') ->
            (resumptionsLeft t' < 2 * remaining + 1)%nat).
  { intros tools' H. unfold bind, ret in H.
    destruct (finishAgent start r tools' s) as [[res | e] s1]; [| discriminate H].
    injection H as <- _. cbn [resumptionsLeft]. lia. }
  unfold afterAnswer. destruct remaining as [| n]; [destruct (functionCalls r) |];
    try apply Hfinish.
  destruct (functionCalls r) as [[| call others] |]; try apply Hfinish.
  destruct (String.eqb (call_name call) "pauseWorkflow").
  - unfold bind, ret, throw.
    destruct (recordElapsed "AgentExecutionTime" start s) as [[[] | e] s1];
      [| discriminate].
    destruct (args call); [| discriminate].
    intros H. injection H as <- _. cbn [resumptionsLeft]. lia.
  - destruct (String.eqb (call_name call) "fetchMedicalRecords").
    + unfold ret. intros H. injection H as <- _. cbn [resumptionsLeft]. lia.
    + destruct (String.eqb (call_name call) "updateMemory"); [| apply Hfinish].
      destruct (args call) as [a |]; [| discriminate].
      unfold bind, ret. destruct (updateMemory a s) as [[[] | e] s1]; [| discriminate].
      intros H. injection H as <- _. cbn [resumptionsLeft]. lia.
Qed.

Lemma resume_bound t (s : State env) t' s' :
  isSettled t = false ->
  resume t s = (Returned t', s') ->
  (resumptionsLeft t' < resumptionsLeft t)%nat.
Proof.
  destruct t as [start chat msg first tools remaining
                | start chat call tools remaining | result];
    [| | discriminate]; intros _; cbn [resume resumptionsLeft].
  - unfold bind at 1. destruct (callSendMessage chat msg s) as [[r | e] s1];
      [| discriminate].
    unfold bind at 1.
    destruct ((if first then builtInTools r else ret tools) s1) as [[tools' | e] s2];
      [| discriminate].
    apply afterAnswer_bound.
  - unfold bind, settle, ret.
    destruct (OPENAPI_TOOL_SIMULATION (call_name call) (args call)); [| discriminate].
    intros H. injection H as <- _. cbn [resumptionsLeft]. lia.
Qed.

Lemma resumeNth_effect k threads (s : State env) threads' s' :
  (k < inFlight threads)%nat ->
  resumeNth k threads s = (Returned threads', s') ->
  map fst threads' = map fst threads
  /\ (totalResumptions threads' < totalResumptions threads)%nat.
Proof.
  unfold inFlight, totalResumptions, list_sum.
  revert k s threads' s'.
  induction threads as [| [agent t] rest IH]; intros k s threads' s' Hk H;
    [cbn in Hk; lia |].
  cbn [resumeNth] in H. cbn [filter snd] in Hk.
  destruct (isSettled t) eqn:Et; cbn [negb] in Hk.
  - unfold bind, ret in H.
    destruct (resumeNth k rest s) as [[rest' | e] s1] eqn:E; [| discriminate H].
    injection H as <- <-. destruct (IH _ _ _ _ Hk E) as [Hm Hlt].
    cbn [map fst snd fold_right]. split; [now rewrite Hm | lia].
  - destruct k as [| k'].
    + unfold bind, ret in H.
      destruct (resume t s) as [[t' | e] s1] eqn:E; [| discriminate H].
      injection H as <- <-. pose proof (resume_bound _ _ _ _ Et E).
      cbn [map fst snd fold_right]. split; [reflexivity | lia].
    + unfold bind, ret in H. cbn [length] in Hk.
      destruct (resumeNth k' rest s) as [[rest' | e] s1] eqn:E; [| discriminate H].
      injection H as <- <-. apply Nat.succ_lt_mono in Hk.
      destruct (IH _ _ _ _ Hk E) as [Hm Hlt].
      cbn [map fst snd fold_right]. split; [now rewrite Hm | lia].
Qed.

Lemma nothing_left_nothing_in_flight threads :
  totalResumptions threads = 0%nat -> inFlight threads = 0%nat.
Proof.
  unfold totalResumptions, inFlight, list_sum.
  induction threads as [| [agent t] rest IH]; [reflexivity |].
  cbn [map snd fold_right filter]. intros H.
  destruct t; cbn [resumptionsLeft isSettled negb] in *; lia.
Qed.

Lemma awaitAll_effect rounds :
  forall threads (s : State env) threads' s',
    (totalResumptions threads <= rounds)%nat ->
    awaitAll rounds threads s = (Returned threads', s') ->
    map fst threads' = map fst threads /\ inFlight threads' = 0%nat.
Proof.
  induction rounds as [| n IH]; intros threads s threads' s' Hle H;
    cbn [awaitAll] in H.
  - unfold ret in H. injection H as <- _.
    split; [reflexivity | apply nothing_left_nothing_in_flight; lia].
  - destruct (inFlight threads) as [| others] eqn:Ein.
    + unfold ret in H. injection H as <- _. now split.
    + unfold bind in H.
      destruct (resumeNth (nextToSettle (world s) (S others) mod S others) threads s)
        as [[threads1 | e] s1] eqn:E; [| discriminate H].
      assert (Hk : (nextToSettle (world s) (S others) mod S others
                    < inFlight threads)%nat)
        by (rewrite Ein; apply Nat.mod_upper_bound; lia).
      destruct (resumeNth_effect _ _ _ _ _ Hk E) as [Hm Hlt].
      assert (Hle1 : (totalResumptions threads1 <= n)%nat) by lia.
      destruct (IH threads1 s1 threads' s' Hle1 H) as [Hm' Hdone].
      split; [now rewrite Hm', Hm | exact Hdone].
Qed.

Lemma startAgents_effect todo context apiKey language (s : State env) :
  exists threads s',
    startAgents todo context apiKey language s = (Returned threads, s')
    /\ map fst threads = map agent todo
    /\ totalResumptions threads = (11 * length todo)%nat
    /\ calls s'
       = calls s
         ++ map (fun step =>
                   ChatCreateCall
                     {| chat_model := MODEL_FLASH;
                        chat_systemInstruction :=
                          agentSystemInstruction (agent step) context language
                            (MemoryBankService.getFormattedContext (memoryBank s)) |})
              todo
    /\ memoryBank s' = memoryBank s
    /\ traceService s' = traceService s.
Proof.
  revert s. induction todo as [| step todo IH]; intros s; cbn [startAgents].
  - exists [], s. cbn [map]. rewrite app_nil_r. now repeat split.
  - unfold bind at 1. unfold startAgent.
    unfold bind at 1. unfold now. destruct (Date_now (world s)) as [start w0].
    unfold bind at 1. unfold getFormattedContext at 1.
    unfold bind at 1. unfold callChatsCreate. cbn [world setWorld memoryBank].
    destruct (chats_create apiKey _ w0) as [chat w1].
    unfold ret at 1. unfold bind at 1.
    match goal with
    | |- context [startAgents todo context apiKey language ?st] =>
        destruct (IH st) as [threads [s' [E [Hm [Ht [Hc [Hb Hr]]]]]]]
    end.
    rewrite E. unfold ret.
    eexists; eexists. split; [reflexivity |].
    cbn [map fst snd length]. unfold totalResumptions, list_sum in *.
    cbn [map snd fold_right resumptionsLeft].
    split; [now rewrite Hm |]. split; [rewrite Ht; lia |].
    split; [rewrite Hc; cbn [calls memoryBank addCall setWorld];
            now rewrite <- app_assoc |].
    split; [rewrite Hb | rewrite Hr]; reflexivity.
Qed.

Lemma settledResults_all threads :
  inFlight threads = 0%nat -> map fst (settledResults threads) = map fst threads.
Proof.
  unfold inFlight, settledResults.
  induction threads as [| [agent t] rest IH]; [reflexivity |].
  cbn [filter snd flat_map fst map].
  destruct t; cbn [isSettled negb length]; try discriminate.
  intros H. cbn [app map fst]. now rewrite IH.
Qed.

(** [Promise.all] hands over one result for each step, in plan order. *)
Lemma parallelAgents_in_plan_order todo context apiKey language (s : State env)
    results s' :
  parallelAgents todo context apiKey language s = (Returned results, s') ->
  map fst results = map agent todo.
Proof.
  unfold parallelAgents. unfold bind at 1.
  destruct (startAgents_effect todo context apiKey language s)
    as [threads [s1 [E [Hm [Ht _]]]]].
  rewrite E. unfold bind, ret.
  destruct (awaitAll (11 * length todo) threads s1) as [[settled | e] s2] eqn:Ea;
    [| discriminate].
  intros H. injection H as <- _.
  assert (Hle : (totalResumptions threads <= 11 * length todo)%nat) by lia.
  destruct (awaitAll_effect _ _ _ _ _ Hle Ea) as [Hm' Hdone].
  now rewrite (settledResults_all _ Hdone), Hm', Hm.
Qed.

(** The calls of the fan-out: first one chat is created for every step, each
    from the memory bank as it is before the fan-out, and only then are
    messages exchanged. *)
Lemma parallelAgents_starts_every_agent_first todo context apiKey language
    (s : State env) :
  exists messages,
    calls (snd (parallelAgents todo context apiKey language s))
    = calls s
      ++ map (fun step =>
                ChatCreateCall
                  {| chat_model := MODEL_FLASH;
                     chat_systemInstruction :=
                       agentSystemInstruction (agent step) context language
                         (MemoryBankService.getFormattedContext (memoryBank s)) |})
           todo
      ++ messages
    /\ Forall isMessage messages.
Proof.
  unfold parallelAgents. unfold bind at 1.
  destruct (startAgents_effect todo context apiKey language s)
    as [threads [s1 [E [_ [_ [Hc _]]]]]].
  rewrite E. unfold bind, ret.
  destruct (onlyCalls_awaitAll (11 * length todo) threads s1) as [evs [Ecalls Hall]].
  exists evs. split; [| exact Hall].
  destruct (awaitAll (11 * length todo) threads s1) as [[settled | e] s2];
    cbn [snd] in *; now rewrite Ecalls, Hc, <- app_assoc.
Qed.

(** *** One executor on its own runs as [executeAgent] does *)

Lemma bind_assoc {S A B C} (m : M S A) (k : A -> M S B) (h : B -> M S C) (s : S) :
  bind (bind m k) h s = bind m (fun a => bind (k a) h) s.
Proof. unfold bind. now destruct (m s) as [[a | e] s1]. Qed.

Lemma bind_run {S A B} (m : M S A) (k k' : A -> M S B) (s : S) :
  (forall a s1, k a s1 = k' a s1) -> bind m k s = bind m k' s.
Proof. intros H. unfold bind. destruct (m s) as [[a | e] s1]; [apply H | reflexivity]. Qed.

Lemma bind_ret {S A B} (a : A) (k : A -> M S B) (s : S) : bind (ret a) k s = k a s.
Proof. reflexivity. Qed.

Lemma bind_same {S A B} (m m' : M S A) (k : A -> M S B) (s : S) :
  m s = m' s -> bind m k s = bind m' k s.
Proof. intros H. unfold bind. now rewrite H. Qed.

Lemma awaitAll_settled rounds agent result (s : State env) :
  awaitAll rounds [(agent, Settled result)] s = (Returned [(agent, Settled result)], s).
Proof. now destruct rounds. Qed.

Lemma awaitAll_waiting rounds agent t (s : State env) :
  isSettled t = false ->
  awaitAll (S rounds) [(agent, t)] s
  = bind (resume t) (fun t' => awaitAll rounds [(agent, t')]) s.
Proof.
  intros Ht. cbn [awaitAll]. unfold inFlight. cbn [filter snd length]. rewrite Ht.
  cbn [negb length]. rewrite Nat.mod_1_r. cbn [resumeNth]. rewrite Ht.
  rewrite bind_assoc. apply bind_run. reflexivity.
Qed.

Lemma afterAnswer_toolLoop remaining :
  forall rounds start chat r tools agent (s : State env),
    (2 * remaining <= rounds)%nat ->
    bind (afterAnswer start chat r tools remaining)
      (fun t => awaitAll rounds [(agent, t)]) s
    = bind (toolLoop remaining start chat r tools)
        (fun result => ret [(agent, Settled result)]) s.
Proof.
  assert (Hfinish : forall rounds start r tools agent (s : State env),
            bind (result <- finishAgent start r tools ;; ret (Settled result))
              (fun t => awaitAll rounds [(agent, t)]) s
            = bind (finishAgent start r tools)
                (fun result => ret [(agent, Settled result)]) s).
  { intros rounds start r tools agent s. rewrite bind_assoc. apply bind_run.
    intros result s1. unfold bind, ret. apply awaitAll_settled. }
  induction remaining as [| n IH]; intros rounds start chat r tools agent s Hle.
  - unfold afterAnswer. cbn [toolLoop]. destruct (functionCalls r); apply Hfinish.
  - unfold afterAnswer. cbn [toolLoop].
    destruct (functionCalls r) as [[| call others] |]; try apply Hfinish.
    destruct (String.eqb (call_name call) "pauseWorkflow") eqn:Epause.
    + rewrite !bind_assoc. apply bind_run. intros _ s1.
      destruct (args call) as [a |]; [| reflexivity].
      unfold bind, ret. apply awaitAll_settled.
    + unfold handleCall.
      destruct (String.eqb (call_name call) "fetchMedicalRecords") eqn:Efetch.
      * destruct rounds as [| rounds]; [lia |].
        rewrite bind_ret.
        rewrite awaitAll_waiting by reflexivity. cbn [resume].
        rewrite !bind_assoc. apply bind_run. intros apiResult s1.
        rewrite ?bind_ret.
        destruct rounds as [| rounds]; [lia |].
        rewrite awaitAll_waiting by reflexivity. cbn [resume].
        rewrite !bind_assoc. apply bind_run. intros r' s2.
        rewrite ?bind_ret. apply IH. lia.
      * destruct (String.eqb (call_name call) "updateMemory") eqn:Eupdate.
        -- destruct (args call) as [a |]; [| reflexivity].
           rewrite !bind_assoc. apply bind_run. intros _ s1.
           rewrite ?bind_ret.
           destruct rounds as [| rounds]; [lia |].
           rewrite awaitAll_waiting by reflexivity. cbn [resume].
           rewrite !bind_assoc. apply bind_run. intros r' s2.
           rewrite ?bind_ret. apply IH. lia.
        -- rewrite (bind_assoc (ret None)). rewrite bind_ret. apply Hfinish.
Qed.

(** A fan-out of one step is one executor invocation. *)
Lemma parallelAgents_of_one_step step context apiKey language (s : State env) :
  parallelAgents [step] context apiKey language s
  = bind (executeAgent (agent step) (instruction step) context apiKey language)
      (fun result => ret [(agent step, result)]) s.
Proof.
  unfold parallelAgents, executeAgent. cbn [startAgents length Nat.mul Nat.add].
  unfold startAgent. rewrite !bind_assoc. apply bind_run. intros start s1.
  rewrite !bind_assoc. apply bind_run. intros memory s2.
  rewrite !bind_assoc. apply bind_run. intros chat s3.
  assert (Hrun : awaitAll 11
                   [(agent step,
                     AwaitsAnswer start chat (Instruction (instruction step)) true [] 5)]
                   s3
                 = bind (callSendMessage chat (Instruction (instruction step)))
                     (fun r =>
                        tools <- builtInTools r ;;
                        result <- toolLoop 5 start chat r tools ;;
                        ret [(agent step, Settled result)]) s3).
  { rewrite awaitAll_waiting by reflexivity. cbn [resume].
    rewrite !bind_assoc. apply bind_run. intros r s4.
    rewrite !bind_assoc. apply bind_run. intros tools s5.
    apply afterAnswer_toolLoop. lia. }
  transitivity
    (bind (awaitAll 11
             [(agent step,
               AwaitsAnswer start chat (Instruction (instruction step)) true [] 5)])
       (fun settled => ret (settledResults settled)) s3); [reflexivity |].
  rewrite (bind_same _ _ _ _ Hrun).
  rewrite !bind_assoc. apply bind_run. intros r s4.
  rewrite !bind_assoc. apply bind_run. intros tools s5.
  rewrite !bind_assoc. apply bind_run. intros result s6.
  reflexivity.
Qed.

End Properties.

(** C7, category "profile": the name is not the only field that changes.
    With the clock at 7 and a bank last touched at 0, [lastInteraction]
    becomes 7. *)
Lemma updateMemory_profile_stamps_lastInteraction :
  lastInteraction
    (memoryBank (snd (@updateMemory quiet profileArgs (initialState quiet 7%Z))))
  <> lastInteraction (memoryBank (initialState quiet 7%Z)).
Proof. vm_compute. discriminate. Qed.

(** ** The memory bank with its arrays as objects *)

Section SharedArrays.
Import MemoryBankObjects.

Lemma deref_assign_same (h : Heap) (r : Ref) (l : list string) :
  (r < length h)%nat -> deref (assign h r l) r = l.
Proof.
  unfold deref. revert r. induction h as [| c h IH]; intros [| r] Hr;
    cbn [length] in Hr; try lia; cbn [assign nth]; [reflexivity |].
  apply IH. lia.
Qed.

Lemma deref_assign_other (h : Heap) (r r' : Ref) (l : list string) :
  r <> r' -> deref (assign h r l) r' = deref h r'.
Proof.
  unfold deref. revert r r'. induction h as [| c h IH]; intros [| r] [| r'] Hne;
    cbn [assign nth]; try reflexivity; try congruence.
  apply IH. congruence.
Qed.

Lemma length_assign (h : Heap) (r : Ref) (l : list string) :
  length (assign h r l) = length h.
Proof.
  revert r. induction h as [| c h IH]; intros [| r]; cbn [assign length];
    try reflexivity. now rewrite IH.
Qed.

Lemma deref_alloc_old (h : Heap) (l : list string) (r : Ref) :
  (r < length h)%nat -> deref (h ++ [l]) r = deref h r.
Proof. intros Hr. unfold deref. now apply app_nth1. Qed.

Lemma deref_alloc_new (h : Heap) (l : list string) :
  deref (h ++ [l]) (length h) = l.
Proof.
  unfold deref. rewrite app_nth2 by lia.
  now replace (length h - length h)%nat with 0%nat by lia.
Qed.

Lemma pushUnique_view (r : Ref) (x : string) (svc : Service) :
  (r < length (heap svc))%nat ->
  deref (heap (pushUnique r x svc)) r = appendUnique (deref (heap svc) r) x
  /\ (forall r', r' <> r -> deref (heap (pushUnique r x svc)) r' = deref (heap svc) r')
  /\ length (heap (pushUnique r x svc)) = length (heap svc)
  /\ context (pushUnique r x svc) = context svc
  /\ loadedAt (pushUnique r x svc) = loadedAt svc.
Proof.
  intros Hr. rewrite <- includes_appendUnique. unfold pushUnique.
  destruct (includes (deref (heap svc) r) x); cbn [negb heap context loadedAt].
  - now repeat split.
  - split; [now apply deref_assign_same |].
    split; [intros r' Hne; apply deref_assign_other; congruence |].
    split; [apply length_assign | now split].
Qed.

(** X23: [clear()] does not empty the lists.  It makes the context refer
    to the arrays of [DEFAULT_CONTEXT] again, whatever they hold by then: what
    a reader sees after [clear()] is the contents of those four arrays.  So an
    item added after one [clear()] is still stored after the next, and on a
    bank constructed without a stored snapshot, whose context shares those
    arrays from the start, a note added and then cleared is still the one
    note of the bank. *)
Theorem clear_keeps_what_was_pushed (svc : Service) (x : string) (t : Z) :
  (4 <= length (heap svc))%nat ->
  (healthConditions (view (clear svc)) = deref (heap svc) 0
   /\ learningGoals (view (clear svc)) = deref (heap svc) 1
   /\ ecoPreferences (view (clear svc)) = deref (heap svc) 2
   /\ notes (view (clear svc)) = deref (heap svc) 3)
  /\ In x (notes (view (clear (addNote x (clear svc)))))
  /\ (forall key,
        In x (MemoryBankService.getArray key
                (view (clear (addArrayItem key x (clear svc))))))
  /\ notes (view (clear (addNote x (construct None t)))) = [x].
Proof.
  intros Hheap.
  assert (Hin : forall l, In x (appendUnique l x)).
  { intros l. unfold appendUnique. destruct (in_dec string_dec x l);
      [assumption | apply in_or_app; right; now left]. }
  split; [now repeat split |]. split; [| split].
  - unfold addNote. cbn [context clear o_notes DEFAULT_CONTEXT view notes heap].
    destruct (pushUnique_view 3 x (clear svc)) as [Hd _]; [cbn [heap clear]; lia |].
    cbn [clear] in Hd |- *. rewrite Hd. apply Hin.
  - intros key. unfold addArrayItem.
    destruct (pushUnique_view (arrayOf key (context (clear svc))) x (clear svc))
      as [Hd _]; [destruct key; cbn; lia |].
    destruct key;
      cbn [arrayOf context clear DEFAULT_CONTEXT o_healthConditions o_learningGoals
             o_ecoPreferences] in Hd;
      cbn [MemoryBankService.getArray view healthConditions learningGoals
             ecoPreferences clear heap context arrayOf DEFAULT_CONTEXT
             o_healthConditions o_learningGoals o_ecoPreferences];
      rewrite Hd; apply Hin.
  - reflexivity.
Qed.

Lemma place_spec (field : option (list string)) (r : Ref) (h : Heap) :
  (r < length h)%nat ->
  deref (fst (place field r h)) (snd (place field r h))
    = MemoryBankService.orElse field (deref h r)
  /\ (forall q, (q < length h)%nat -> deref (fst (place field r h)) q = deref h q)
  /\ (length h <= length (fst (place field r h)))%nat
  /\ (snd (place field r h) < length (fst (place field r h)))%nat
  /\ (snd (place field r h) = r \/ (length h <= snd (place field r h))%nat).
Proof.
  intros Hr. destruct field as [l |]; cbn [place alloc fst snd MemoryBankService.orElse].
  - split; [apply deref_alloc_new |].
    split; [intros q Hq; now apply deref_alloc_old |].
    rewrite length_app. cbn [length]. repeat split; lia.
  - repeat split; lia.
Qed.

Lemma spreadOver_spec (u : MemoryBankService.Updates) (last : Z)
    (base : ContextObject) (h : Heap) :
  NoDup [ o_healthConditions base; o_learningGoals base;
          o_ecoPreferences base; o_notes base ] ->
  Forall (fun r => r < length h)%nat
    [ o_healthConditions base; o_learningGoals base;
      o_ecoPreferences base; o_notes base ] ->
  let h' := fst (spreadOver u last base h) in
  let c' := snd (spreadOver u last base h) in
  deref h' (o_healthConditions c')
    = MemoryBankService.orElse (MemoryBankService.u_healthConditions u)
        (deref h (o_healthConditions base))
  /\ deref h' (o_learningGoals c')
     = MemoryBankService.orElse (MemoryBankService.u_learningGoals u)
         (deref h (o_learningGoals base))
  /\ deref h' (o_ecoPreferences c')
     = MemoryBankService.orElse (MemoryBankService.u_ecoPreferences u)
         (deref h (o_ecoPreferences base))
  /\ deref h' (o_notes c')
     = MemoryBankService.orElse (MemoryBankService.u_notes u) (deref h (o_notes base))
  /\ o_name c' = MemoryBankService.orElse (MemoryBankService.u_name u) (o_name base)
  /\ o_location c'
     = MemoryBankService.orElse (MemoryBankService.u_location u) (o_location base)
  /\ o_lastInteraction c' = last
  /\ NoDup [ o_healthConditions c'; o_learningGoals c';
             o_ecoPreferences c'; o_notes c' ]
  /\ Forall (fun r => r < length h')%nat
       [ o_healthConditions c'; o_learningGoals c';
         o_ecoPreferences c'; o_notes c' ].
Proof.
  intros Hnd Hvalid.
  inversion Hvalid as [| ? ? V1 Hv1]; subst.
  inversion Hv1 as [| ? ? V2 Hv2]; subst.
  inversion Hv2 as [| ? ? V3 Hv3]; subst.
  inversion Hv3 as [| ? ? V4 _]; subst.
  assert (D : o_healthConditions base <> o_learningGoals base
              /\ o_healthConditions base <> o_ecoPreferences base
              /\ o_healthConditions base <> o_notes base
              /\ o_learningGoals base <> o_ecoPreferences base
              /\ o_learningGoals base <> o_notes base
              /\ o_ecoPreferences base <> o_notes base).
  { inversion Hnd as [| ? ? N1 Hn1]; subst.
    inversion Hn1 as [| ? ? N2 Hn2]; subst.
    inversion Hn2 as [| ? ? N3 _]; subst.
    cbn [In] in N1, N2, N3. repeat split; intros E; intuition congruence. }
  destruct D as [D12 [D13 [D14 [D23 [D24 D34]]]]].
  unfold spreadOver. cbv zeta.
  destruct (place_spec (MemoryBankService.u_healthConditions u)
              (o_healthConditions base) h V1) as [P1 [K1 [L1 [B1 F1]]]].
  destruct (place (MemoryBankService.u_healthConditions u)
              (o_healthConditions base) h) as [h1 r1]. cbn [fst snd] in *.
  destruct (place_spec (MemoryBankService.u_learningGoals u)
              (o_learningGoals base) h1 ltac:(lia)) as [P2 [K2 [L2 [B2 F2]]]].
  destruct (place (MemoryBankService.u_learningGoals u)
              (o_learningGoals base) h1) as [h2 r2]. cbn [fst snd] in *.
  destruct (place_spec (MemoryBankService.u_ecoPreferences u)
              (o_ecoPreferences base) h2 ltac:(lia)) as [P3 [K3 [L3 [B3 F3]]]].
  destruct (place (MemoryBankService.u_ecoPreferences u)
              (o_ecoPreferences base) h2) as [h3 r3]. cbn [fst snd] in *.
  destruct (place_spec (MemoryBankService.u_notes u)
              (o_notes base) h3 ltac:(lia)) as [P4 [K4 [L4 [B4 F4]]]].
  destruct (place (MemoryBankService.u_notes u) (o_notes base) h3) as [h4 r4].
  cbn [fst snd o_healthConditions o_learningGoals o_ecoPreferences o_notes
         o_name o_location o_lastInteraction] in *.
  split; [rewrite K4, K3, K2 by lia; exact P1 |].
  split; [rewrite K4, K3 by lia; rewrite P2; f_equal; apply K1; lia |].
  split; [rewrite K4 by lia; rewrite P3; f_equal; rewrite K2 by lia; apply K1; lia |].
  split; [rewrite P4; f_equal; rewrite K3, K2 by lia; apply K1; lia |].
  split; [reflexivity |]. split; [reflexivity |]. split; [reflexivity |].
  split.
  - repeat constructor; cbn [In]; intuition lia.
  - repeat constructor; lia.
Qed.


(** X25: constructing the bank.  Without a stored snapshot the reader sees
    the defaults.  With one, every field the snapshot has wins over the
    default and every field it lacks keeps the default (for the lists, the
    empty one); either way the four lists start out as four different
    arrays. *)
Theorem construct_overlays_snapshot_on_defaults
    (snapshot : MemoryBankService.Updates) (t : Z) :
  view (construct None t) = MemoryBankService.DEFAULT_CONTEXT t
  /\ distinctArrays (construct None t)
  /\ view (construct (Some snapshot) t)
     = {| name := MemoryBankService.orElse (MemoryBankService.u_name snapshot) "User";
          location :=
            MemoryBankService.orElse (MemoryBankService.u_location snapshot) "Unknown";
          healthConditions :=
            MemoryBankService.orElse (MemoryBankService.u_healthConditions snapshot) [];
          learningGoals :=
            MemoryBankService.orElse (MemoryBankService.u_learningGoals snapshot) [];
          ecoPreferences :=
            MemoryBankService.orElse (MemoryBankService.u_ecoPreferences snapshot) [];
          notes := MemoryBankService.orElse (MemoryBankService.u_notes snapshot) [];
          lastInteraction :=
            MemoryBankService.orElse (MemoryBankService.u_lastInteraction snapshot) t |}
  /\ distinctArrays (construct (Some snapshot) t).
Proof.
  assert (Hnd : NoDup [0; 1; 2; 3]%nat)
    by (repeat constructor; cbn [In]; intuition lia).
  assert (Hvalid : Forall (fun r => r < length initialHeap)%nat [0; 1; 2; 3]%nat)
    by (repeat constructor; cbn; lia).
  split; [reflexivity |]. split; [now split |].
  pose proof (spreadOver_spec snapshot
                (MemoryBankService.orElse
                   (MemoryBankService.u_lastInteraction snapshot) t)
                (DEFAULT_CONTEXT t) initialHeap Hnd Hvalid) as Hs.
  cbv zeta in Hs.
  destruct Hs as [S1 [S2 [S3 [S4 [Sn [Sl [St [Snd Sv]]]]]]]].
  unfold construct, distinctArrays, view.
  destruct (spreadOver snapshot _ (DEFAULT_CONTEXT t) initialHeap) as [h' c'].
  cbn [fst snd heap context] in *. split; [| now split].
  now rewrite S1, S2, S3, S4, Sn, Sl, St.
Qed.

Lemma place_keeps (field : option (list string)) (r q : Ref) (h : Heap) :
  (q < length h)%nat ->
  deref (fst (place field r h)) q = deref h q
  /\ (length h <= length (fst (place field r h)))%nat.
Proof.
  intros Hq. destruct field as [l |]; cbn [place alloc fst].
  - split; [now apply deref_alloc_old | rewrite length_app; lia].
  - split; [reflexivity | lia].
Qed.

Lemma spreadOver_keeps (u : MemoryBankService.Updates) (last : Z)
    (base : ContextObject) (h : Heap) (q : Ref) :
  (q < length h)%nat -> deref (fst (spreadOver u last base h)) q = deref h q.
Proof.
  intros Hq. unfold spreadOver.
  destruct (place_keeps (MemoryBankService.u_healthConditions u)
              (o_healthConditions base) q h Hq) as [K1 L1].
  destruct (place (MemoryBankService.u_healthConditions u)
              (o_healthConditions base) h) as [h1 r1]. cbn [fst] in *.
  destruct (place_keeps (MemoryBankService.u_learningGoals u)
              (o_learningGoals base) q h1 ltac:(lia)) as [K2 L2].
  destruct (place (MemoryBankService.u_learningGoals u)
              (o_learningGoals base) h1) as [h2 r2]. cbn [fst] in *.
  destruct (place_keeps (MemoryBankService.u_ecoPreferences u)
              (o_ecoPreferences base) q h2 ltac:(lia)) as [K3 L3].
  destruct (place (MemoryBankService.u_ecoPreferences u)
              (o_ecoPreferences base) h2) as [h3 r3]. cbn [fst] in *.
  destruct (place_keeps (MemoryBankService.u_notes u)
              (o_notes base) q h3 ltac:(lia)) as [K4 L4].
  destruct (place (MemoryBankService.u_notes u) (o_notes base) h3) as [h4 r4].
  cbn [fst] in *. congruence.
Qed.

(** X29: the object returned by [getContext()] is a copy of the context
    that shares its arrays.  It reads like the bank at the time of the call;
    an item pushed by a later [addNote] or [addArrayItem] shows through the
    copy, while a later [updateContext], which replaces the bank's context
    and the arrays it is given, leaves what the copy reads as it was. *)
Theorem getContext_copy_shares_arrays (svc : Service) (x : string)
    (key : MemoryBankService.ArrayKey) (u : MemoryBankService.Updates) (now : Z) :
  distinctArrays svc ->
  let copy := getContext svc in
  readThrough (heap svc) copy = view svc
  /\ readThrough (heap (addNote x svc)) copy
     = MemoryBankService.addNote x (view svc)
  /\ readThrough (heap (addArrayItem key x svc)) copy
     = MemoryBankService.addArrayItem key x (view svc)
  /\ readThrough (heap (updateContext u now svc)) copy = view svc.
Proof.
  intros [Hnd Hvalid]. cbv zeta. unfold getContext.
  inversion Hvalid as [| ? ? V1 Hv1]; subst.
  inversion Hv1 as [| ? ? V2 Hv2]; subst.
  inversion Hv2 as [| ? ? V3 Hv3]; subst.
  inversion Hv3 as [| ? ? V4 _]; subst. clear Hvalid Hv1 Hv2 Hv3.
  assert (D : o_healthConditions (context svc) <> o_learningGoals (context svc)
              /\ o_healthConditions (context svc) <> o_ecoPreferences (context svc)
              /\ o_healthConditions (context svc) <> o_notes (context svc)
              /\ o_learningGoals (context svc) <> o_ecoPreferences (context svc)
              /\ o_learningGoals (context svc) <> o_notes (context svc)
              /\ o_ecoPreferences (context svc) <> o_notes (context svc)).
  { inversion Hnd as [| ? ? N1 Hn1]; subst.
    inversion Hn1 as [| ? ? N2 Hn2]; subst.
    inversion Hn2 as [| ? ? N3 _]; subst.
    cbn [In] in N1, N2, N3. repeat split; intros E; intuition congruence. }
  destruct D as [D12 [D13 [D14 [D23 [D24 D34]]]]].
  split; [reflexivity |]. split; [| split].
  - rewrite addNote_record. unfold addNote.
    destruct (pushUnique_view (o_notes (context svc)) x svc V4) as [Hd [Ho _]].
    unfold readThrough, view. cbv zeta. rewrite Hd, !Ho by congruence. reflexivity.
  - rewrite addArrayItem_record. unfold addArrayItem.
    destruct key; cbn [arrayOf];
      match goal with
      | |- context [pushUnique ?r x svc] =>
          destruct (pushUnique_view r x svc ltac:(assumption)) as [Hd [Ho _]]
      end;
      unfold readThrough, view; cbv zeta; rewrite Hd, !Ho by congruence;
      reflexivity.
  - unfold updateContext, readThrough, view. cbv zeta.
    pose proof (spreadOver_keeps u now (context svc) (heap svc)) as Hk.
    destruct (spreadOver u now (context svc) (heap svc)) as [h' c'].
    cbn [fst heap] in *. now rewrite !Hk by assumption.
Qed.

End SharedArrays.

(** ** Image and video generation *)

Section MediaProperties.
Import Media.
Context {studio : Studio}.

Lemma firstInlineData_finds (ps : list ResponsePart) (failure : string) (s : Stage) :
  (exists before d after,
      ps = before ++ {| inlineData := Some d |} :: after
      /\ Forall noInlineData before
      /\ firstInlineData ps failure s = (Returned (dataUrl d), s))
  \/ (Forall noInlineData ps
      /\ firstInlineData ps failure s = (Thrown (Error failure), s)).
Proof.
  induction ps as [| [[d |]] rest IH]; cbn [firstInlineData inlineData].
  - right. split; [constructor | reflexivity].
  - left. exists [], d, rest. repeat split. constructor.
  - destruct IH as [[before [d [after [-> [Hb Hr]]]]] | [Hall Hr]].
    + left. exists ({| inlineData := None |} :: before), d, after.
      repeat split; [| exact Hr]. constructor; [reflexivity | exact Hb].
    + right. split; [| exact Hr]. constructor; [reflexivity | exact Hall].
Qed.

Lemma awaitDone_reaches (apiKey : string) (operation : Operation) (w : Backstage)
    (n : nat) (final : Operation) (w' : Backstage) :
  doneAfter apiKey operation w n final w' ->
  forall (rounds : nat) (before : list Action),
    (n <= rounds)%nat ->
    exists polls,
      awaitDone rounds apiKey operation {| backstage := w; actions := before |}
        = (Returned (Some final), {| backstage := w'; actions := before ++ polls |})
      /\ length polls = (2 * n)%nat
      /\ roundsOnly polls = true.
Proof.
  induction 1 as [operation w Hdone | operation w next w' n final w'' Hrun Hget _ IH];
    intros rounds before Hle.
  - exists []. rewrite app_nil_r.
    destruct rounds; cbn [awaitDone]; rewrite Hdone; now repeat split.
  - destruct rounds as [| rounds]; [lia |].
    destruct (IH rounds
                ((before ++ [Sleep 5000]) ++ [GetVideosOperation apiKey operation])
                ltac:(lia)) as [polls [Hrest [Hlen Hshape]]].
    exists (Sleep 5000 :: GetVideosOperation apiKey operation :: polls).
    split; [| split].
    + cbn [awaitDone]. rewrite Hrun. unfold bind, act.
      cbn [backstage actions]. rewrite Hget. rewrite Hrest.
      now rewrite <- !app_assoc.
    + cbn [length]. lia.
    + cbn [roundsOnly isSleep isStatusRequest]. now rewrite Hshape.
Qed.

Lemma awaitDone_keeps_waiting (apiKey : string) :
  (forall operation w, done operation = false ->
     exists next w',
       operations_getVideosOperation apiKey operation w = (Returned next, w')
       /\ done next = false) ->
  forall (rounds : nat) (operation : Operation) (s : Stage),
    done operation = false ->
    fst (awaitDone rounds apiKey operation s) = Returned None
    /\ exists polls,
         actions (snd (awaitDone rounds apiKey operation s)) = actions s ++ polls
         /\ length polls = (2 * rounds)%nat
         /\ roundsOnly polls = true.
Proof.
  intros Hstall. induction rounds as [| rounds IH]; intros operation s Hrun;
    cbn [awaitDone]; rewrite Hrun.
  - split; [reflexivity |]. exists []. now rewrite app_nil_r.
  - destruct (Hstall operation (setTimeout 5000 (backstage s)) Hrun)
      as [next [w' [Hget Hnext]]].
    unfold bind, act. cbn [backstage actions]. rewrite Hget.
    destruct (IH next
                {| backstage := w';
                   actions := (actions s ++ [Sleep 5000])
                                ++ [GetVideosOperation apiKey operation] |} Hnext)
      as [Hout [polls [Hact [Hlen Hshape]]]].
    split; [exact Hout |].
    exists (Sleep 5000 :: GetVideosOperation apiKey operation :: polls).
    split; [| split].
    + rewrite Hact. cbn [actions]. now rewrite <- !app_assoc.
    + cbn [length]. lia.
    + cbn [roundsOnly isSleep isStatusRequest]. now rewrite Hshape.
Qed.


(** X27: [editImage] reads the file first.  When the file cannot be read the
    call fails with that error and the model is never asked.  Otherwise the
    model is asked once, with the image part before the prompt and without an
    image configuration, and the answer is read as in [generateImage], with
    the message "Image editing failed or returned no data." when no part
    carries inline data. *)
Theorem editImage_reads_file_then_asks_once (file : File) (prompt apiKey : string)
    (s : Stage) :
  let out := editImage file prompt apiKey s in
  match fileToPart file (backstage s) with
  | (Thrown e, w) =>
      out = (Thrown e, {| backstage := w; actions := actions s ++ [ReadFile file] |})
  | (Returned imagePart, w) =>
      let req := {| image_model := "gemini-2.5-flash-image";
                    image_parts := [InlinePart imagePart; TextPart prompt];
                    imageConfig := None |} in
      actions (snd out) = actions s ++ [ReadFile file; GenerateImage apiKey req]
      /\ backstage (snd out) = snd (models_generateContent apiKey req w)
      /\ match fst (models_generateContent apiKey req w) with
         | Thrown e => fst out = Thrown e
         | Returned response =>
             (exists before d after,
                 firstCandidateParts response
                   = before ++ {| inlineData := Some d |} :: after
                 /\ Forall noInlineData before
                 /\ fst out = Returned (dataUrl d))
             \/ (Forall noInlineData (firstCandidateParts response)
                 /\ fst out
                    = Thrown (Error "Image editing failed or returned no data."))
         end
  end.
Proof.
  cbv zeta. unfold editImage, bind, act. cbv zeta.
  destruct (fileToPart file (backstage s)) as [[imagePart | e] w]; [| reflexivity].
  cbn [backstage actions]. unfold editRequest, MODEL_IMAGE_EDIT.
  destruct (models_generateContent apiKey _ w) as [[response | e] w'];
    cbn [fst snd actions backstage]; rewrite <- ?app_assoc; [| now repeat split].
  match goal with
  | |- context [firstInlineData ?ps ?f ?st] =>
      destruct (firstInlineData_finds ps f st)
        as [[before [d [after [Hps [Hb Hr]]]]] | [Hall Hr]]; rewrite Hr
  end; cbn [fst snd actions backstage]; repeat split.
  - left. exists before, d, after. now repeat split.
  - now right.
Qed.

(** X28: when the video operation is done after [n] rounds of waiting five
    seconds and asking for its status, [generateVideo] stops after exactly
    those [n] rounds.  It then returns the URI of the first generated video
    followed by "&key=" and the API key; when that URI is missing or is the
    empty string it throws "Video generation failed.". *)
Theorem generateVideo_stops_when_done (rounds n : nat) (prompt apiKey : string)
    (aspectRatio : option VideoAspect) (s : Stage)
    (operation final : Operation) (w w' : Backstage) :
  models_generateVideos apiKey
    (videoRequest prompt (MemoryBankService.orElse aspectRatio landscape))
    (backstage s) = (Returned operation, w) ->
  doneAfter apiKey operation w n final w' ->
  (n <= rounds)%nat ->
  let out := generateVideo rounds prompt apiKey aspectRatio s in
  backstage (snd out) = w'
  /\ (exists polls,
         actions (snd out)
           = actions s
               ++ GenerateVideos apiKey
                    (videoRequest prompt
                       (MemoryBankService.orElse aspectRatio landscape))
               :: polls
         /\ length polls = (2 * n)%nat
         /\ roundsOnly polls = true)
  /\ (forall u, videoUri final = Some u -> u <> ""%string ->
        fst out = Returned (Some (u ++ "&key=" ++ apiKey)%string))
  /\ (videoUri final = None \/ videoUri final = Some ""%string ->
        fst out = Thrown (Error "Video generation failed.")).
Proof.
  intros Hstart Hdone Hle. cbv zeta.
  unfold generateVideo, bind, act. cbv zeta. rewrite Hstart.
  destruct (awaitDone_reaches apiKey operation w n final w' Hdone rounds
              (actions s
                 ++ [GenerateVideos apiKey
                       (videoRequest prompt
                          (MemoryBankService.orElse aspectRatio landscape))])
              Hle) as [polls [Hrun [Hlen Hshape]]].
  rewrite Hrun.
  destruct (videoUri final) as [u |] eqn:Huri;
    [destruct (String.eqb_spec u "") as [Hempty | Hfull] |];
    unfold throw, ret; cbn [fst snd backstage actions];
    (split; [reflexivity |]);
    (split; [exists polls; rewrite <- app_assoc; now repeat split |]).
  - split; [intros u' Hu' Hne; congruence | reflexivity].
  - split; [intros u' Hu' _; now injection Hu' as <- |].
    intros [Hu | Hu]; congruence.
  - split; [intros u' Hu'; discriminate | reflexivity].
Qed.

(** X6: as long as the status requests keep answering with an operation that
    is not done, [generateVideo] never returns: however many rounds it is
    given, it is still polling after them, having waited and asked once in
    each. *)
Theorem generateVideo_polls_until_done (prompt apiKey : string)
    (aspectRatio : option VideoAspect) (s : Stage)
    (operation : Operation) (w : Backstage) :
  (forall operation w, done operation = false ->
     exists next w',
       operations_getVideosOperation apiKey operation w = (Returned next, w')
       /\ done next = false) ->
  models_generateVideos apiKey
    (videoRequest prompt (MemoryBankService.orElse aspectRatio landscape))
    (backstage s) = (Returned operation, w) ->
  done operation = false ->
  forall rounds,
    let out := generateVideo rounds prompt apiKey aspectRatio s in
    fst out = Returned None
    /\ length (actions (snd out)) = (length (actions s) + 1 + 2 * rounds)%nat
    /\ length (filter isStatusRequest (actions (snd out)))
       = (length (filter isStatusRequest (actions s)) + rounds)%nat.
Proof.
  intros Hstall Hstart Hrun rounds. cbv zeta.
  unfold generateVideo, bind, act. cbv zeta. rewrite Hstart.
  match goal with
  | |- context [awaitDone rounds apiKey operation ?st] =>
      destruct (awaitDone_keeps_waiting apiKey Hstall rounds operation st Hrun)
        as [Hout [polls [Hact [Hlen Hshape]]]];
      destruct (awaitDone rounds apiKey operation st) as [o st'] eqn:E
  end.
  cbn [fst snd] in Hout, Hact. subst o. cbn [ret fst snd].
  unfold ret. cbn [fst snd]. rewrite Hact. cbn [actions].
  split; [reflexivity |]. split.
  - rewrite !length_app. cbn [length]. lia.
  - rewrite !filter_app, !length_app. cbn [filter isStatusRequest length].
    f_equal. rewrite Nat.add_0_r. f_equal.
    clear - Hlen Hshape. revert polls Hlen Hshape.
    induction rounds as [| rounds IH]; intros [| a [| b polls]] Hlen Hshape;
      cbn [length] in Hlen; try lia; try reflexivity;
      cbn [roundsOnly] in Hshape; try discriminate.
    apply andb_prop in Hshape as [Hab Hrest]. apply andb_prop in Hab as [Ha Hb].
    destruct a; try discriminate. destruct b; try discriminate.
    cbn [filter isStatusRequest length]. f_equal. apply IH; [lia | exact Hrest].
Qed.

End MediaProperties.

(** ** The properties at concrete collaborators *)

(** A plan step without tool calls: the executor returns the response text
    with an empty tool-usage list. *)
Example executeAgent_without_tool_calls :
  fst (@executeAgent quiet ORCHESTRATOR "hello" "" "key" "en-US"
         (initialState quiet 0%Z))
  = Returned {| res_text := "Understood."; isPaused := false;
                pauseReason := None; toolUsage := Some [] |}.
Proof. vm_compute. reflexivity. Qed.

(** A missing credential is raised before any work starts. *)
Example missing_credential_is_fatal :
  @runMultiAgentSystem quiet "hello" sixTurns "" None None None
    (initialState quiet 0%Z)
  = (Thrown (Error "API Key is required"), initialState quiet 0%Z).
Proof. reflexivity. Qed.

(** A whole run: the planner's text does not parse, the fallback plan runs
    the orchestrator directly, and the answer is synthesized and scored. *)
Example fallback_run_completes :
  match fst (@runMultiAgentSystem quiet "hello" [] "key" None None None
               (initialState quiet 0%Z)) with
  | Returned (CompletedRun parsed agents mode evaluation metrics) =>
      agents = [ORCHESTRATOR] /\ mode = DIRECT
      /\ evaluation = {| score := 9 # 1; feedback := "Relevant.";
                         latencyMs := 1; tokenCost := 2 |}
      /\ map metric_name metrics
         = ["PlanningLatency"; "AgentExecutionTime"; "TotalLatency"]
  | _ => False
  end.
Proof. vm_compute. repeat split. Qed.

Lemma executor_stops_after_five_turns_witness :
  exists cfg first (turns : list ResolvedTurn) builtIn res s',
    @executeAgent insistent HEALTH "Record my asthma" "" "key" "en-US"
      (initialState insistent 0%Z) = (Returned res, s')
    /\ length turns = 5%nat
    /\ calls s'
       = calls (initialState insistent 0%Z)
         ++ ChatCreateCall cfg
            :: SendMessageCall (Instruction "Record my asthma") (Returned first)
            :: map turnEvent turns
    /\ Forall (fun t => resolvableName (turnName t) = true) turns
    /\ answersInTurn first turns
    /\ toolUsage res = Some (builtIn ++ map turnName turns)
    /\ res = {| res_text := "Task Completed."; isPaused := false;
                pauseReason := None;
                toolUsage := Some [ "updateMemory"; "updateMemory"; "updateMemory";
                                    "updateMemory"; "updateMemory" ] |}.
Proof.
  assert (Hall : forall chat msg w, exists r w',
            @sendMessage insistent chat msg w = (Returned r, w')
            /\ carriesResolvableCall r = true).
  { intros chat msg w. exists (callResponse "updateMemory" someArgs), w.
    split; reflexivity. }
  destruct (@executor_stops_after_five_turns insistent Hall HEALTH "Record my asthma"
              "" "key" "en-US" (initialState insistent 0%Z))
    as [cfg [first [turns [builtIn [res [s' [E [Hlen [Hcalls [Hok [Hchain
         [Htools _]]]]]]]]]]]].
  exists cfg, first, turns, builtIn, res, s'.
  split; [exact E |]. split; [exact Hlen |]. split; [exact Hcalls |].
  split; [exact Hok |]. split; [exact Hchain |]. split; [exact Htools |].
  pose proof E as E'. vm_compute in E'. now injection E' as <- _.
Defined.

Lemma resume_without_sequential_plan_witness :
  exists answer rest,
    calls (snd (@runMultiAgentSystem quiet "How am I doing?" sixTurns "key"
                  None None (Some parallelCheckpoint) (initialState quiet 0%Z)))
    = calls (initialState quiet 0%Z)
      ++ GenerateContentCall
           (@synthesisRequest "How am I doing?"
              [ (HEALTH, "Resting heart rate is normal.") ] [] ""
              (MemoryBankService.getFormattedContext blankContext)
              "en-US" false) answer
         :: rest
    /\ Forall (fun e => isAgentCall e = false) rest.
Proof.
  refine (proj2 (@resume_without_sequential_plan quiet "How am I doing?" sixTurns
                   "key" None None parallelCheckpoint (initialState quiet 0%Z) _ _));
    discriminate.
Defined.

Lemma planning_failure_falls_back_witness :
  fst (@planningPhase failing "Hello there" "" "key" None
         (snd (@now failing (initialState failing 0%Z))))
  = Returned
      {| l_plan := {| mode := DIRECT;
                      steps := [ {| agent := ORCHESTRATOR;
                                    instruction := "Hello there" |} ];
                      reasoning := "Fallback." |};
         l_accumulatedContext :=
           initialContext "Hello there" "sess_0_abc" ""
             (MemoryBankService.getFormattedContext blankContext);
         l_agentOutputs := [];
         l_startStepIndex := 0 |}.
Proof.
  pose proof (@planning_failure_falls_back failing "Hello there" [] "key" None None
                (initialState failing 0%Z) _ _ "" _
                ltac:(discriminate) eq_refl eq_refl) as H.
  cbv zeta in H. destruct H as [H _]. rewrite H. reflexivity.
Defined.

Lemma compaction_of_prior_turns_witness :
  @compactionPhase quiet sixTurns "key" None (initialState quiet 0%Z)
  = (Returned
       ("USER: Hi" ++ nl ++ "MODEL: Hello" ++ nl ++ "USER: I have asthma" ++ nl
        ++ "MODEL: Noted" ++ nl ++ "USER: Air today?" ++ nl ++ "MODEL: AQI 40")%string,
     initialState quiet 0%Z)
  /\ calls (snd (@compactionPhase quiet sevenTurns "key" None (initialState quiet 0%Z)))
     = [ GenerateContentCall
           {| model := "gemini-2.5-flash-lite";
              role := None;
              contents :=
"Summarize this conversation concisely, retaining key facts, user goals, and latest state:

USER: Hi
MODEL: Hello
USER: I have asthma
MODEL: Noted
USER: Air today?
MODEL: AQI 40
USER: Thanks";
              systemInstruction := None;
              responseSchema := None;
              thinkingBudget := None |}
           (Returned (textResponse "{}")) ].
Proof.
  assert (H6 : Forall (fun h => turn_parts h <> []) sixTurns)
    by (repeat constructor; discriminate).
  assert (H7 : Forall (fun h => turn_parts h <> []) sevenTurns)
    by (repeat constructor; discriminate).
  split.
  - destruct (@compaction_of_prior_turns quiet sixTurns "key" (initialState quiet 0%Z)
                ltac:(discriminate) H6) as [_ [Hshort _]].
    rewrite Hshort; [reflexivity | vm_compute; lia].
  - destruct (@compaction_of_prior_turns quiet sevenTurns "key" (initialState quiet 0%Z)
                ltac:(discriminate) H7) as [Hlong _].
    cbv zeta in Hlong. rewrite Hlong; [vm_compute; reflexivity | vm_compute; lia].
Defined.

Lemma loop_never_extends_tool_log_witness :
  fst (@executionPhase refining loopPlan None 0
         (initialContext "Plan my week" "sess_0_abc" ""
            (MemoryBankService.getFormattedContext blankContext))
         [] [] "key" "en-US"
         (snd (@planningPhase refining "Plan my week" "" "key" None
                 (snd (@now refining (initialState refining 0%Z))))))
  = Returned (Finished [ (EDUCATION, "Saved and drafted.") ] []).
Proof.
  pose proof (@loop_never_extends_tool_log refining "Plan my week" [] "key" None None
                (initialState refining 0%Z) _ _ "" _
                ltac:(discriminate) eq_refl eq_refl eq_refl) as H.
  cbv zeta in H. destruct H as [H _]. specialize (H []).
  cbn [l_plan l_startStepIndex l_accumulatedContext l_agentOutputs] in H.
  match type of H with
  | match ?x with _ => _ end =>
      match goal with
      | |- fst ?y = _ => change y with x
      end;
      destruct x as [[[r | outputs tools] | e] s'] eqn:E
  end.
  - contradiction.
  - subst tools. vm_compute in E. now injection E as -> _.
  - vm_compute in E. discriminate E.
Defined.

Lemma sequential_pause_returns_checkpoint_witness :
  exists r,
    fst (@runMultiAgentSystem pausing "Check my vitals" [] "key" None None None
           (initialState pausing 0%Z)) = Returned r
    /\ executionMode r = PAUSED
    /\ pausedState r
       = Some {| plan := twoStepPlan;
                 stepIndex := 2;
                 accumulatedContext :=
"User Query: Check my vitals
Session ID: sess_0_abc
History Context: 

      [MEMORY BANK - LONG TERM USER CONTEXT]
      Name: User
      Location: Unknown
      Health Profile: None recorded
      Learning Goals: None recorded
      Eco Preferences: None recorded
      Key Notes: 
    
[Output from HEALTH]: Vitals fetched.
[Paused Step EDUCATION]: Workflow Paused: awaiting confirmation";
                 agentOutputs := [ (HEALTH, "Vitals fetched.") ] |}.
Proof.
  set (s0 := initialState pausing 0%Z).
  set (context0 := initialContext "Check my vitals" "sess_0_abc" ""
                     (MemoryBankService.getFormattedContext blankContext)).
  set (s1 := snd (@now pausing s0)).
  set (s2 := snd (@planningPhase pausing "Check my vitals" "" "key" None s1)).
  set (first := @executeAgent pausing HEALTH "Fetch vitals" context0 "key" "en-US" s2).
  set (context1 := (context0 ++ outputAnnotation HEALTH "Vitals fetched.")%string).
  set (second := @executeAgent pausing EDUCATION "Await consent" context1 "key"
                   "en-US" (snd first)).
  set (paused := {| res_text := "Workflow Paused: awaiting confirmation";
                    isPaused := true;
                    pauseReason := Some "awaiting confirmation";
                    toolUsage := Some ["pauseWorkflow"] |}).
  assert (Hfirst : first
            = (Returned {| res_text := "Vitals fetched."; isPaused := false;
                           pauseReason := None; toolUsage := Some [] |}, snd first))
    by (vm_compute; reflexivity).
  assert (Hsecond : second = (Returned paused, snd second))
    by (vm_compute; reflexivity).
  destruct (@sequential_pause_returns_checkpoint pausing "Check my vitals" []
              "key" None None None s0 s1 s2 (snd second) ""
              {| l_plan := twoStepPlan; l_accumulatedContext := context0;
                 l_agentOutputs := []; l_startStepIndex := 0 |}
              {| at_index := 1; at_context := context1;
                 at_outputs := [ (HEALTH, "Vitals fetched.") ];
                 at_toolUsageLog := []; at_state := snd first |}
              {| agent := EDUCATION; instruction := "Await consent" |}
              paused)
    as [r [E [Hmode [Hstate _]]]].
  - discriminate.
  - reflexivity.
  - vm_compute. reflexivity.
  - reflexivity.
  - set (start := {| at_index := 0; at_context := context0; at_outputs := [];
                     at_toolUsageLog := []; at_state := s2 |}).
    exact (reaches_next twoStepPlan "key" "en-US" start start
             {| agent := HEALTH; instruction := "Fetch vitals" |} _ _
             (reaches_here _ _ _ start) eq_refl Hfirst eq_refl).
  - reflexivity.
  - exact Hsecond.
  - reflexivity.
  - exists r. rewrite E. split; [reflexivity | split; [exact Hmode |]].
    rewrite Hstate. vm_compute. reflexivity.
Defined.



(** ** The further properties at concrete collaborators *)

Lemma pause_halts_at_any_turn_witness :
  exists m s',
    @toolLoop pausing 3 0%Z tt (callResponse "pauseWorkflow" someArgs)
      ["googleSearch"] (initialState pausing 0%Z)
    = (Returned {| res_text := "Workflow Paused: awaiting confirmation";
                   isPaused := true;
                   pauseReason := Some "awaiting confirmation";
                   toolUsage := Some ["googleSearch"; "pauseWorkflow"] |}, s')
    /\ calls s' = []
    /\ memoryBank s' = blankContext
    /\ traceService s' = [m]
    /\ metric_name m = "AgentExecutionTime".
Proof.
  exact (@pause_halts_at_any_turn pausing 2 0%Z tt
           (callResponse "pauseWorkflow" someArgs) ["googleSearch"] _ someArgs []
           (initialState pausing 0%Z) eq_refl eq_refl eq_refl).
Defined.

Lemma unknown_tool_breaks_without_response_witness :
  exists s',
    @toolLoop stray 5 0%Z tt (callResponse "bookAppointment" someArgs) []
      (initialState stray 0%Z)
    = (Returned {| res_text := "Task Completed."; isPaused := false;
                   pauseReason := None;
                   toolUsage := Some ["bookAppointment"] |}, s')
    /\ calls s' = []
    /\ memoryBank s' = blankContext.
Proof.
  exact (@unknown_tool_breaks_without_response stray 4 0%Z tt
           (callResponse "bookAppointment" someArgs) [] _ []
           (initialState stray 0%Z) eq_refl eq_refl).
Defined.

Lemma executor_without_function_calls_witness :
  exists s',
    @executeAgent quiet ORCHESTRATOR "hello" "" "key" "en-US" (initialState quiet 0%Z)
    = (Returned {| res_text := "Understood."; isPaused := false;
                   pauseReason := None; toolUsage := Some [] |}, s')
    /\ memoryBank s' = blankContext.
Proof.
  destruct (@executor_without_function_calls quiet ORCHESTRATOR "hello" "" "key"
              "en-US" (initialState quiet 0%Z) (textResponse "Understood.") 1%Z
              eq_refl (or_introl eq_refl) ltac:(discriminate))
    as [s' [E [_ Hm]]].
  exists s'. split; [exact E | exact Hm].
Defined.

Lemma executor_throws_on_empty_candidates_witness :
  exists msg s',
    @executeAgent hollow HEALTH "hello" "" "key" "en-US" (initialState hollow 0%Z)
    = (Thrown (TypeError msg), s')
    /\ traceService s' = []
    /\ memoryBank s' = blankContext.
Proof.
  destruct (@executor_throws_on_empty_candidates hollow HEALTH "hello" "" "key"
              "en-US" (initialState hollow 0%Z) hollowResponse 1%Z eq_refl eq_refl)
    as [msg [s' [E [_ [Ht Hm]]]]].
  exists msg, s'. split; [exact E | split; [exact Ht | exact Hm]].
Defined.

Lemma only_sequential_suspends_witness :
  match @executionPhase pausing twoStepPlan None 0 "User Query: Check my vitals"
          [] [] "key" "en-US" (initialState pausing 0%Z) with
  | (Returned (Suspended r), _) =>
      executionMode r = PAUSED
      /\ exists checkpoint,
           pausedState r = Some checkpoint
           /\ plan checkpoint = twoStepPlan
           /\ (0 < stepIndex checkpoint <= 2)%nat
  | _ => False
  end.
Proof.
  destruct (@executionPhase pausing twoStepPlan None 0 "User Query: Check my vitals"
              [] [] "key" "en-US" (initialState pausing 0%Z))
    as [[[r | outputs tools] | e] s'] eqn:E.
  - exact (proj2 (@only_sequential_suspends pausing _ _ _ _ _ _ _ _ _ _ _ E)).
  - vm_compute in E. discriminate E.
  - vm_compute in E. discriminate E.
Defined.

Lemma fresh_plan_without_steps_witness :
  @executionPhase quiet (idlePlan LOOP) None 0 "" [] [] "key" "en-US"
    (initialState quiet 0%Z)
  = (Thrown (TypeError "Cannot read properties of undefined (reading 'agent')"),
     initialState quiet 0%Z)
  /\ @executionPhase quiet (idlePlan SEQUENTIAL) None 0 "" [] [] "key" "en-US"
       (initialState quiet 0%Z)
     = (Returned (Finished [] []), initialState quiet 0%Z).
Proof.
  split.
  - exact (@fresh_plan_without_steps quiet (idlePlan LOOP) 0 "" [] [] "key" "en-US"
             (initialState quiet 0%Z) eq_refl).
  - exact (@fresh_plan_without_steps quiet (idlePlan SEQUENTIAL) 0 "" [] [] "key"
             "en-US" (initialState quiet 0%Z) eq_refl).
Defined.



Lemma completed_run_reports_recent_metrics_witness :
  match @synthesisPhase quiet "hello" oneStepPlan [ (HEALTH, "Understood.") ] [] ""
          "key" "en-US" false 0%Z
          (@Build_State quiet 5%Z blankContext [metricA; metricB] []) with
  | (Returned (CompletedRun _ agents m _ metrics), _) =>
      agents = [HEALTH] /\ m = SEQUENTIAL
      /\ map metric_name metrics = ["PlanningLatency"; "TotalLatency"; "TotalLatency"]
  | _ => False
  end.
Proof.
  destruct (@synthesisPhase quiet "hello" oneStepPlan [ (HEALTH, "Understood.") ] [] ""
              "key" "en-US" false 0%Z
              (@Build_State quiet 5%Z blankContext [metricA; metricB] []))
    as [[result | e] s'] eqn:E.
  - destruct (@completed_run_reports_recent_metrics quiet _ _ _ _ _ _ _ _ _ _ _ _ E)
      as [parsed [ev [metrics [answer [out [m [-> [_ [_ [Hn [_ [_ Hm]]]]]]]]]]]].
    split; [reflexivity | split; [reflexivity |]].
    rewrite Hm. cbn. now rewrite Hn.
  - vm_compute in E. discriminate E.
Defined.

Lemma turn_without_part_is_fatal_witness :
  exists msg s',
    @runMultiAgentSystem quiet "hello" [turnOf "user" "Hi"; partlessTurn] "key"
      None None None (initialState quiet 0%Z)
    = (Thrown (TypeError msg), s')
    /\ calls s' = [].
Proof.
  destruct (@turn_without_part_is_fatal quiet "hello"
              [turnOf "user" "Hi"; partlessTurn] "key" None None
              (initialState quiet 0%Z) ltac:(discriminate)
              ltac:(apply Exists_cons_tl, Exists_cons_hd; reflexivity))
    as [msg [s' [E [Hc _]]]].
  exists msg, s'. split; [exact E | exact Hc].
Defined.

Lemma compaction_failure_is_fatal_witness :
  exists s',
    @runMultiAgentSystem offline "hello" sevenTurns "key" None None None
      (initialState offline 0%Z)
    = (Thrown (Rejected "offline"), s')
    /\ traceService s' = [].
Proof.
  assert (H7 : Forall (fun h => turn_parts h <> []) sevenTurns)
    by (repeat constructor; discriminate).
  destruct (@compaction_failure_is_fatal offline "hello" sevenTurns "key" None None
              (initialState offline 0%Z) (Rejected "offline") 1%Z
              ltac:(discriminate) H7 ltac:(vm_compute; lia) eq_refl)
    as [s' [E [_ Ht]]].
  exists s'. split; [exact E | exact Ht].
Defined.

Lemma recent_returns_what_was_recorded_witness :
  TraceService.getRecentMetrics (Some 2%Z) (recordAll [metricA; metricB] [metricB])
  = [metricA; metricB].
Proof.
  exact (proj2 (recent_returns_what_was_recorded [metricA; metricB] [metricB]
                  ltac:(discriminate))).
Defined.

Lemma getRecentMetrics_bounds_witness :
  length (TraceService.getRecentMetrics (Some 2%Z) [metricA; metricB; metricA]) = 2%nat
  /\ TraceService.getRecentMetrics (Some (-1)%Z) [metricA; metricB; metricA]
     = [metricB; metricA].
Proof.
  pose proof (getRecentMetrics_bounds 2 1 [metricA; metricB; metricA]
                ltac:(lia) ltac:(lia)) as H.
  cbv zeta in H. destruct H as [Hl [_ [_ Hneg]]]. split; [exact Hl | exact Hneg].
Defined.

Lemma clear_keeps_what_was_pushed_witness :
  In "likes tea"
    (notes (MemoryBankObjects.view
              (MemoryBankObjects.clear
                 (MemoryBankObjects.addNote "likes tea"
                    (MemoryBankObjects.clear (MemoryBankObjects.construct None 0%Z)))))).
Proof.
  exact (proj1 (proj2 (clear_keeps_what_was_pushed
                         (MemoryBankObjects.construct None 0%Z) "likes tea" 0%Z
                         ltac:(cbn; lia)))).
Defined.


Lemma generateVideo_stops_when_done_witness :
  fst (@Media.generateVideo
         (Media.rehearsal None (Some "https://videos.example/v1?alt=media") (Some 2%nat))
         5 "a cat on a skateboard" "key" None
         (@Media.emptyStage
            (Media.rehearsal None (Some "https://videos.example/v1?alt=media")
               (Some 2%nat)) 0%nat))
  = Returned (Some "https://videos.example/v1?alt=media&key=key").
Proof.
  set (studio := Media.rehearsal None (Some "https://videos.example/v1?alt=media")
                   (Some 2%nat)).
  set (final := Media.finishedWith (Some "https://videos.example/v1?alt=media")).
  pose proof (@generateVideo_stops_when_done studio 5 2 "a cat on a skateboard" "key"
                None (@Media.emptyStage studio 0%nat) Media.running final 0%nat 2%nat
                eq_refl
                (@Media.done_later studio "key" Media.running 0%nat Media.running
                   1%nat 1 final 2%nat eq_refl eq_refl
                   (@Media.done_later studio "key" Media.running 1%nat final 2%nat 0
                      final 2%nat eq_refl eq_refl
                      (@Media.done_now studio "key" final 2%nat eq_refl)))
                ltac:(lia)) as H.
  cbv zeta in H. destruct H as [_ [_ [H _]]].
  exact (H _ eq_refl ltac:(discriminate)).
Defined.

Lemma generateVideo_polls_until_done_witness :
  fst (@Media.generateVideo (Media.rehearsal None None None) 7 "a cat on a skateboard"
         "key" None (@Media.emptyStage (Media.rehearsal None None None) 0%nat))
  = Returned None.
Proof.
  set (studio := Media.rehearsal None None None).
  assert (Hstall : forall operation w, Media.done operation = false ->
            exists next w',
              @Media.operations_getVideosOperation studio "key" operation w
              = (Returned next, w') /\ Media.done next = false).
  { intros operation w _. exists Media.running, (S w). split; reflexivity. }
  pose proof (@generateVideo_polls_until_done studio "a cat on a skateboard" "key"
                None (@Media.emptyStage studio 0%nat) Media.running 0%nat
                Hstall eq_refl eq_refl 7%nat) as H.
  cbv zeta in H. exact (proj1 H).
Defined.

Lemma getContext_copy_shares_arrays_witness :
  notes (MemoryBankObjects.readThrough
           (MemoryBankObjects.heap
              (MemoryBankObjects.addNote "likes tea"
                 (MemoryBankObjects.construct None 0%Z)))
           (MemoryBankObjects.getContext (MemoryBankObjects.construct None 0%Z)))
  = ["likes tea"]
  /\ name (MemoryBankObjects.readThrough
             (MemoryBankObjects.heap
                (MemoryBankObjects.updateContext (renameTo "Ada") 7%Z
                   (MemoryBankObjects.construct None 0%Z)))
             (MemoryBankObjects.getContext (MemoryBankObjects.construct None 0%Z)))
     = "User".
Proof.
  assert (Hd : MemoryBankObjects.distinctArrays (MemoryBankObjects.construct None 0%Z)).
  { split; [repeat constructor; cbn; lia | repeat constructor; cbn; lia]. }
  pose proof (getContext_copy_shares_arrays (MemoryBankObjects.construct None 0%Z)
                "likes tea" MemoryBankService.healthConditionsKey (renameTo "Ada")
                7%Z Hd) as H.
  cbv zeta in H. destruct H as [_ [Hnote [_ Hupdate]]].
  split; [now rewrite Hnote | now rewrite Hupdate].
Defined.


Lemma evaluateResponse_result_witness :
  fst (@evaluateResponse offline "How is the air?" "AQI is 40 today." "key"
         (initialState offline 0%Z))
  = Returned {| score := 8 # 1; feedback := "Evaluation service unavailable.";
                latencyMs := 0; tokenCost := 0 |}
  /\ fst (@evaluateResponse quiet "How is the air?" "AQI is 40 today." "key"
            (initialState quiet 0%Z))
     = Returned {| score := 9 # 1; feedback := "Relevant.";
                   latencyMs := 1; tokenCost := 4 |}.
Proof.
  split.
  - destruct (@evaluateResponse_result offline "How is the air?" "AQI is 40 today."
                "key" (initialState offline 0%Z)) as [r [s' [E H]]].
    rewrite E. cbn in H. now rewrite H.
  - destruct (@evaluateResponse_result quiet "How is the air?" "AQI is 40 today."
                "key" (initialState quiet 0%Z)) as [r [s' [E H]]].
    rewrite E. vm_compute in H. now rewrite H.
Defined.

Lemma pause_without_arguments_throws_after_metric_witness :
  exists m s',
    @toolLoop quiet 5 0%Z tt (bareCallResponse "pauseWorkflow") []
      (initialState quiet 0%Z)
    = (Thrown (TypeError "Cannot read properties of undefined (reading 'reason')"), s')
    /\ calls s' = []
    /\ memoryBank s' = blankContext
    /\ traceService s' = [m]
    /\ metric_name m = "AgentExecutionTime".
Proof.
  exact (@pause_without_arguments_throws_after_metric quiet 4 0%Z tt
           (bareCallResponse "pauseWorkflow") [] _ [] (initialState quiet 0%Z)
           eq_refl eq_refl eq_refl).
Defined.
